(** * asyncoro: the discoro scheduler, the Computation client and the
      HTTP monitor, embedded from [py3/asyncoro/discoro.py] and
      [py3/asyncoro/httpd.py].

    Conventions of the embedding.

    - Objects.  The node and server objects of the scheduler live in an
      object store (finite maps from references); dictionaries and local
      variables hold references, so an object that was taken out of a
      dictionary can still be reached by the coroutine that holds it.
    - Dictionaries are insertion-ordered association lists keyed by
      strings; loops run over them in that order.
    - Numbers.  Counts and intervals are integers; clock readings and the
      load of a node are IEEE 754 binary64 values.
    - Generators are functions in a state-and-exception monad.  A function
      runs from its call to its return with no other coroutine in
      between; [yield f(...)] of a nested generator is a call; what the
      runtime hands back at a suspension point (the reply of an agent, the
      result of a delivery, the clock) is an argument of the function.
      [_Server.run] is cut in two at the receive that waits for the
      agent's reply, so that another coroutine can run in between.
      [__close_node] and [__close_computation] are resumable: a call
      runs up to the next [yield server.coro.deliver(...)] and returns
      what the coroutine holds on to there; resuming runs on from the
      return of that deliver, in whatever state the other coroutines
      have left.
    - Messages.  Every message handed to the runtime, and every coroutine
      created with [Coro(...)], is appended to a trace. *)

From Stdlib Require Import ZArith String Ascii List Bool Lia SpecFloat.
From stdpp Require Import base option gmap strings list.

Set Warnings "-register-all".

Local Open Scope string_scope.
Local Open Scope Z_scope.

(** ** Values exchanged with the runtime *)

Module Location.
(** [asyncoro.Location]: host address and port of a task endpoint. *)
Record t := mk { addr : string; port : Z }.

Definition eqb (a b : t) : bool :=
  String.eqb (addr a) (addr b) && Z.eqb (port a) (port b).
End Location.

Module Coro.
(** A handle on a (possibly remote) coroutine. *)
Record t := mk { name : string; id : Z; location : Location.t }.
End Coro.

(** Decimal rendering of an integer, as [str(int)] prints it. *)
Definition digit_of (n : nat) : ascii := ascii_of_nat (48 + n).

Fixpoint nat_digits (fuel n : nat) (acc : string) : string :=
  match fuel with
  | O => acc
  | S fuel' =>
      let acc' := String (digit_of (n mod 10)) acc in
      match (n / 10)%nat with
      | O => acc'
      | q => nat_digits fuel' q acc'
      end
  end.

Definition str_nat (n : nat) : string := nat_digits (S n) n "".

Definition str_int (z : Z) : string :=
  if z <? 0 then ("-" ++ str_nat (Z.abs_nat z))%string else str_nat (Z.abs_nat z).

(** Modelled from the spec: the string form of a [Location] is
    ["addr:port"]; the class itself belongs to the message transport,
    which is outside the sources at hand. *)
Definition str_Location (l : Location.t) : string :=
  (Location.addr l ++ ":" ++ str_int (Location.port l))%string.

(** Modelled from the spec: the string form of a task handle is the task
    id used as dictionary key; the HTTP monitor splits it at ['@'] into a
    task part and the location's string form.  The class belongs to the
    message transport, which is outside the sources at hand. *)
Definition str_Coro (c : Coro.t) : string :=
  (Coro.name c ++ "/" ++ str_int (Coro.id c) ++ "@"
     ++ str_Location (Coro.location c))%string.

(** The Python values that travel in messages. *)
Inductive pyval :=
| PNone
| PInt (z : Z)
| PStr (s : string)
| PBytes (s : string)
| PLocation (l : Location.t)
| PCoro (c : Coro.t)
| PList (vs : list pyval)
| PTuple (vs : list pyval)
| PDict (kvs : list (string * pyval))
| PMonitorException (arg0 arg1 : pyval)
| PDiscoroStatus (status : Z) (info : pyval)
| PPeerStatus (name : string) (location : Location.t) (online : bool).

(** [bool(v)]: Python truthiness. *)
Definition truthy (v : pyval) : bool :=
  match v with
  | PNone => false
  | PInt z => negb (z =? 0)
  | PStr s | PBytes s => negb (String.eqb s "")
  | PList vs | PTuple vs => negb (Nat.eqb (List.length vs) 0)
  | PDict kvs => negb (Nat.eqb (List.length kvs) 0)
  | _ => true
  end.

Definition is_None (v : pyval) : bool :=
  match v with PNone => true | _ => false end.

(** [v == s] for a string [s]. *)
Definition eq_str (v : pyval) (s : string) : bool :=
  match v with PStr t => String.eqb t s | _ => false end.

(** [o == v] where [o] is [None] or a string. *)
Definition eq_opt_str (o : option string) (v : pyval) : bool :=
  match o, v with
  | None, PNone => true
  | Some s, PStr t => String.eqb s t
  | _, _ => false
  end.

(** [isinstance(v, Coro)] *)
Definition isinstance_Coro (v : pyval) : bool :=
  match v with PCoro _ => true | _ => false end.

(** ** Python dictionaries

    Insertion-ordered, keyed by strings. *)
Module dict.
Definition t (V : Type) := list (string * V).

Section Ops.
Context {V : Type}.

Fixpoint get (d : t V) (k : string) : option V :=
  match d with
  | [] => None
  | (k', v) :: d' => if String.eqb k' k then Some v else get d' k
  end.

(** [d[k] = v] *)
Fixpoint set (d : t V) (k : string) (v : V) : t V :=
  match d with
  | [] => [(k, v)]
  | (k', v') :: d' =>
      if String.eqb k' k then (k', v) :: d' else (k', v') :: set d' k v
  end.

Fixpoint remove (d : t V) (k : string) : t V :=
  match d with
  | [] => []
  | (k', v) :: d' => if String.eqb k' k then d' else (k', v) :: remove d' k
  end.

(** [d.pop(k, None)] *)
Definition pop (d : t V) (k : string) : option V * t V := (get d k, remove d k).

Definition keys (d : t V) : list string := map fst d.
Definition values (d : t V) : list V := map snd d.
Definition len (d : t V) : nat := List.length d.
Definition empty : t V := [].
End Ops.
End dict.

(** ** Exceptions, results and the monad of generator bodies *)

Inductive exn :=
| AttributeError
| TypeError
| KeyError
| ZeroDivisionError
| OverflowError
| Exception_ (msg : string).

(** The outcome of running a body: a returned value, a raised exception,
    or a coroutine left suspended at a receive nobody answers. *)
Inductive res (A : Type) :=
| Ret (a : A)
| Raise (e : exn)
| Suspended.
Arguments Ret {A} a.
Arguments Raise {A} e.
Arguments Suspended {A}.

#[export] Instance res_ret : MRet res := fun _ a => Ret a.
#[export] Instance res_bind : MBind res := fun _ _ f m =>
  match m with
  | Ret a => f a
  | Raise e => Raise e
  | Suspended => Suspended
  end.

Definition M (S A : Type) : Type := S -> res A * S.

#[export] Instance M_ret {S} : MRet (M S) := fun _ a s => (Ret a, s).
#[export] Instance M_bind {S} : MBind (M S) := fun _ _ f m s =>
  match m s with
  | (Ret a, s') => f a s'
  | (Raise e, s') => (Raise e, s')
  | (Suspended, s') => (Suspended, s')
  end.

Definition raise {S A} (e : exn) : M S A := fun s => (Raise e, s).
Definition gets {S A} (f : S -> A) : M S A := fun s => (Ret (f s), s).
Definition modify {S} (f : S -> S) : M S unit := fun s => (Ret tt, f s).
Definition lift_res {S A} (r : res A) : M S A := fun s => (r, s).

(** [for x in xs: body x] *)
Fixpoint for_each {S A} (xs : list A) (body : A -> M S unit) : M S unit :=
  match xs with
  | [] => mret tt
  | x :: xs' => body x ≫= fun _ => for_each xs' body
  end.

(** ** Floating point

    Python floats are IEEE 754 binary64 values. *)
Abbreviation float := spec_float.
Definition prec : Z := 53.
Definition emax : Z := 1024.

(** [float(z)] for an int [z]: correctly rounded, [OverflowError] when the
    int is too large. *)
Definition py_float (z : Z) : res float :=
  match binary_normalize prec emax z 0 false with
  | S754_infinity _ => Raise OverflowError
  | f => Ret f
  end.

Definition float_is_zero (f : float) : bool :=
  match f with S754_zero _ => true | _ => false end.

(** [x / n] for a float [x] and an int [n]. *)
Definition float_truediv (x : float) (n : Z) : res float :=
  y ← py_float n;
  if float_is_zero y then Raise ZeroDivisionError else Ret (SFdiv prec emax x y).

(** [x < y] and [x - y] on floats. *)
Definition float_lt (x y : float) : bool := SFltb x y.
Definition float_sub (x y : float) : float := SFsub prec emax x y.

(** [x > n] for a float [x] and an int [n]; Python compares the two
    exactly, without rounding the int. *)
Definition float_gt_int (x : float) (n : Z) : bool :=
  match x with
  | S754_nan => false
  | S754_infinity s => negb s
  | S754_zero _ => n <? 0
  | S754_finite s m e =>
      let v := if s then Z.neg m else Z.pos m in
      if 0 <=? e then n <? v * 2 ^ e else n * 2 ^ (- e) <? v
  end.

(** ** Messages handed to the runtime *)

Definition ref := nat.

(** Coroutines created with [Coro(target, args...)]; they start running
    at a later turn of the event loop. *)
Inductive Task :=
| T_setup_server (server : ref)
| T_close_server (server : ref)
| T_close_node (node : ref)
| T_close_computation
| T_run (func : pyval) (client : Coro.t)
| T_Node_run (node : ref) (func : pyval) (client : Coro.t)
| T_Server_run (server : ref) (func : pyval) (client : Coro.t)
| T_pulse_proc.

Inductive Event :=
| Send (to : Coro.t) (msg : pyval)                         (* to.send(msg) *)
| Deliver (to : Coro.t) (msg : pyval) (timeout : option Z) (* yield to.deliver(msg, timeout) *)
| Locate (name : string) (location : pyval) (timeout : Z)  (* yield Coro.locate(...) *)
| SendFile (location : Location.t) (path : string) (dir : pyval) (timeout : Z)
| Receive (timeout : option Z)                             (* yield coro.receive(timeout) *)
| AtExit                                                   (* atexit.register(self.close) *)
| Spawn (task : Task).                                     (* Coro(target, ...) *)

(** [msg.get(k, default)] on a dictionary message. *)
Definition pydict_get (kvs : list (string * pyval)) (k : string) (default : pyval) : pyval :=
  match dict.get kvs k with Some v => v | None => default end.

(** ** Module constants *)

Definition MsgTimeout : Z := 10.
Definition MinPulseInterval : Z := MsgTimeout.
Definition MaxPulseInterval : Z := 10 * MinPulseInterval.

(** ** String helpers used by the constructor *)

Definition endswith (s suffix : string) : bool :=
  let n := String.length s in
  let k := String.length suffix in
  Nat.leb k n && String.eqb (substring (n - k) k s) suffix.

Definition is_space (c : ascii) : bool :=
  let n := nat_of_ascii c in
  (Nat.leb 9 n && Nat.leb n 13) || (Nat.leb 28 n && Nat.leb n 32).

Fixpoint lstrip (s : string) : string :=
  match s with
  | String c s' => if is_space c then lstrip s' else s
  | EmptyString => EmptyString
  end.

(** ** class Computation *)

Module Computation.

Record t := mk {
  _code : string;
  _xfer_funcs : gset string;
  _xfer_files : list string;
  _node_xfers : list string;
  status_coro : pyval;
  _auth : pyval;
  scheduler : pyval;
  _pulse_coro : pyval;
  pulse_interval : Z;
  timeout : Z;
  zombie_period : option Z
}.

Definition with_code (c : t) (v : string) : t :=
  mk v (_xfer_funcs c) (_xfer_files c) (_node_xfers c) (status_coro c) (_auth c)
     (scheduler c) (_pulse_coro c) (pulse_interval c) (timeout c) (zombie_period c).
Definition with_xfer_funcs (c : t) (v : gset string) : t :=
  mk (_code c) v (_xfer_files c) (_node_xfers c) (status_coro c) (_auth c)
     (scheduler c) (_pulse_coro c) (pulse_interval c) (timeout c) (zombie_period c).
Definition with_xfer_files (c : t) (v : list string) : t :=
  mk (_code c) (_xfer_funcs c) v (_node_xfers c) (status_coro c) (_auth c)
     (scheduler c) (_pulse_coro c) (pulse_interval c) (timeout c) (zombie_period c).
Definition with_status_coro (c : t) (v : pyval) : t :=
  mk (_code c) (_xfer_funcs c) (_xfer_files c) (_node_xfers c) v (_auth c)
     (scheduler c) (_pulse_coro c) (pulse_interval c) (timeout c) (zombie_period c).
Definition with_auth (c : t) (v : pyval) : t :=
  mk (_code c) (_xfer_funcs c) (_xfer_files c) (_node_xfers c) (status_coro c) v
     (scheduler c) (_pulse_coro c) (pulse_interval c) (timeout c) (zombie_period c).
Definition with_scheduler (c : t) (v : pyval) : t :=
  mk (_code c) (_xfer_funcs c) (_xfer_files c) (_node_xfers c) (status_coro c) (_auth c)
     v (_pulse_coro c) (pulse_interval c) (timeout c) (zombie_period c).
Definition with_pulse_coro (c : t) (v : pyval) : t :=
  mk (_code c) (_xfer_funcs c) (_xfer_files c) (_node_xfers c) (status_coro c) (_auth c)
     (scheduler c) v (pulse_interval c) (timeout c) (zombie_period c).

(** The components a computation is built from. *)
Inductive component :=
| C_str (path : string)                              (* path name of a file *)
| C_module (file : string)                           (* a module; its __file__ *)
| C_function (name : string) (source : option string)(* a (generator) function *)
| C_class (name : string) (source : option string)   (* a class *)
| C_object (class_name : string) (source : option string). (* an instance *)

Section Constructor.
(** The interpreter and the file system, as the constructor sees them:
    [os.path.abspath], [os.path.isfile], whether [open(path, 'rb')]
    succeeds and whether [compile(code, '<string>', 'exec')] accepts
    the code; [inspect.getsource] fails on a component whose source
    is [None]. *)
Variable abspath : string -> string.
Variable isfile : string -> bool.
Variable can_open : string -> bool.
Variable compiles : string -> bool.

Definition add_file (dep : string) (st : t * gset string) : res (t * gset string) :=
  let '(self, depends) := st in
  if bool_decide (dep ∈ depends) then Ret st
  else if negb (can_open dep) then
    Raise (Exception_ "File is not valid")
  else Ret (with_xfer_files self (_xfer_files self ++ [dep]), {[dep]} ∪ depends).

Definition add_source (name : string) (source : option string)
    (st : t * gset string) : res (t * gset string) :=
  let '(self, depends) := st in
  if bool_decide (name ∈ depends) then Ret st
  else
    match source with
    | None => Raise (Exception_ "could not get source code")
    | Some src =>
        let self := with_xfer_funcs self ({[name]} ∪ _xfer_funcs self) in
        Ret (with_code self (_code self ++ String "010" (lstrip src))%string,
             {[name]} ∪ depends)
    end.

Definition add_component (dep : component) (st : t * gset string) : res (t * gset string) :=
  match dep with
  | C_str path => add_file path st
  | C_module file =>
      let dep := if endswith file ".pyc"
                 then substring 0 (String.length file - 1) file else file in
      let dep := abspath dep in
      if negb (endswith dep ".py" && isfile dep) then
        Raise (Exception_ "Invalid module - must be python source.")
      else add_file dep st
  | C_function name source | C_class name source | C_object name source =>
      add_source name source st
  end.

Fixpoint add_components (components : list component) (st : t * gset string)
    : res (t * gset string) :=
  match components with
  | [] => Ret st
  | dep :: rest => add_component dep st ≫= add_components rest
  end.

(** [Computation(components, status_coro, timeout, pulse_interval,
    zombie_period)] *)
Definition __init__ (components : list component) (status_coro : pyval)
    (timeout pulse_interval : Z) (zombie_period : option Z) : res t :=
  if (pulse_interval <? MinPulseInterval) || (MaxPulseInterval <? pulse_interval) then
    Raise (Exception_ "pulse_interval must be at least 10 and at most 100")
  else if (timeout <? 1) || (MaxPulseInterval <? timeout) then
    Raise (Exception_ "timeout must be at least 1 and at most 100")
  else if negb (is_None status_coro) && negb (isinstance_Coro status_coro) then
    Raise (Exception_ "status_coro must be coroutine")
  else if match zombie_period with
          | Some z => negb (z =? 0) && (z <? MaxPulseInterval)
          | None => false
          end then
    Raise (Exception_ "zombie_period must be >= 100")
  else
    let self := mk "" ∅ [] [] status_coro PNone PNone PNone
                   pulse_interval timeout zombie_period in
    '(self, _) ← add_components components (self, ∅);
    if compiles (_code self) then Ret self
    else Raise (Exception_ "SyntaxError").
End Constructor.

(** The client process around one [Computation] object: the object
    itself, the messages it handed to the runtime, and the values the
    runtime hands back at the suspension points that wait for one, in
    order. *)
Record client := mk_client {
  self : t;
  out : list Event;
  inbox : list pyval
}.

Definition update (f : t -> t) : M client unit :=
  modify (fun c => mk_client (f (self c)) (out c) (inbox c)).

Definition emit (e : Event) : M client unit :=
  modify (fun c => mk_client (self c) (out c ++ [e]) (inbox c)).

(** [yield e]: hand [e] to the runtime and wait for its answer. *)
Definition yield_ (e : Event) : M client pyval := fun c =>
  match inbox c with
  | [] => (Suspended, mk_client (self c) (out c ++ [e]) [])
  | v :: rest => (Ret v, mk_client (self c) (out c ++ [e]) rest)
  end.

Definition as_Coro (v : pyval) : M client Coro.t :=
  match v with PCoro c => mret c | _ => raise AttributeError end.

Definition eq_int (v : pyval) (n : Z) : bool :=
  match v with PInt z => z =? n | _ => false end.

Section Methods.
(** [asyncoro.serialize], and the handles the runtime gives to the
    coroutines created along the way ([_schedule] and [_close] run as
    coroutines of their own, [_pulse_proc] becomes [_pulse_coro]). *)
Variable serialize : t -> string.
Variable coro : Coro.t.
Variable pulse_coro : Coro.t.
Variable close_coro : Coro.t.

Definition close : M client unit :=
  c ← gets self;
  (if truthy (_auth c) then
     (* _close *)
     sched ← as_Coro (scheduler c);
     let msg := PDict [("req", PStr "close_computation"); ("auth", _auth c);
                       ("client", PCoro close_coro)] in
     _ ← yield_ (Deliver sched msg (Some (timeout c)));
     update (fun c => with_auth c PNone)
   else mret tt);;
  c ← gets self;
  if truthy (_pulse_coro c) then
    p ← as_Coro (_pulse_coro c);
    emit (Send p (PStr "quit"))
  else mret tt.

(** [while True: resp = yield coro.receive(timeout=timeout) ...] *)
Fixpoint wait_scheduled (fuel : nat) (timeout : option Z) : M client pyval :=
  match fuel with
  | O => fun c => (Suspended, c)
  | S fuel' =>
      resp ← yield_ (Receive timeout);
      c ← gets self;
      match resp with
      | PDict kvs =>
          if match _auth c with
             | PStr a => eq_str (pydict_get kvs "auth" PNone) a
             | _ => false
             end && eq_str (pydict_get kvs "resp" PNone) "scheduled"
          then mret (PInt 0)
          else wait_scheduled fuel' timeout
      | _ => wait_scheduled fuel' timeout
      end
  end.

(** [for xf in self._xfer_files: ... send_file ...]; returns whether
    every file went through. *)
Fixpoint send_files (sched : Coro.t) (auth : pyval) (timeout : Z)
    (files : list string) : M client bool :=
  match files with
  | [] => mret true
  | xf :: rest =>
      r ← yield_ (SendFile (Coro.location sched) xf auth timeout);
      match r with
      | PInt z => if z <? 0 then mret false else send_files sched auth timeout rest
      | _ => raise TypeError
      end
  end.

Definition _schedule (timeout : option Z) : M client pyval :=
  update (fun c => with_pulse_coro c (PCoro pulse_coro));;
  emit (Spawn T_pulse_proc);;
  c ← gets self;
  sched ← as_Coro (scheduler c);
  let msg := PDict [("req", PStr "schedule"); ("computation", PBytes (serialize c));
                    ("client", PCoro coro)] in
  r ← yield_ (Deliver sched msg (Some (Computation.timeout c)));
  if negb (eq_int r 1) then close;; mret PNone
  else
    auth ← yield_ (Receive (Some (Computation.timeout c)));
    update (fun c => with_auth c auth);;
    match auth with
    | PStr _ =>
        emit AtExit;;
        sent ← (if negb (Location.eqb (Coro.location coro) (Coro.location sched))
                then send_files sched auth (Computation.timeout c) (_xfer_files c)
                else mret true);
        if negb sent then close;; mret (PInt (-1))
        else
          let msg := PDict [("req", PStr "await"); ("auth", auth);
                            ("client", PCoro coro)] in
          r ← yield_ (Deliver sched msg (Some (Computation.timeout c)));
          if negb (eq_int r 1) then close;; mret (PInt (-1))
          else
            pending ← gets inbox;
            wait_scheduled (S (List.length pending)) timeout
    | _ => close;; mret (PInt (-1))
    end.

(** [schedule(self, location=None, timeout=None)] *)
Definition schedule (location : pyval) (timeout : option Z) : M client pyval :=
  c ← gets self;
  if negb (is_None (_auth c)) then mret (PInt (-1))
  else if negb (is_None (status_coro c)) && negb (isinstance_Coro (status_coro c)) then
    mret (PInt (-1))
  else if negb (truthy (scheduler c)) then
    r ← yield_ (Locate "discoro_scheduler" location (Computation.timeout c));
    update (fun c => with_scheduler c r);;
    if negb (isinstance_Coro r) then mret (PInt (-1))
    else _schedule timeout
  else _schedule timeout.
(** [asyncoro.serialize(_Function(name, code, args, kwargs))], and the
    handle the runtime gives to the coroutine [_run] of [run_at] and
    [run_each]. *)
Variable serialize_function : string -> pyval -> pyval -> pyval -> string.
Variable run_coro : Coro.t.

(** The code sent along with a function: none when the function was
    packaged with the computation, else its source
    ([inspect.getsource(func).lstrip()], which fails when there is no
    source to get). *)
Definition function_code (name : string) (source : option string) : M client pyval :=
  c ← gets self;
  if bool_decide (name ∈ _xfer_funcs c) then mret PNone
  else
    match source with
    | Some src => mret (PStr (lstrip src))
    | None => raise (Exception_ "could not get source code")
    end.

(** [self.status_coro.send(DiscoroStatus(Scheduler.CoroCreated,
    CoroInfo(rcoro, args, kwargs, time.time())))]; [now] is the reading of
    the clock, carried along as it is. *)
Definition coro_created (rcoro args kwargs now : pyval) : M client unit :=
  c ← gets self;
  obs ← as_Coro (status_coro c);
  emit (Send obs (PDiscoroStatus 20 (PTuple [rcoro; args; kwargs; now]))).

(** [run_at(self, where, func, *args, **kwargs)] *)
Definition run_at (where_ : pyval) (name : string) (source : option string)
    (args kwargs now : pyval) : M client pyval :=
  code ← function_code name source;
  c ← gets self;
  sched ← as_Coro (scheduler c);
  let msg := PDict [("req", PStr "run"); ("auth", _auth c); ("where", where_);
                    ("client", PCoro run_coro);
                    ("func", PBytes (serialize_function name code args kwargs))] in
  r ← yield_ (Deliver sched msg (Some (timeout c)));
  if eq_int r 1 then
    rcoro ← yield_ (Receive (Some (timeout c)));
    (if truthy (status_coro c) && isinstance_Coro rcoro
     then coro_created rcoro args kwargs now else mret tt);;
    mret rcoro
  else mret PNone.

(** [for i in range(n): rcoro = yield coro.receive(...) ...]: [count]
    turns are left, [rcoros] is the list built so far. *)
Fixpoint collect_rcoros (count : nat) (args kwargs : pyval) (clock : list pyval)
    (rcoros : list pyval) : M client (list pyval) :=
  match count with
  | O => mret rcoros
  | S count' =>
      c ← gets self;
      rcoro ← yield_ (Receive (Some (timeout c)));
      if isinstance_Coro rcoro then
        (if truthy (status_coro c)
         then coro_created rcoro args kwargs (List.hd PNone clock) else mret tt);;
        collect_rcoros count' args kwargs (List.tl clock) (rcoros ++ [rcoro])
      else collect_rcoros count' args kwargs clock rcoros
  end.

(** [run_each(self, where, func, *args, **kwargs)]; [clock] are the
    readings of the clock, one for each handle reported to the observer. *)
Definition run_each (where_ : pyval) (name : string) (source : option string)
    (args kwargs : pyval) (clock : list pyval) : M client pyval :=
  code ← function_code name source;
  c ← gets self;
  sched ← as_Coro (scheduler c);
  let msg := PDict [("req", PStr "run_each"); ("auth", _auth c); ("where", where_);
                    ("client", PCoro run_coro);
                    ("func", PBytes (serialize_function name code args kwargs))] in
  n ← yield_ (Deliver sched msg (Some (timeout c)));
  if negb (eq_int n 1) then mret (PList [])
  else
    n ← yield_ (Receive (Some (timeout c)));
    match n with
    | PInt n =>
        rcoros ← collect_rcoros (Z.to_nat n) args kwargs clock [];
        mret (PList rcoros)
    | _ => raise TypeError
    end.

(** [_pulse_proc(self)] from the point where [last_pulse] holds the
    clock's first reading; [clock] are the readings of the clock at the
    turns of the loop. *)
Fixpoint _pulse_proc (clock : list float) (last_pulse : float) : M client unit :=
  match clock with
  | [] => fun c => (Suspended, c)
  | now :: clock' =>
      c ← gets self;
      msg ← yield_ (Receive (Some (2 * pulse_interval c)));
      if eq_str msg "pulse" then _pulse_proc clock' now
      else if eq_str msg "quit" then mret tt
      else if is_None msg then
        if float_gt_int (float_sub now last_pulse) (5 * pulse_interval c) then
          if truthy (_auth c) then
            update (fun c => with_pulse_coro c PNone);; close
          else mret tt
        else _pulse_proc clock' last_pulse
      else _pulse_proc clock' last_pulse
  end.
End Methods.
End Computation.

(** ** class Scheduler *)

Module Scheduler.

(** Status indications. *)
Definition NodeDiscovered : Z := 1.
Definition NodeInitialized : Z := 2.
Definition NodeClosed : Z := 3.
Definition NodeIgnore : Z := 4.
Definition NodeDisconnected : Z := 5.

Definition ServerDiscovered : Z := 11.
Definition ServerInitialized : Z := 12.
Definition ServerClosed : Z := 13.
Definition ServerIgnore : Z := 14.
Definition ServerDisconnected : Z := 15.

Definition CoroCreated : Z := 20.
Definition ComputationClosed : Z := 25.

(** [status == v], where [status] starts out as [None]. *)
Definition status_is (status : option Z) (v : Z) : bool :=
  match status with Some s => s =? v | None => false end.

Module _Node.
(** [servers] maps a location's string form to the server object. *)
Record t := mk {
  addr : string;
  servers : dict.t ref;
  ncoros : Z;
  status : option Z
}.
Definition with_servers (n : t) (v : dict.t ref) : t := mk (addr n) v (ncoros n) (status n).
Definition with_ncoros (n : t) (v : Z) : t := mk (addr n) (servers n) v (status n).
Definition with_status (n : t) (v : option Z) : t := mk (addr n) (servers n) (ncoros n) v.
(** [_Node(addr, scheduler)] *)
Definition new (addr : string) : t := mk addr dict.empty 0 None.
End _Node.

Module _Server.
(** [coros] maps a task id to the task handle, [done] maps a task id
    to the termination message that overtook the task's creation,
    [coro] is the handle of the remote server agent. *)
Record t := mk {
  name : string;
  location : Location.t;
  coros : dict.t Coro.t;
  done : dict.t pyval;
  status : option Z;
  coro : pyval;
  xfer_files : list string;
  last_pulse : float
}.
Definition with_coros (s : t) (v : dict.t Coro.t) : t :=
  mk (name s) (location s) v (done s) (status s) (coro s) (xfer_files s) (last_pulse s).
Definition with_done (s : t) (v : dict.t pyval) : t :=
  mk (name s) (location s) (coros s) v (status s) (coro s) (xfer_files s) (last_pulse s).
Definition with_status (s : t) (v : option Z) : t :=
  mk (name s) (location s) (coros s) (done s) v (coro s) (xfer_files s) (last_pulse s).
Definition with_xfer_files (s : t) (v : list string) : t :=
  mk (name s) (location s) (coros s) (done s) (status s) (coro s) v (last_pulse s).
Definition with_last_pulse (s : t) (v : float) : t :=
  mk (name s) (location s) (coros s) (done s) (status s) (coro s) (xfer_files s) v.
(** [_Server(name, location, scheduler)], created at time [now]. *)
Definition new (name : string) (location : Location.t) (now : float) : t :=
  mk name location dict.empty dict.empty None PNone [] now.
End _Server.

#[export] Instance node_inhabited : Inhabited _Node.t := populate (_Node.new "").
#[export] Instance server_inhabited : Inhabited _Server.t :=
  populate (_Server.new "" (Location.mk "" 0) (S754_zero false)).

(** The scheduler object, the store of the node and server objects it
    refers to, the directories on disk and the messages handed to the
    runtime so far. *)
Record t := mk {
  _nodes : dict.t ref;                  (* host address -> node object *)
  _cur_computation : option Computation.t;
  __cur_client_auth : option string;
  __pulse_interval : Z;
  __sched_event : bool;
  __dest_path : string;
  _status_coro : Coro.t;
  __timer_coro : Coro.t;
  nodes : gmap ref _Node.t;             (* object store *)
  servers : gmap ref _Server.t;
  next_ref : ref;
  dirs : list string;                   (* directories on disk *)
  trace : list Event
}.

Definition with_nodes_dict (w : t) (v : dict.t ref) : t :=
  mk v (_cur_computation w) (__cur_client_auth w) (__pulse_interval w) (__sched_event w)
     (__dest_path w) (_status_coro w) (__timer_coro w) (nodes w) (servers w) (next_ref w)
     (dirs w) (trace w).
Definition with_cur_computation (w : t) (v : option Computation.t) : t :=
  mk (_nodes w) v (__cur_client_auth w) (__pulse_interval w) (__sched_event w)
     (__dest_path w) (_status_coro w) (__timer_coro w) (nodes w) (servers w) (next_ref w)
     (dirs w) (trace w).
Definition with_cur_client_auth (w : t) (v : option string) : t :=
  mk (_nodes w) (_cur_computation w) v (__pulse_interval w) (__sched_event w)
     (__dest_path w) (_status_coro w) (__timer_coro w) (nodes w) (servers w) (next_ref w)
     (dirs w) (trace w).
Definition with_sched_event (w : t) (v : bool) : t :=
  mk (_nodes w) (_cur_computation w) (__cur_client_auth w) (__pulse_interval w) v
     (__dest_path w) (_status_coro w) (__timer_coro w) (nodes w) (servers w) (next_ref w)
     (dirs w) (trace w).
Definition with_nodes (w : t) (v : gmap ref _Node.t) : t :=
  mk (_nodes w) (_cur_computation w) (__cur_client_auth w) (__pulse_interval w)
     (__sched_event w) (__dest_path w) (_status_coro w) (__timer_coro w) v (servers w)
     (next_ref w) (dirs w) (trace w).
Definition with_servers (w : t) (v : gmap ref _Server.t) : t :=
  mk (_nodes w) (_cur_computation w) (__cur_client_auth w) (__pulse_interval w)
     (__sched_event w) (__dest_path w) (_status_coro w) (__timer_coro w) (nodes w) v
     (next_ref w) (dirs w) (trace w).
Definition with_next_ref (w : t) (v : ref) : t :=
  mk (_nodes w) (_cur_computation w) (__cur_client_auth w) (__pulse_interval w)
     (__sched_event w) (__dest_path w) (_status_coro w) (__timer_coro w) (nodes w)
     (servers w) v (dirs w) (trace w).
Definition with_dirs (w : t) (v : list string) : t :=
  mk (_nodes w) (_cur_computation w) (__cur_client_auth w) (__pulse_interval w)
     (__sched_event w) (__dest_path w) (_status_coro w) (__timer_coro w) (nodes w)
     (servers w) (next_ref w) v (trace w).
Definition with_trace (w : t) (v : list Event) : t :=
  mk (_nodes w) (_cur_computation w) (__cur_client_auth w) (__pulse_interval w)
     (__sched_event w) (__dest_path w) (_status_coro w) (__timer_coro w) (nodes w)
     (servers w) (next_ref w) (dirs w) v.

(** Object access. *)
Definition node_of (w : t) (r : ref) : _Node.t := nodes w !!! r.
Definition server_of (w : t) (r : ref) : _Server.t := servers w !!! r.

Definition get_node (r : ref) : M t _Node.t := gets (fun w => node_of w r).
Definition get_server (r : ref) : M t _Server.t := gets (fun w => server_of w r).
Definition update_node (r : ref) (f : _Node.t -> _Node.t) : M t unit :=
  modify (fun w => with_nodes w (<[r := f (node_of w r)]> (nodes w))).
Definition update_server (r : ref) (f : _Server.t -> _Server.t) : M t unit :=
  modify (fun w => with_servers w (<[r := f (server_of w r)]> (servers w))).

Definition new_node (n : _Node.t) : M t ref := fun w =>
  let r := next_ref w in
  (Ret r, with_next_ref (with_nodes w (<[r := n]> (nodes w))) (S r)).
Definition new_server (s : _Server.t) : M t ref := fun w =>
  let r := next_ref w in
  (Ret r, with_next_ref (with_servers w (<[r := s]> (servers w))) (S r)).

(** Messages. *)
Definition emit (e : Event) : M t unit := modify (fun w => with_trace w (trace w ++ [e])).

(** [target.send(msg)] *)
Definition send (target : pyval) (msg : pyval) : M t unit :=
  match target with
  | PCoro c => emit (Send c msg)
  | _ => raise AttributeError
  end.

(** [yield target.deliver(msg, timeout=timeout)] *)
Definition deliver (target : pyval) (msg : pyval) (timeout : option Z) : M t unit :=
  match target with
  | PCoro c => emit (Deliver c msg timeout)
  | _ => raise AttributeError
  end.

(** [if computation and computation.status_coro:
       computation.status_coro.send(msg)] *)
Definition notify (computation : option Computation.t) (msg : pyval) : M t unit :=
  match computation with
  | Some c =>
      if truthy (Computation.status_coro c) then send (Computation.status_coro c) msg
      else mret tt
  | None => mret tt
  end.

(** *** _Server.run *)

(** What [_Server.run] holds on to while it waits for the agent's
    reply: the server object, the node object it looked up and the
    client. *)
Record pending_run := mk_pending {
  run_self : ref;
  run_node : ref;
  run_client : Coro.t
}.

(** [_Server.run] up to the point where [_run] waits for the agent's
    reply; [coro] is the handle of the coroutine running [_run].
    [None] is the early [raise StopIteration(None)]. *)
Definition _Server_run_request (self : ref) (func : pyval) (client : Coro.t)
    (coro : Coro.t) : M t (option pending_run) :=
  server ← get_server self;
  if negb (status_is (_Server.status server) ServerInitialized) then mret None
  else
    node ← gets (fun w => dict.get (_nodes w) (Location.addr (_Server.location server)));
    computation ← gets _cur_computation;
    match node, computation with
    | Some node, Some computation =>
        (* _run: self.coro.send({...}) *)
        status_coro ← gets _status_coro;
        send (_Server.coro server)
             (PDict [("req", PStr "run"); ("auth", Computation._auth computation);
                     ("func", func); ("client", PCoro coro);
                     ("notify", PCoro status_coro)]);;
        mret (Some (mk_pending self node client))
    | _, _ => mret None
    end.

(** [_Server.run] from the agent's reply [rcoro] (a task handle, or
    [None] when the receive timed out) to the end. *)
Definition _Server_run_reply (k : pending_run) (rcoro : pyval) : M t unit :=
  rcoro ← match rcoro with
          | PCoro rc =>
              let key := str_Coro rc in
              server ← get_server (run_self k);
              let '(done, rest) := dict.pop (_Server.done server) key in
              update_server (run_self k) (fun s => _Server.with_done s rest);;
              if match done with Some d => is_None d | None => true end then
                update_server (run_self k)
                  (fun s => _Server.with_coros s (dict.set (_Server.coros s) key rc));;
                update_node (run_node k)
                  (fun n => _Node.with_ncoros n (_Node.ncoros n + 1));;
                mret rcoro
              else mret (default PNone done)
          | _ => mret rcoro
          end;
  emit (Deliver (run_client k) rcoro None).

(** [_Server.run(self, func, client)], the agent answering [reply]. *)
Definition _Server_run (self : ref) (func : pyval) (client : Coro.t)
    (coro : Coro.t) (reply : pyval) : M t unit :=
  k ← _Server_run_request self func client coro;
  match k with
  | Some k => _Server_run_reply k reply
  | None => mret tt
  end.

(** *** _Node.run *)

(** The loop of [_Node.run] over [self.servers.values()], with its two
    variables [where] and [load]. *)
Fixpoint _Node_run_loop (w : t) (servers : list ref) (where_ : option ref)
    (load : option nat) : option ref * option nat :=
  match servers with
  | [] => (where_, load)
  | server :: rest =>
      let s := server_of w server in
      if negb (status_is (_Server.status s) ServerInitialized) then
        _Node_run_loop w rest where_ load
      else if match load with
              | None => true
              | Some l => Nat.ltb (dict.len (_Server.coros s)) l
              end then
        _Node_run_loop w rest (Some server) (Some (dict.len (_Server.coros s)))
      else _Node_run_loop w rest where_ load
  end.

(** [_Node.run(self, func, client)] *)
Definition _Node_run (self : ref) (func : pyval) (client : Coro.t)
    (coro : Coro.t) (reply : pyval) : M t unit :=
  node ← get_node self;
  if negb (status_is (_Node.status node) NodeInitialized) then
    emit (Send client PNone)
  else
    w ← gets (fun w => w);
    match fst (_Node_run_loop w (dict.values (_Node.servers node)) None None) with
    | Some where_ => _Server_run where_ func client coro reply
    | None => emit (Send client PNone)
    end.

(** *** Scheduler.__run *)

(** [float(node.ncoros) / len(node.servers)] *)
Definition node_load (n : _Node.t) : res float :=
  x ← py_float (_Node.ncoros n);
  float_truediv x (Z.of_nat (dict.len (_Node.servers n))).

(** The loop of [__run] over [self._nodes.values()], with its two
    variables [host] and [load]. *)
Fixpoint __run_loop (w : t) (nodes : list ref) (host : option ref)
    (load : option float) : res (option ref * option float) :=
  match nodes with
  | [] => Ret (host, load)
  | node :: rest =>
      let n := node_of w node in
      if negb (status_is (_Node.status n) NodeInitialized) then
        __run_loop w rest host load
      else
        node_load ← node_load n;
        if match load with
           | None => true
           | Some l => float_lt node_load l
           end then
          __run_loop w rest (Some node) (Some node_load)
        else __run_loop w rest host load
  end.

(** [Scheduler.__run(self, func, client)] *)
Definition __run (func : pyval) (client : Coro.t) (coro : Coro.t) (reply : pyval)
    : M t unit :=
  w ← gets (fun w => w);
  '(host, _) ← lift_res (__run_loop w (dict.values (_nodes w)) None None);
  match host with
  | Some host => _Node_run host func client coro reply
  | None => emit (Send client PNone)
  end.

(** *** Teardown *)

(** [Scheduler.__close_server(self, server)] *)
Definition __close_server (server : ref) : M t Z :=
  computation ← gets _cur_computation;
  s ← get_server server;
  match computation with
  | Some c =>
      if negb (status_is (_Server.status s) ServerInitialized) then mret (-1)
      else
        (if negb (Nat.eqb (dict.len (_Server.coros s)) 0) then
           if truthy (Computation.status_coro c) then
             for_each (dict.keys (_Server.coros s)) (fun rcoro =>
               send (Computation.status_coro c)
                    (PMonitorException (PStr rcoro) (PTuple [PInt ServerClosed; PNone])))
           else mret tt
         else mret tt);;
        deliver (_Server.coro s)
                (PDict [("req", PStr "close"); ("auth", Computation._auth c)])
                (Some (Computation.timeout c));;
        update_server server (fun s =>
          _Server.with_done
            (_Server.with_coros
               (_Server.with_xfer_files (_Server.with_status s (Some ServerClosed)) [])
               dict.empty)
            dict.empty);;
        s ← get_server server;
        notify computation
               (PDiscoroStatus ServerClosed (PLocation (_Server.location s)));;
        mret 0
  | None => mret (-1)
  end.

(** [__close_server] waits at [yield server.coro.deliver(...)] until the
    agent has taken the close request; [__close_server] above is the run
    in which no other coroutine runs in the meantime.  Its two halves
    follow: up to the deliver, and from the return of the deliver on. *)

(** How far a resumable function got: it returned, or it waits at a
    suspension point with what it holds on to. *)
Inductive progress (K A : Type) :=
| Returned (a : A)
| Waiting (k : K).
Arguments Returned {K A} a.
Arguments Waiting {K A} k.

(** What [__close_server] holds on to while it waits: [server], and the
    object of its local variable [computation].  The object is held by
    value.  The scheduler assigns to a field of the current computation
    in one place only, [status_coro = None] at the start of
    [__close_computation], so what a call made inside
    [__close_computation] holds stays current while it waits. *)
Record closing_server := mk_closing_server {
  close_self : ref;
  close_computation : Computation.t
}.

Definition __close_server_request (server : ref) : M t (progress closing_server Z) :=
  computation ← gets _cur_computation;
  s ← get_server server;
  match computation with
  | Some c =>
      if negb (status_is (_Server.status s) ServerInitialized) then mret (Returned (-1))
      else
        (if negb (Nat.eqb (dict.len (_Server.coros s)) 0) then
           if truthy (Computation.status_coro c) then
             for_each (dict.keys (_Server.coros s)) (fun rcoro =>
               send (Computation.status_coro c)
                    (PMonitorException (PStr rcoro) (PTuple [PInt ServerClosed; PNone])))
           else mret tt
         else mret tt);;
        deliver (_Server.coro s)
                (PDict [("req", PStr "close"); ("auth", Computation._auth c)])
                (Some (Computation.timeout c));;
        mret (Waiting (mk_closing_server server c))
  | None => mret (Returned (-1))
  end.

Definition __close_server_reply (k : closing_server) : M t Z :=
  update_server (close_self k) (fun s =>
    _Server.with_done
      (_Server.with_coros
         (_Server.with_xfer_files (_Server.with_status s (Some ServerClosed)) [])
         dict.empty)
      dict.empty);;
  s ← get_server (close_self k);
  notify (Some (close_computation k))
         (PDiscoroStatus ServerClosed (PLocation (_Server.location s)));;
  mret 0.

(** The loops of [__close_node] and [__close_computation] run over the
    values of a dictionary.  Python checks at every turn that the
    dictionary has the size it had when the loop started and raises
    [RuntimeError] otherwise; what a loop does when entries were
    exchanged at equal size is left open by the language: here it goes on
    with the entries it had not reached. *)
Definition dict_changed_size : exn :=
  Exception_ "RuntimeError: dictionary changed size during iteration".

(** What [__close_node] holds on to while a call of [__close_server]
    waits: that call, [node], the object of its local variable
    [computation], the servers its loop has not reached and the size of
    [node.servers] when the loop started. *)
Record closing_node := mk_closing_node {
  node_server : closing_server;
  node_self : ref;
  node_computation : Computation.t;
  node_servers : list ref;
  node_servers_len : nat
}.

(** [for server in node.servers.values(): yield self.__close_server(server)]
    from the head of the loop on, and the statements after the loop. *)
Fixpoint close_node_loop (node : ref) (computation : Computation.t) (len : nat)
    (servers : list ref) : M t (progress closing_node pyval) :=
  match servers with
  | [] =>
      n ← get_node node;
      if negb (Nat.eqb (dict.len (_Node.servers n)) len) then raise dict_changed_size
      else
        update_node node (fun n =>
          _Node.with_status (_Node.with_ncoros n 0) (Some NodeClosed));;
        n ← get_node node;
        notify (Some computation) (PDiscoroStatus NodeClosed (PStr (_Node.addr n)));;
        mret (Returned PNone)
  | server :: rest =>
      n ← get_node node;
      if negb (Nat.eqb (dict.len (_Node.servers n)) len) then raise dict_changed_size
      else
        r ← __close_server_request server;
        match r with
        | Returned _ => close_node_loop node computation len rest
        | Waiting k => mret (Waiting (mk_closing_node k node computation rest len))
        end
  end.

(** [Scheduler.__close_node(self, node)], up to its first suspension. *)
Definition __close_node (node : ref) : M t (progress closing_node pyval) :=
  computation ← gets _cur_computation;
  match computation with
  | None => mret (Returned (PInt (-1)))
  | Some c =>
      n ← get_node node;
      close_node_loop node c (dict.len (_Node.servers n)) (dict.values (_Node.servers n))
  end.

(** [__close_node] from the return of the deliver it waits for, up to
    its next suspension. *)
Definition __close_node_resume (k : closing_node) : M t (progress closing_node pyval) :=
  _ ← __close_server_reply (node_server k);
  close_node_loop (node_self k) (node_computation k) (node_servers_len k) (node_servers k).

(** [os.path.join(a, b)] *)
Definition path_join (a b : string) : string :=
  if String.prefix "/" b then b
  else if String.eqb a "" || endswith a "/" then (a ++ b)%string
  else (a ++ "/" ++ b)%string.

(** [shutil.rmtree(path, ignore_errors=True)] on a disk where the
    removal meets no error: the directory and everything below it go. *)
Definition rmtree (path : string) (dirs : list string) : list string :=
  List.filter (fun d => negb (String.eqb d path || String.prefix (path ++ "/") d)) dirs.

(** [os.path.isdir(path)] *)
Definition isdir (dirs : list string) (path : string) : bool :=
  existsb (String.eqb path) dirs.

(** What [__close_computation] holds on to while a call of
    [__close_node] waits: that call, the nodes its loop has not reached
    and the size of [self._nodes] when the loop started. *)
Record closing_computation := mk_closing_computation {
  computation_node : closing_node;
  computation_nodes : list ref;
  computation_nodes_len : nat
}.

(** The statements of [__close_computation] after its loop. *)
Definition close_computation_end : M t Z :=
  auth ← gets __cur_client_auth;
  match auth with
  | Some a =>
      if negb (String.eqb a "") then
        modify (fun w =>
          let computation_path := path_join (__dest_path w) a in
          if isdir (dirs w) computation_path
          then with_dirs w (rmtree computation_path (dirs w))
          else w)
      else mret tt
  | None => mret tt
  end;;
  modify (fun w => with_cur_computation w None);;
  modify (fun w => with_cur_client_auth w None);;
  modify (fun w => with_sched_event w true);;
  mret 0.

(** [for node in self._nodes.values(): yield self.__close_node(node)] from
    the head of the loop on, and the statements after the loop. *)
Fixpoint close_computation_loop (len : nat) (nodes : list ref)
    : M t (progress closing_computation Z) :=
  match nodes with
  | [] =>
      w ← gets (fun w => w);
      if negb (Nat.eqb (dict.len (_nodes w)) len) then raise dict_changed_size
      else close_computation_end ≫= fun z => mret (Returned z)
  | node :: rest =>
      w ← gets (fun w => w);
      if negb (Nat.eqb (dict.len (_nodes w)) len) then raise dict_changed_size
      else
        r ← __close_node node;
        match r with
        | Returned _ => close_computation_loop len rest
        | Waiting k => mret (Waiting (mk_closing_computation k rest len))
        end
  end.

(** [Scheduler.__close_computation(self)], up to its first suspension. *)
Definition __close_computation : M t (progress closing_computation Z) :=
  computation ← gets _cur_computation;
  match computation with
  | Some c =>
      modify (fun w => with_cur_computation w
                         (Some (Computation.with_status_coro c PNone)))
  | None => mret tt
  end;;
  w ← gets (fun w => w);
  close_computation_loop (dict.len (_nodes w)) (dict.values (_nodes w)).

(** [__close_computation] from the return of the deliver it waits for,
    up to its next suspension. *)
Definition __close_computation_resume (k : closing_computation)
    : M t (progress closing_computation Z) :=
  r ← __close_node_resume (computation_node k);
  match r with
  | Returned _ => close_computation_loop (computation_nodes_len k) (computation_nodes k)
  | Waiting kn =>
      mret (Waiting (mk_closing_computation kn (computation_nodes k)
                                            (computation_nodes_len k)))
  end.

(** The run of [__close_computation] in which every deliver returns
    before any other coroutine has run; [fuel] bounds the number of
    suspensions. *)
Fixpoint uninterrupted (fuel : nat) (p : progress closing_computation Z) : M t Z :=
  match p with
  | Returned z => mret z
  | Waiting k =>
      match fuel with
      | O => fun w => (Suspended, w)
      | S fuel' => __close_computation_resume k ≫= uninterrupted fuel'
      end
  end.

(** *** Scheduler.__status_proc *)

(** One turn of the loop of [__status_proc]: the message [msg] has been
    received; [now] is the clock, read when a server object is created. *)
Definition __status_proc (msg : pyval) (now : float) : M t unit :=
  match msg with
  | PMonitorException arg0 _ =>
      match arg0 with
      | PCoro rcoro =>
          let loc := Coro.location rcoro in
          node ← gets (fun w => dict.get (_nodes w) (Location.addr loc));
          match node with
          | None => mret tt
          | Some node =>
              n ← get_node node;
              match dict.get (_Node.servers n) (str_Location loc) with
              | None => mret tt
              | Some server =>
                  s ← get_server server;
                  match dict.pop (_Server.coros s) (str_Coro rcoro) with
                  | (None, _) =>
                      update_server server (fun s =>
                        _Server.with_done s (dict.set (_Server.done s) (str_Coro rcoro) msg))
                  | (Some _, rest) =>
                      update_server server (fun s => _Server.with_coros s rest);;
                      computation ← gets _cur_computation;
                      notify computation msg;;
                      update_node node (fun n =>
                        _Node.with_ncoros n (_Node.ncoros n - 1))
                  end
              end
          end
      | _ => raise AttributeError
      end
  | PPeerStatus name location online =>
      computation ← gets _cur_computation;
      if online then
        server ← new_server (_Server.new name location now);
        node ← gets (fun w => dict.get (_nodes w) (Location.addr location));
        node ← match node with
               | Some node => mret node
               | None =>
                   node ← new_node (_Node.new (Location.addr location));
                   modify (fun w => with_nodes_dict w
                             (dict.set (_nodes w) (Location.addr location) node));;
                   mret node
               end;
        update_node node (fun n =>
          _Node.with_servers n (dict.set (_Node.servers n) (str_Location location) server));;
        n ← get_node node;
        if negb (status_is (_Node.status n) NodeIgnore) then
          emit (Spawn (T_setup_server server))
        else mret tt
      else
        node ← gets (fun w => dict.get (_nodes w) (Location.addr location));
        match node with
        | Some node =>
            n ← get_node node;
            let '(server, rest) := dict.pop (_Node.servers n) (str_Location location) in
            update_node node (fun n => _Node.with_servers n rest);;
            match server with
            | Some server =>
                s ← get_server server;
                notify computation
                  (PDiscoroStatus ServerDisconnected (PLocation (_Server.location s)));;
                if negb (Nat.eqb (dict.len rest) 0) then
                  emit (Spawn (T_close_server server))
                else
                  modify (fun w => with_nodes_dict w
                            (dict.remove (_nodes w) (Location.addr (_Server.location s))));;
                  notify computation
                    (PDiscoroStatus NodeDisconnected
                       (PStr (Location.addr (_Server.location s))));;
                  emit (Spawn (T_close_node node))
            | None => mret tt
            end
        | None =>
            match computation with
            | Some c =>
                match Computation._pulse_coro c with
                | PCoro p =>
                    if Location.eqb location (Coro.location p) then
                      emit (Spawn T_close_computation)
                    else mret tt
                | _ => raise AttributeError
                end
            | None => mret tt
            end
        end
  | _ => mret tt
  end.

(** *** Scheduler.__timer_proc *)

(** The audit at the end of a turn of the timer loop:
    [for node in self._nodes.values(): ... for server in
    node.servers.values(): ...]. *)
Definition is_zombie (w : t) (now : float) (s : _Server.t) : bool :=
  float_gt_int (float_sub now (_Server.last_pulse s)) (5 * __pulse_interval w).

Definition audit_node (now : float) (node : ref) : M t unit :=
  n ← get_node node;
  if negb (status_is (_Node.status n) NodeInitialized) then mret tt
  else
    for_each (dict.values (_Node.servers n)) (fun server =>
      s ← get_server server;
      if negb (status_is (_Server.status s) ServerInitialized) then mret tt
      else
        w ← gets (fun w => w);
        if is_zombie w now s then emit (Spawn (T_close_server server))
        else mret tt).

Definition audit (now server_check : float) : M t unit :=
  w ← gets (fun w => w);
  if float_gt_int (float_sub now server_check) (5 * __pulse_interval w) then
    for_each (dict.values (_nodes w)) (audit_node now)
  else mret tt.

(** [all(p.status != Scheduler.ServerInitialized for p in
    node.servers.values())] *)
Definition no_server_initialized (w : t) (n : _Node.t) : bool :=
  forallb (fun p => negb (status_is (_Server.status (server_of w p)) ServerInitialized))
          (dict.values (_Node.servers n)).

(** [all(n.status != Scheduler.NodeInitialized for n in
    self._nodes.values())] *)
Definition no_node_initialized (w : t) : bool :=
  forallb (fun n => negb (status_is (_Node.status (node_of w n)) NodeInitialized))
          (dict.values (_nodes w)).

(** The server named by a message's location, when there is one. *)
Definition find_server (w : t) (loc : pyval) : option (ref * ref) :=
  match loc with
  | PLocation l =>
      match dict.get (_nodes w) (Location.addr l) with
      | Some node =>
          match dict.get (_Node.servers (node_of w node)) (str_Location l) with
          | Some server => Some (node, server)
          | None => None
          end
      | None => None
      end
  | _ => None
  end.

(** The part of a turn that handles a message from a node's server. *)
Definition timer_message (kvs : list (string * pyval)) (now : float) (coro : Coro.t)
    : M t unit :=
  match pydict_get kvs "ncoros" (PInt (-1)) with
  | PInt ncoros =>
      if 0 <=? ncoros then
        w ← gets (fun w => w);
        match find_server w (pydict_get kvs "location" PNone) with
        | Some (_, server) =>
            update_server server (fun s => _Server.with_last_pulse s now)
        | None => mret tt
        end
      else if eq_str (pydict_get kvs "status" PNone) "ServerClosed" then
        w ← gets (fun w => w);
        match find_server w (pydict_get kvs "location" PNone) with
        | Some (node, server) =>
            _ ← __close_server server;
            w ← gets (fun w => w);
            if no_server_initialized w (node_of w node) then
              update_node node (fun n => _Node.with_status n (Some NodeClosed));;
              computation ← gets _cur_computation;
              notify computation
                (PDiscoroStatus NodeClosed (PStr (_Node.addr (node_of w node))));;
              w ← gets (fun w => w);
              if no_node_initialized w then
                notify computation
                  (PDiscoroStatus ComputationClosed (PLocation (Coro.location coro)));;
                emit (Spawn T_close_computation)
              else mret tt
            else mret tt
        | None => mret tt
        end
      else mret tt
  | _ => raise TypeError
  end.

(** One turn of the loop of [__timer_proc]: [msg] is what the receive
    returned ([None] on a timeout), [now] the clock, [pulse_sent] what
    sending ['pulse'] to the client returns, [server_check] and
    [client_pulse] the loop's two time stamps, whose new values are
    returned. *)
Definition __timer_proc (msg : pyval) (now : float) (pulse_sent : Z)
    (server_check client_pulse : float) (coro : Coro.t) : M t (float * float) :=
  match msg with
  | PDict kvs => timer_message kvs now coro
  | _ => mret tt
  end;;
  w ← gets (fun w => w);
  client_pulse ←
    match _cur_computation w with
    | Some c =>
        if float_gt_int (float_sub now client_pulse) (__pulse_interval w) then
          send (Computation._pulse_coro c) (PStr "pulse");;
          if pulse_sent =? 0 then mret now
          else if float_gt_int (float_sub now client_pulse) (5 * __pulse_interval w) then
            emit (Spawn T_close_computation);; mret client_pulse
          else mret client_pulse
        else mret client_pulse
    | None => mret client_pulse
    end;
  audit now server_check;;
  mret (server_check, client_pulse).

(** *** Scheduler.__client_proc *)

(** The servers a [run_each] request addresses:
    [[server for server in node.servers.values()
      if server.status == Scheduler.ServerInitialized]]. *)
Definition initialized_servers (w : t) (n : _Node.t) : list ref :=
  List.filter (fun s => status_is (_Server.status (server_of w s)) ServerInitialized)
              (dict.values (_Node.servers n)).

Definition initialized_nodes (w : t) : list ref :=
  List.filter (fun n => status_is (_Node.status (node_of w n)) NodeInitialized)
              (dict.values (_nodes w)).

(** [self._cur_computation.timeout] *)
Definition cur_timeout : M t Z :=
  computation ← gets _cur_computation;
  match computation with
  | Some c => mret (Computation.timeout c)
  | None => raise AttributeError
  end.

(** The [req == 'run'] branch; [client] is a task handle. *)
Definition client_run (kvs : list (string * pyval)) (client : Coro.t) : M t unit :=
  let auth := pydict_get kvs "auth" PNone in
  let func := pydict_get kvs "func" PNone in
  w ← gets (fun w => w);
  if negb (truthy func) || negb (eq_opt_str (__cur_client_auth w) auth) then
    emit (Send client PNone)
  else
    let where_ := pydict_get kvs "where" PNone in
    if negb (truthy where_) then emit (Spawn (T_run func client))
    else
      match where_ with
      | PStr host =>
          match dict.get (_nodes w) host with
          | Some node => emit (Spawn (T_Node_run node func client))
          | None => emit (Send client PNone)
          end
      | PLocation l =>
          match dict.get (_nodes w) (Location.addr l) with
          | Some node =>
              match dict.get (_Node.servers (node_of w node)) (str_Location l) with
              | Some server => emit (Spawn (T_Server_run server func client))
              | None => emit (Send client PNone)
              end
          | None => emit (Send client PNone)
          end
      | _ => emit (Send client PNone)
      end.

(** The [req == 'run_each'] branch; [client] is a task handle and
    [delivered] is what delivering the count to the client returns. *)
Definition client_run_each (kvs : list (string * pyval)) (client : Coro.t)
    (delivered : Z) : M t unit :=
  let auth := pydict_get kvs "auth" PNone in
  let func := pydict_get kvs "func" PNone in
  w ← gets (fun w => w);
  let where_ :=
    if negb (truthy func) || negb (eq_opt_str (__cur_client_auth w) auth)
    then PNone else pydict_get kvs "where" PNone in
  if eq_str where_ "node" then
    let nodes := initialized_nodes w in
    timeout ← cur_timeout;
    emit (Deliver client (PInt (Z.of_nat (List.length nodes))) (Some timeout));;
    if negb (delivered =? 1) then mret tt
    else for_each nodes (fun node => emit (Spawn (T_Node_run node func client)))
  else if eq_str where_ "server" then
    let servers := flat_map (fun n => initialized_servers w (node_of w n))
                            (initialized_nodes w) in
    timeout ← cur_timeout;
    emit (Deliver client (PInt (Z.of_nat (List.length servers))) (Some timeout));;
    if negb (delivered =? 1) then mret tt
    else for_each servers (fun server => emit (Spawn (T_Server_run server func client)))
  else if eq_str where_ "node_servers" then
    let servers :=
      match dict.get (_nodes w) "node_servers" with
      | Some node =>
          if status_is (_Node.status (node_of w node)) NodeInitialized
          then initialized_servers w (node_of w node) else []
      | None => []
      end in
    timeout ← cur_timeout;
    emit (Deliver client (PInt (Z.of_nat (List.length servers))) (Some timeout));;
    if negb (delivered =? 1) then mret tt
    else for_each servers (fun server => emit (Spawn (T_Server_run server func client)))
  else emit (Send client (PList [])).

(** One turn of the loop of [__client_proc] on the message [msg], for
    the requests that place tasks.  The requests [schedule], [await],
    [close_computation], [nodes_list] and [servers_list] are answered
    by other branches of the loop, which are not part of this
    development: for them, and for anything else that is no placement
    request, the result is [None]. *)
Definition __client_proc (msg : pyval) (delivered : Z) : option (M t unit) :=
  match msg with
  | PDict kvs =>
      match pydict_get kvs "client" PNone with
      | PCoro client =>
          let req := pydict_get kvs "req" PNone in
          if eq_str req "run" then Some (client_run kvs client)
          else if eq_str req "run_each" then Some (client_run_each kvs client delivered)
          else None
      | _ => Some (mret tt)
      end
  | _ => Some (mret tt)
  end.

(** The [req == 'nodes_list'] branch of the loop of [__client_proc];
    [client] is a task handle. *)
Definition client_nodes_list (kvs : list (string * pyval)) (client : Coro.t) : M t unit :=
  let auth := pydict_get kvs "auth" PNone in
  w ← gets (fun w => w);
  let nodes :=
    if eq_opt_str (__cur_client_auth w) auth
    then List.map (fun node => PStr (_Node.addr (node_of w node))) (initialized_nodes w)
    else [] in
  emit (Send client (PList nodes)).

(** The [req == 'servers_list'] branch of the loop of [__client_proc];
    [client] is a task handle. *)
Definition client_servers_list (kvs : list (string * pyval)) (client : Coro.t) : M t unit :=
  let auth := pydict_get kvs "auth" PNone in
  w ← gets (fun w => w);
  let servers :=
    if eq_opt_str (__cur_client_auth w) auth
    then List.map (fun server => PLocation (_Server.location (server_of w server)))
                  (flat_map (fun n => initialized_servers w (node_of w n))
                            (initialized_nodes w))
    else [] in
  emit (Send client (PList servers)).

(** *** Scheduler.__setup_server, __setup_node and __scheduler_proc *)

Section Bootstrap.
(** How the transport writes a computation object into a message
    ([asyncoro.serialize]). *)
Variable serialize : Computation.t -> string.

(** [for xf in computation._xfer_files: reply = yield send_file(...)]:
    [replies] are the results of the transfers, in order; the result is
    whether every file went through. *)
Fixpoint setup_files (location : Location.t) (timeout : Z) (files : list string)
    (replies : list pyval) : M t bool :=
  match files with
  | [] => mret true
  | xf :: rest =>
      emit (SendFile location xf PNone timeout);;
      match replies return M t bool with
      | [] => fun w => (Suspended, w)
      | PInt reply :: replies' =>
          if reply <? 0 then mret false else setup_files location timeout rest replies'
      | _ :: _ => raise TypeError
      end
  end.

(** [Scheduler.__setup_server(self, server)]: [coro] is the handle of the
    coroutine that runs it, [located] what [Coro.locate] returns, [ret]
    the agent's reply to the setup request, [replies] the results of the
    file transfers and [now] the clock when the status is set. *)
Definition __setup_server (server : ref) (coro : Coro.t) (located ret : pyval)
    (replies : list pyval) (now : float) : M t pyval :=
  s ← get_server server;
  if status_is (_Server.status s) ServerInitialized
     || status_is (_Server.status s) ServerIgnore then mret (PInt 0)
  else
    update_server server (fun s => _Server.with_status s (Some ServerIgnore));;
    let location := _Server.location s in
    proceed ←
      (if negb (truthy (_Server.coro s)) then
         cur ← gets _cur_computation;
         let timeout := match cur with
                        | Some c => Computation.timeout c
                        | None => MsgTimeout
                        end in
         emit (Locate "discoro_server" (PLocation location) timeout);;
         update_server server (fun s =>
           _Server.mk (_Server.name s) (_Server.location s) (_Server.coros s)
                      (_Server.done s) (_Server.status s) located
                      (_Server.xfer_files s) (_Server.last_pulse s));;
         if negb (isinstance_Coro located) then
           node ← gets (fun w => dict.get (_nodes w) (Location.addr location));
           match node with
           | Some node =>
               update_node node (fun n =>
                 _Node.with_servers n (dict.remove (_Node.servers n) (str_Location location)))
           | None => mret tt
           end;;
           mret (Some (PInt (-1)))
         else
           cur ← gets _cur_computation;
           match cur with
           | None =>
               update_server server (fun s => _Server.with_status s (Some ServerDiscovered));;
               mret (Some (PInt 0))
           | Some c =>
               (if truthy (Computation.status_coro c) then
                  send (Computation.status_coro c)
                       (PDiscoroStatus ServerDiscovered (PLocation location))
                else mret tt);;
               mret None
           end
       else mret None);
    match proceed with
    | Some result => mret result
    | None =>
        computation ← gets _cur_computation;
        s ← get_server server;
        timer ← gets __timer_coro;
        send (_Server.coro s)
             (PDict [("req", PStr "setup"); ("client", PCoro coro);
                     ("computation", match computation with
                                     | Some c => PBytes (serialize c)
                                     | None => PNone
                                     end);
                     ("pulse_coro", PCoro timer)]);;
        match computation with
        | None => raise AttributeError
        | Some c =>
            if truthy ret then mret ret
            else
              sent ← setup_files location (Computation.timeout c)
                                 (Computation._xfer_files c) replies;
              if negb sent then
                emit (Spawn (T_close_server server));; mret (PInt (-1))
              else
                update_server server (fun s =>
                  _Server.with_last_pulse
                    (_Server.with_status s (Some ServerInitialized)) now);;
                node ← gets (fun w => dict.get (_nodes w) (Location.addr location));
                match node with
                | None => raise KeyError
                | Some node =>
                    n ← get_node node;
                    (if negb (status_is (_Node.status n) NodeInitialized) then
                       update_node node (fun n =>
                         _Node.with_status n (Some NodeInitialized));;
                       if truthy (Computation.status_coro c) then
                         send (Computation.status_coro c)
                              (PDiscoroStatus NodeInitialized (PStr (_Node.addr n)))
                       else mret tt
                     else mret tt);;
                    (if truthy (Computation.status_coro c) then
                       send (Computation.status_coro c)
                            (PDiscoroStatus ServerInitialized (PLocation location))
                     else mret tt);;
                    mret (PInt 0)
                end
        end
    end.

(** The last stretch of [__setup_server], after its last suspension
    point (the reply to the setup request when the computation has no
    files, the result of the last transfer otherwise): from
    [server.status = Scheduler.ServerInitialized] to the end.
    [computation] is the object of the local variable, with the fields
    it has at that time, [now] the clock. *)
Definition __setup_server_finish (server : ref) (computation : Computation.t)
    (now : float) : M t pyval :=
  update_server server (fun s =>
    _Server.with_last_pulse (_Server.with_status s (Some ServerInitialized)) now);;
  s ← get_server server;
  node ← gets (fun w => dict.get (_nodes w) (Location.addr (_Server.location s)));
  match node with
  | None => raise KeyError
  | Some node =>
      n ← get_node node;
      (if negb (status_is (_Node.status n) NodeInitialized) then
         update_node node (fun n => _Node.with_status n (Some NodeInitialized));;
         if truthy (Computation.status_coro computation) then
           send (Computation.status_coro computation)
                (PDiscoroStatus NodeInitialized (PStr (_Node.addr n)))
         else mret tt
       else mret tt);;
      (if truthy (Computation.status_coro computation) then
         send (Computation.status_coro computation)
              (PDiscoroStatus ServerInitialized (PLocation (_Server.location s)))
       else mret tt);;
      mret (PInt 0)
  end.

(** [Scheduler.__setup_node(self, node)] *)
Definition __setup_node (node : ref) : M t unit :=
  n ← get_node node;
  if status_is (_Node.status n) NodeIgnore then mret tt
  else
    for_each (dict.values (_Node.servers n)) (fun server =>
      s ← get_server server;
      if status_is (_Server.status s) ServerDiscovered
         || match _Server.status s with None => true | Some _ => false end
      then emit (Spawn (T_setup_server server))
      else mret tt).

(** The auth a computation carries, as [__cur_client_auth] keeps it: the
    computations that reach the scheduler carry the string that the
    [schedule] request gave them. *)
Definition auth_of (v : pyval) : option string :=
  match v with PStr a => Some a | _ => None end.

(** The body of the first loop over the servers of a node in
    [__scheduler_proc]. *)
Definition rediscover_server (node server : ref) : M t unit :=
  s ← get_server server;
  (if status_is (_Server.status s) ServerClosed
      || status_is (_Server.status s) ServerIgnore then
     if isinstance_Coro (_Server.coro s) then
       update_server server (fun s => _Server.with_status s (Some ServerDiscovered));;
       cur ← gets _cur_computation;
       match cur with
       | Some c =>
           send (Computation.status_coro c)
                (PDiscoroStatus ServerDiscovered (PLocation (_Server.location s)))
       | None => raise AttributeError
       end
     else mret tt
   else mret tt);;
  n ← get_node node;
  s ← get_server server;
  if negb (status_is (_Node.status n) NodeDiscovered)
     && status_is (_Server.status s) ServerDiscovered then
    update_node node (fun n => _Node.with_status n (Some NodeDiscovered));;
    cur ← gets _cur_computation;
    match cur with
    | Some c =>
        if truthy (Computation.status_coro c) then
          send (Computation.status_coro c)
               (PDiscoroStatus NodeDiscovered (PStr (_Node.addr n)))
        else mret tt
    | None => raise AttributeError
    end
  else mret tt.

(** One turn of the loop of [__scheduler_proc] that finds no current
    computation: [(computation, client)] is the message received,
    [auth_code] the value of [Scheduler.auth_code()] and [delivered] what
    delivering the reply to the client returns.  The assignment to
    [self._cur_client_auth] after a failed delivery creates an attribute
    that nothing reads. *)
Definition __scheduler_proc (computation : Computation.t) (client : Coro.t)
    (auth_code : string) (delivered : Z) : M t unit :=
  modify (fun w =>
    mk (_nodes w) (Some computation) (__cur_client_auth w)
       (if (MinPulseInterval <=? Computation.pulse_interval computation)
           && (Computation.pulse_interval computation <=? MaxPulseInterval)
        then Computation.pulse_interval computation else MinPulseInterval)
       (__sched_event w) (__dest_path w) (_status_coro w) (__timer_coro w) (nodes w)
       (servers w) (next_ref w) (dirs w) (trace w));;
  modify (fun w => with_cur_client_auth w (auth_of (Computation._auth computation)));;
  modify (fun w => with_cur_computation w
                     (Some (Computation.with_auth computation (PStr auth_code))));;
  emit (Deliver client
          (PDict [("resp", PStr "scheduled"); ("auth", Computation._auth computation)])
          (Some (Computation.timeout computation)));;
  if negb (delivered =? 1) then
    modify (fun w => with_cur_computation w None)
  else
    refs ← gets (fun w => dict.values (_nodes w));
    for_each refs (fun node =>
      n ← get_node node;
      for_each (dict.values (_Node.servers n)) (rediscover_server node));;
    for_each refs (fun node =>
      cur ← gets _cur_computation;
      match cur with
      | Some _ => __setup_node node
      | None => mret tt
      end).
End Bootstrap.

End Scheduler.

(** ** class HTTPServer (the monitor of [httpd.py]) *)

Module HTTPServer.

Definition is_digit (c : ascii) : bool :=
  let n := nat_of_ascii c in Nat.leb 48 n && Nat.leb n 57.

Definition reversed (s : string) : string :=
  string_of_list_ascii (List.rev (list_ascii_of_string s)).

Definition rstrip (s : string) : string := reversed (lstrip (reversed s)).

(** The digits of an int literal: decimal digits, single underscores
    allowed between two digits. *)
Fixpoint digits (s : string) (acc : Z) (after_digit : bool) : option Z :=
  match s with
  | EmptyString => if after_digit then Some acc else None
  | String c s' =>
      if is_digit c then
        digits s' (10 * acc + Z.of_nat (nat_of_ascii c - 48)) true
      else if Ascii.eqb c "_"%char && after_digit then digits s' acc false
      else None
  end.

(** [int(s)] for a string [s] of ASCII characters; [None] stands for
    [ValueError]. *)
Definition py_int (s : string) : option Z :=
  match rstrip (lstrip s) with
  | String "-" s' => Z.opp <$> digits s' 0 false
  | String "+" s' => digits s' 0 false
  | s' => digits s' 0 false
  end.

(** The part of the server object the request handler writes to. *)
Record ctx := mk { _poll_sec : Z }.

(** The ['/set_poll_sec'] branch of [do_POST]: the loop over
    [form.list], whose items are (name, value) pairs.  The result is
    the context and the status code of the response. *)
Fixpoint set_poll_sec (form : list (string * string)) (c : ctx) : ctx * Z :=
  match form with
  | [] => (c, 400)
  | (name, value) :: rest =>
      if negb (String.eqb name "timeout") then set_poll_sec rest c
      else
        let timeout :=
          match py_int value with
          | Some timeout => if timeout <? 1 then 0 else timeout
          | None => 0
          end in
        (mk timeout, 200)
  end.

(** [do_POST] for a request to [path] with the given form.  The paths
    ['/server_info'], ['/node_info'] and ['/terminate_coros'] are
    answered by other branches, which are not part of this development:
    for them the result is [None]. *)
Definition do_POST (path : string) (form : list (string * string)) (c : ctx)
    : option (ctx * Z) :=
  if String.eqb path "/server_info" || String.eqb path "/node_info"
     || String.eqb path "/terminate_coros" then None
  else if String.eqb path "/set_poll_sec" then Some (set_poll_sec form c)
  else Some (c, 400).

(** The poll interval set by [HTTPServer(computation, ..., poll_sec=10)]:
    [if poll_sec < 1: poll_sec = 1; self._poll_sec = poll_sec]. *)
Definition init_poll_sec (poll_sec : Z) : ctx :=
  mk (if poll_sec <? 1 then 1 else poll_sec).
End HTTPServer.

(** ** State predicates used in the statements *)

Module Fleet.
Import Scheduler.

(** The number of tasks on the initialized servers of a node:
    the sum of [len(server.coros)] over the servers of [n] whose status
    is [ServerInitialized]. *)
Definition active_coros (w : t) (n : _Node.t) : Z :=
  fold_right Z.add 0
    (List.map (fun s => Z.of_nat (dict.len (_Server.coros (server_of w s))))
              (initialized_servers w n)).

(** [node.ncoros] agrees with that sum for every node of [_nodes]. *)
Definition ncoros_consistent (w : t) : bool :=
  forallb (fun node => _Node.ncoros (node_of w node) =? active_coros w (node_of w node))
          (dict.values (_nodes w)).

(** Every initialized server object holds the handle of its agent (the
    bootstrap sets the status only after it located the agent). *)
Definition agents_located (w : t) : Prop :=
  forall r, status_is (_Server.status (server_of w r)) ServerInitialized = true ->
            isinstance_Coro (_Server.coro (server_of w r)) = true.

(** A node or a server with the given status. *)
Definition node_initialized (w : t) (node : ref) : bool :=
  status_is (_Node.status (node_of w node)) NodeInitialized.
Definition server_initialized (w : t) (server : ref) : bool :=
  status_is (_Server.status (server_of w server)) ServerInitialized.

(** The close requests one node contributes to an audit. *)
Definition zombies_of_server (now : float) (w : t) (server : ref) : list Event :=
  if server_initialized w server && is_zombie w now (server_of w server)
  then [Spawn (T_close_server server)] else [].

Definition zombies_of_node (now : float) (w : t) (node : ref) : list Event :=
  if node_initialized w node
  then flat_map (zombies_of_server now w) (dict.values (_Node.servers (node_of w node)))
  else [].
(** A closed node. *)
Definition node_closed (w : t) (node : ref) : Prop :=
  _Node.status (node_of w node) = Some NodeClosed /\ _Node.ncoros (node_of w node) = 0.

(** What a teardown step may change between [w] and [w']: server
    objects become closed, node objects become closed (with the servers
    they had), messages are added to the trace. *)
Definition closing (w w' : t) : Prop :=
  _nodes w' = _nodes w /\
  _cur_computation w' = _cur_computation w /\
  __cur_client_auth w' = __cur_client_auth w /\
  __dest_path w' = __dest_path w /\
  dirs w' = dirs w /\
  (forall r, server_of w' r = server_of w r \/
             _Server.status (server_of w' r) = Some ServerClosed) /\
  (forall r, node_of w' r = node_of w r \/ node_closed w' r) /\
  (forall r, _Node.servers (node_of w' r) = _Node.servers (node_of w r)).

(** What the close of a computation leaves of the state [w] it started
    from: no computation, no client auth, no directory staged for the
    client's auth, and every node of [_nodes] closed. *)
Definition cleared (w w' : t) : Prop :=
  _cur_computation w' = None /\
  __cur_client_auth w' = None /\
  (forall a, __cur_client_auth w = Some a -> a <> "" ->
             isdir (dirs w') (path_join (__dest_path w) a) = false) /\
  (forall addr node, dict.get (_nodes w') addr = Some node -> node_closed w' node).

(** The observer of the current computation, when there is one, is a task
    handle (the constructor of [Computation] accepts nothing else). *)
Definition observer_ok (w : t) : bool :=
  match _cur_computation w with
  | Some c => is_None (Computation.status_coro c) || isinstance_Coro (Computation.status_coro c)
  | None => true
  end.

(** The servers a request for every server addresses: the initialized
    servers of the initialized nodes, node by node. *)
Definition serving (w : t) : list ref :=
  flat_map (fun n => initialized_servers w (node_of w n)) (initialized_nodes w).

(** The messages [notify] hands to the runtime. *)
Definition notification (w : t) (msg : pyval) : list Event :=
  match _cur_computation w with
  | Some c =>
      match Computation.status_coro c with
      | PCoro obs => [Send obs msg]
      | _ => []
      end
  | None => []
  end.
End Fleet.

(** ** Sample states

    A scheduler with one active computation and one node, 10.0.0.1, with
    two initialized servers; the first server runs one task. *)

Module Sample.
Definition client : Coro.t := Coro.mk "client" 7 (Location.mk "10.0.0.9" 4000).
Definition pulse : Coro.t := Coro.mk "_pulse_proc" 8 (Location.mk "10.0.0.9" 4000).
Definition worker : Coro.t := Coro.mk "_run" 21 (Location.mk "10.0.0.2" 5100).
Definition status_coro : Coro.t := Coro.mk "__status_proc" 4 (Location.mk "10.0.0.2" 5100).
Definition timer_coro : Coro.t := Coro.mk "__timer_proc" 3 (Location.mk "10.0.0.2" 5100).
Definition observer : Coro.t := Coro.mk "observer" 9 (Location.mk "10.0.0.9" 4000).

Definition loc1 : Location.t := Location.mk "10.0.0.1" 5001.
Definition loc2 : Location.t := Location.mk "10.0.0.1" 5002.
Definition agent1 : Coro.t := Coro.mk "discoro_server" 1 loc1.
Definition agent2 : Coro.t := Coro.mk "discoro_server" 1 loc2.
Definition task : Coro.t := Coro.mk "compute" 12 loc1.

(** Two clock readings, 100 seconds apart. *)
Definition t0 : float := Eval vm_compute in binary_normalize prec emax 1024 0 false.
Definition t100 : float := Eval vm_compute in binary_normalize prec emax 1124 0 false.

Definition computation : Computation.t :=
  Computation.mk "" ∅ [] [] (PCoro observer) (PStr "5e7ve7") (PCoro status_coro)
                 (PCoro pulse) 10 10 None.

Definition server1 : Scheduler._Server.t :=
  Scheduler._Server.mk "s1" loc1 [(str_Coro task, task)] [] (Some Scheduler.ServerInitialized)
                       (PCoro agent1) [] t0.
Definition server2 : Scheduler._Server.t :=
  Scheduler._Server.mk "s2" loc2 [] [] (Some Scheduler.ServerInitialized)
                       (PCoro agent2) [] t0.
Definition node1 : Scheduler._Node.t :=
  Scheduler._Node.mk "10.0.0.1" [(str_Location loc1, 0%nat); (str_Location loc2, 1%nat)] 1
                     (Some Scheduler.NodeInitialized).

Definition fleet : Scheduler.t :=
  Scheduler.mk [("10.0.0.1", 0%nat)] (Some computation) (Some "c11e47") 10 false
               "/var/discoro/scheduler" status_coro timer_coro
               {[ 0%nat := node1 ]} {[ 0%nat := server1; 1%nat := server2 ]} 2%nat
               ["/var/discoro/scheduler/c11e47"] [].

(** The same fleet with the first server closed. *)
Definition fleet_closed1 : Scheduler.t :=
  Scheduler.with_servers fleet
    (<[ 0%nat := Scheduler._Server.with_status server1 (Some Scheduler.ServerClosed) ]>
       (Scheduler.servers fleet)).

(** The same fleet with the node merely discovered. *)
Definition fleet_discovered : Scheduler.t :=
  Scheduler.with_nodes fleet
    {[ 0%nat := Scheduler._Node.with_status node1 (Some Scheduler.NodeDiscovered) ]}.

(** A [run_each] request that names the node by its address. *)
Definition run_each_request : pyval :=
  PDict [("req", PStr "run_each"); ("auth", PStr "c11e47"); ("client", PCoro client);
         ("where", PStr "10.0.0.1"); ("func", PBytes "compute")].

(** A task of the second server that the scheduler has not recorded. *)
Definition task2 : Coro.t := Coro.mk "compute" 13 loc2.

(** A peer on a host the scheduler has not seen. *)
Definition loc3 : Location.t := Location.mk "10.0.0.3" 5001.

(** A client whose computation was scheduled before. *)
Definition scheduled : Computation.client :=
  Computation.mk_client
    (Computation.mk "" ∅ [] [] PNone (PStr "c11e47") (PCoro status_coro) (PCoro pulse)
                    10 10 None)
    [] [].

(** The sample fleet with the servers taken out of the node, as the
    bootstrap of a server does when it cannot locate the server's
    agent. *)
Definition fleet_vacant : Scheduler.t :=
  Scheduler.with_nodes fleet {[ 0%nat := Scheduler._Node.with_servers node1 [] ]}.

(** A fleet of two initialized nodes: 10.0.0.1 as in the sample fleet
    (two servers, one task) and 10.0.0.4 with one idle server. *)
Definition loc4 : Location.t := Location.mk "10.0.0.4" 5001.
Definition agent4 : Coro.t := Coro.mk "discoro_server" 1 loc4.
Definition task4 : Coro.t := Coro.mk "compute" 14 loc4.

Definition server4 : Scheduler._Server.t :=
  Scheduler._Server.mk "s4" loc4 [] [] (Some Scheduler.ServerInitialized)
                       (PCoro agent4) [] t0.
Definition node4 : Scheduler._Node.t :=
  Scheduler._Node.mk "10.0.0.4" [(str_Location loc4, 2%nat)] 0
                     (Some Scheduler.NodeInitialized).

Definition fleet_two : Scheduler.t :=
  Scheduler.mk [("10.0.0.1", 0%nat); ("10.0.0.4", 3%nat)] (Some computation)
               (Some "c11e47") 10 false "/var/discoro/scheduler" status_coro timer_coro
               {[ 0%nat := node1; 3%nat := node4 ]}
               {[ 0%nat := server1; 1%nat := server2; 2%nat := server4 ]} 4%nat
               ["/var/discoro/scheduler/c11e47"] [].

(** The same fleet when the only server of the second node has been taken
    out of the node, as the bootstrap of a server does when it cannot
    locate the server's agent. *)
Definition fleet_two_vacant : Scheduler.t :=
  Scheduler.with_nodes fleet_two
    {[ 0%nat := node1; 3%nat := Scheduler._Node.with_servers node4 [] ]}.

(** The fleet of two nodes while the bootstrap of the second server of
    the first node is under way: the server is ignored until its
    bootstrap ends. *)
Definition fleet_pending : Scheduler.t :=
  Scheduler.with_servers fleet_two
    (<[ 1%nat := Scheduler._Server.with_status server2 (Some Scheduler.ServerIgnore) ]>
       (Scheduler.servers fleet_two)).

(** Requests of the client of the sample fleet, and one with an auth
    the scheduler did not give out. *)
Definition request (req where_ auth : string) : list (string * pyval) :=
  [("req", PStr req); ("auth", PStr auth); ("client", PCoro client);
   ("where", PStr where_); ("func", PBytes "compute")].

(** The sample fleet when the delivery of the scheduled message failed:
    the client auth is set and there is no computation. *)
Definition fleet_unscheduled : Scheduler.t :=
  Scheduler.with_cur_computation fleet None.
End Sample.

(** * Properties *)

(** Unfolding of the monad's operations. *)
Ltac unfold_monad :=
  unfold mbind, M_bind, res_bind, mret, M_ret, res_ret, gets, modify, raise, lift_res in *.

(** ** The embedding at work *)

Example str_Coro_task : str_Coro Sample.task = "compute/12@10.0.0.1:5001".
Proof. reflexivity. Qed.

Example py_int_values :
  List.map HTTPServer.py_int [" 12 "; "-3"; "+7"; "1_000"; "abc"; ""; "1.5"; "1__0"; "-"]
  = [Some 12; Some (-3); Some 7; Some 1000; None; None; None; None; None].
Proof. reflexivity. Qed.

(** An untargeted run on the sample fleet goes to the idle second server:
    its agent gets the request, the handle is recorded, the node counts
    two tasks and the client gets the handle. *)
Example run_on_sample_fleet :
  exists w, Scheduler.__run (PBytes "compute") Sample.client Sample.worker
                            (PCoro Sample.task2) Sample.fleet = (Ret tt, w) /\
    List.map (fun e => match e with
                       | Send to _ | Deliver to _ _ => Coro.name to
                       | _ => ""
                       end) (Scheduler.trace w) = ["discoro_server"; "client"] /\
    List.last (Scheduler.trace w) AtExit = Deliver Sample.client (PCoro Sample.task2) None /\
    dict.keys (Scheduler._Server.coros (Scheduler.server_of w 1%nat))
      = [str_Coro Sample.task2] /\
    Scheduler._Node.ncoros (Scheduler.node_of w 0%nat) = 2 /\
    Fleet.ncoros_consistent w = true.
Proof. eexists. split; [vm_compute; reflexivity|]. by vm_compute. Qed.

(** Closing the first server of the sample fleet: the observer is told
    about the server's task and about the server, the agent gets the
    close request, the server is closed and the node stays initialized. *)
Example close_server_on_sample_fleet :
  exists w, Scheduler.__close_server 0%nat Sample.fleet = (Ret 0, w) /\
    Scheduler.trace w
    = [Send Sample.observer
            (PMonitorException (PStr "compute/12@10.0.0.1:5001")
                               (PTuple [PInt Scheduler.ServerClosed; PNone]));
       Deliver Sample.agent1 (PDict [("req", PStr "close"); ("auth", PStr "5e7ve7")]) (Some 10);
       Send Sample.observer (PDiscoroStatus Scheduler.ServerClosed (PLocation Sample.loc1))] /\
    Scheduler._Server.status (Scheduler.server_of w 0%nat) = Some Scheduler.ServerClosed /\
    Scheduler._Node.status (Scheduler.node_of w 0%nat) = Some Scheduler.NodeInitialized.
Proof. eexists. split; [vm_compute; reflexivity|]. by vm_compute. Qed.

(** ** The Computation client *)

Section ComputationFacts.
Import Computation.

Variable abspath : string -> string.
Variable isfile can_open compiles : string -> bool.

Lemma add_components_zombie_period components st st' :
  add_components abspath isfile can_open components st = Ret st' ->
  zombie_period (fst st') = zombie_period (fst st).
Proof.
  revert st. induction components as [|dep rest IH]; intros [self depends] H; simpl in H.
  - by inversion H.
  - destruct (add_component abspath isfile can_open dep (self, depends))
      as [[self1 depends1]| |] eqn:E; simpl in H; try discriminate.
    rewrite (IH _ H). simpl.
    assert (Hfile : forall d, add_file can_open d (self, depends) = Ret (self1, depends1) ->
              zombie_period self1 = zombie_period self).
    { intros d. unfold add_file. repeat case_match; intros; simplify_eq; done. }
    assert (Hsrc : forall n src, add_source n src (self, depends) = Ret (self1, depends1) ->
              zombie_period self1 = zombie_period self).
    { intros n src. unfold add_source. repeat case_match; intros; simplify_eq; done. }
    destruct dep; simpl in E; eauto.
    case_match; [discriminate | eauto].
Qed.

(** C4, as amended: the constructor raises for every zombie_period that
    is neither null nor zero and is smaller than MaxPulseInterval; a
    zombie_period of 0 passes the check like null does, so after a
    successful construction zombie_period is null, 0, or at least
    MaxPulseInterval. *)
Theorem init_zombie_period components status_coro timeout pulse_interval zp :
  (forall z, zp = Some z -> z <> 0 -> z < MaxPulseInterval ->
     exists e, __init__ abspath isfile can_open compiles components status_coro
                        timeout pulse_interval zp = Raise e) /\
  (forall c, __init__ abspath isfile can_open compiles components status_coro
                      timeout pulse_interval zp = Ret c ->
     zombie_period c = zp /\
     (zp = None \/ zp = Some 0 \/ exists z, zp = Some z /\ MaxPulseInterval <= z)).
Proof.
  unfold __init__. split.
  - intros z -> Hz Hlt.
    destruct (_ || _); [eauto|]. destruct (_ || _); [eauto|].
    destruct (_ && _); [eauto|].
    assert ((z =? 0) = false) as -> by lia.
    assert ((z <? MaxPulseInterval) = true) as -> by lia.
    simpl. eauto.
  - intros c H.
    destruct (_ || _); [discriminate|]. destruct (_ || _); [discriminate|].
    destruct (_ && _); [discriminate|].
    destruct (match zp with Some z => _ | None => false end) eqn:Hzp; [discriminate|].
    destruct (add_components _ _ _ _ _) as [[self depends]| |] eqn:E;
      simpl in H; try discriminate.
    apply add_components_zombie_period in E. simpl in E.
    destruct (compiles _); [|discriminate]. inversion H; subst c. split; [done|].
    destruct zp as [z|]; [|by left]. right.
    destruct (Z.eq_dec z 0) as [->|Hz]; [by left|right].
    exists z. split; [done|].
    assert ((z =? 0) = false) as Hz' by lia. rewrite Hz' in Hzp. simpl in Hzp. lia.
Qed.
End ComputationFacts.

(** The constructor called with [zombie_period = 120] succeeds, and
    called with [zombie_period = 30] it raises. *)
Lemma init_zombie_period_witness :
  (exists e, Computation.__init__ (fun p => p) (fun _ => true) (fun _ => true) (fun _ => true)
               [Computation.C_str "f.txt"] PNone 10 10 (Some 30) = Raise e) /\
  (exists c, Computation.__init__ (fun p => p) (fun _ => true) (fun _ => true) (fun _ => true)
               [Computation.C_str "f.txt"] PNone 10 10 (Some 120) = Ret c /\
             Computation.zombie_period c = Some 120).
Proof.
  split.
  - apply (proj1 (init_zombie_period (fun p => p) (fun _ => true) (fun _ => true)
                    (fun _ => true) [Computation.C_str "f.txt"] PNone 10 10 (Some 30)) 30).
    + reflexivity.
    + discriminate.
    + reflexivity.
  - eexists. split; [reflexivity|].
    eapply (proj2 (init_zombie_period (fun p => p) (fun _ => true) (fun _ => true)
                     (fun _ => true) [Computation.C_str "f.txt"] PNone 10 10 (Some 120))).
    reflexivity.
Defined.

(** C4, as stated, fails: a zombie_period of 0 is smaller than
    MaxPulseInterval and not null, and the constructor accepts it. *)
Lemma init_accepts_zombie_period_0 :
  0 < MaxPulseInterval /\
  exists c, Computation.__init__ (fun p => p) (fun _ => true) (fun _ => true) (fun _ => true)
              [] PNone 10 10 (Some 0) = Ret c /\
            Computation.zombie_period c = Some 0.
Proof. split; [reflexivity|]. eexists. split; reflexivity. Qed.

Section ScheduleFacts.
Import Computation.

Variable serialize : Computation.t -> string.
Variables coro pulse_coro close_coro : Coro.t.

(** C10: when [_auth] is already set, [schedule] returns -1 at once;
    nothing is handed to the runtime, no answer of the runtime is
    consumed and the computation object is unchanged. *)
Theorem schedule_when_scheduled (c : client) (location : pyval) (timeout : option Z) :
  _auth (self c) <> PNone ->
  schedule serialize coro pulse_coro close_coro location timeout c = (Ret (PInt (-1)), c).
Proof.
  intros H. unfold schedule. unfold_monad.
  destruct (_auth (self c)); done.
Qed.
End ScheduleFacts.

Lemma schedule_when_scheduled_witness :
  Computation.schedule (fun _ => "pickle") Sample.client Sample.pulse Sample.worker
                       PNone None Sample.scheduled
  = (Ret (PInt (-1)), Sample.scheduled).
Proof.
  apply (schedule_when_scheduled (fun _ => "pickle") Sample.client Sample.pulse
           Sample.worker Sample.scheduled PNone None).
  discriminate.
Defined.

(** ** The HTTP monitor *)

Section MonitorFacts.
Import HTTPServer.

Lemma set_poll_sec_skips pre form c :
  Forall (fun item => fst item <> "timeout") pre ->
  set_poll_sec (pre ++ form) c = set_poll_sec form c.
Proof.
  induction 1 as [|[name value] pre Hne _ IH]; [done|]. simpl in *.
  destruct (String.eqb_spec name "timeout"); [done|]. exact IH.
Qed.

(** C7, as amended: a POST to /set_poll_sec whose timeout value is not
    an int literal stores 0 as poll interval, as one whose value is
    less than 1 does; a value of at least 1 is stored as it is.  The
    first item named timeout decides. *)
Theorem set_poll_sec_stored pre value rest c :
  Forall (fun item => fst item <> "timeout") pre ->
  exists c', do_POST "/set_poll_sec" (pre ++ ("timeout", value) :: rest) c = Some (c', 200) /\
    (py_int value = None -> _poll_sec c' = 0) /\
    (forall n, py_int value = Some n -> n < 1 -> _poll_sec c' = 0) /\
    (forall n, py_int value = Some n -> 1 <= n -> _poll_sec c' = n).
Proof.
  intros Hpre. unfold do_POST. simpl. rewrite (set_poll_sec_skips _ _ _ Hpre). simpl.
  eexists. split; [reflexivity|]. simpl.
  destruct (py_int value) as [n|]; repeat split; try done.
  - intros ? [= <-] ?. by destruct (Z.ltb_spec n 1); [|lia].
  - intros ? [= <-] ?. by destruct (Z.ltb_spec n 1); [lia|].
Qed.
End MonitorFacts.

Lemma set_poll_sec_stored_witness :
  exists c', HTTPServer.do_POST "/set_poll_sec" ([("host", "n1")] ++ ("timeout", "0") :: [])
                                (HTTPServer.mk 10) = Some (c', 200) /\
             HTTPServer._poll_sec c' = 0.
Proof.
  destruct (set_poll_sec_stored [("host", "n1")] "0" [] (HTTPServer.mk 10)) as (c' & H & _ & H0 & _).
  - repeat constructor. discriminate.
  - exists c'. split; [exact H|]. apply (H0 0); [reflexivity|lia].
Defined.

(** C7, as stated, fails: a timeout value that is no number is not
    ignored, the stored poll interval changes from 10 to 0. *)
Lemma set_poll_sec_not_ignored :
  HTTPServer.py_int "abc" = None /\
  exists c', HTTPServer.do_POST "/set_poll_sec" [("timeout", "abc")] (HTTPServer.mk 10)
             = Some (c', 200) /\
             HTTPServer._poll_sec c' <> HTTPServer._poll_sec (HTTPServer.mk 10).
Proof. split; [reflexivity|]. eexists. split; [reflexivity|]. discriminate. Qed.

(** ** The scheduler *)

Section SpawnFacts.
Import Scheduler Fleet.

(** C3 (what the code does): [_Server.run] on a server that is not
    initialized returns without handing anything to the runtime; in
    particular nothing is sent to the client. *)
Theorem Server_run_not_initialized w self func client coro reply :
  server_initialized w self = false ->
  _Server_run self func client coro reply w = (Ret tt, w).
Proof.
  unfold server_initialized, _Server_run, _Server_run_request, get_server.
  intros H. unfold_monad. by rewrite H.
Qed.

(** C5 (what the code does): a [run_each] request whose [where] is a
    string other than the three tags is answered with an empty list,
    and no task is spawned. *)
Theorem run_each_host_string w kvs client delivered host :
  dict.get kvs "where" = Some (PStr host) ->
  host <> "node" -> host <> "server" -> host <> "node_servers" ->
  client_run_each kvs client delivered w
  = (Ret tt, with_trace w (trace w ++ [Send client (PList [])])).
Proof.
  intros Hw H1 H2 H3. unfold client_run_each. unfold_monad.
  assert (Hne : forall tag, host <> tag ->
            eq_str (if negb (truthy (pydict_get kvs "func" PNone))
                       || negb (eq_opt_str (__cur_client_auth w) (pydict_get kvs "auth" PNone))
                    then PNone else pydict_get kvs "where" PNone) tag = false).
  { intros tag Ht. destruct (_ || _); [done|]. unfold pydict_get. rewrite Hw. simpl.
    by apply String.eqb_neq. }
  rewrite !Hne by done. reflexivity.
Qed.
End SpawnFacts.

Lemma Server_run_not_initialized_witness :
  Scheduler._Server_run 0%nat (PBytes "compute") Sample.client Sample.worker
                        (PCoro Sample.task) Sample.fleet_closed1
  = (Ret tt, Sample.fleet_closed1).
Proof.
  apply (Server_run_not_initialized Sample.fleet_closed1 0%nat (PBytes "compute")
           Sample.client Sample.worker (PCoro Sample.task)).
  reflexivity.
Defined.

(** The request names the initialized node 10.0.0.1, which has two
    initialized servers; the client is sent an empty list. *)
Lemma run_each_host_string_witness :
  Fleet.node_initialized Sample.fleet 0%nat = true /\
  Scheduler.initialized_servers Sample.fleet (Scheduler.node_of Sample.fleet 0%nat)
    = [0%nat; 1%nat] /\
  exists m, Scheduler.__client_proc Sample.run_each_request 1 = Some m /\
    m Sample.fleet
    = (Ret tt, Scheduler.with_trace Sample.fleet [Send Sample.client (PList [])]).
Proof.
  split; [reflexivity|]. split; [reflexivity|].
  eexists. split; [reflexivity|].
  apply (run_each_host_string Sample.fleet _ Sample.client 1 "10.0.0.1");
    [reflexivity | discriminate..].
Defined.

(** C1 (what the code does): closing a server that runs a task leaves the
    node's count where it was, so the count no longer agrees with the sum
    over the initialized servers; a peer going offline does the same. *)
Theorem close_server_keeps_ncoros :
  Fleet.ncoros_consistent Sample.fleet = true /\
  (exists w', Scheduler.__close_server 0%nat Sample.fleet = (Ret 0, w') /\
     Scheduler._Node.ncoros (Scheduler.node_of w' 0%nat) = 1 /\
     Fleet.active_coros w' (Scheduler.node_of w' 0%nat) = 0 /\
     Fleet.ncoros_consistent w' = false) /\
  (exists w', Scheduler.__status_proc (PPeerStatus "s1" Sample.loc1 false) Sample.t100
                Sample.fleet = (Ret tt, w') /\
     Scheduler._Node.ncoros (Scheduler.node_of w' 0%nat) = 1 /\
     Fleet.active_coros w' (Scheduler.node_of w' 0%nat) = 0 /\
     Fleet.ncoros_consistent w' = false).
Proof.
  split; [reflexivity|]. split.
  - eexists. split; [vm_compute; reflexivity|]. by vm_compute.
  - eexists. split; [vm_compute; reflexivity|]. by vm_compute.
Qed.

(** ** Dictionaries *)

Section DictFacts.
Context {V : Type}.
Implicit Types (d : dict.t V) (k : string) (v : V).

Lemma dict_get_set_eq d k v : dict.get (dict.set d k v) k = Some v.
Proof.
  induction d as [|[k' v'] d IH]; simpl.
  - by rewrite String.eqb_refl.
  - destruct (String.eqb_spec k' k) as [->|Hne]; simpl.
    + by rewrite String.eqb_refl.
    + by destruct (String.eqb_spec k' k).
Qed.

Lemma dict_get_values d k v : dict.get d k = Some v -> In v (dict.values d).
Proof.
  induction d as [|[k' v'] d IH]; simpl; [done|].
  destruct (String.eqb k' k); [intros [= ->]; by left | right; auto].
Qed.
End DictFacts.

Section RaceFacts.
Import Scheduler Fleet.

Lemma server_of_update w r s :
  server_of (with_servers w (<[r := s]> (servers w))) r = s.
Proof. unfold server_of. simpl. by rewrite lookup_total_insert_eq. Qed.

Lemma server_of_with_trace w tr r : server_of (with_trace w tr) r = server_of w r.
Proof. reflexivity. Qed.

(** C2: a termination of task [T] that is processed while [T] is not
    yet recorded in [coros] of its server is buffered in [done] under
    the task id; the spawn acknowledgment for [T] that follows on that
    server delivers the buffered termination to the client instead of
    the handle, leaves [T] out of [coros] and leaves the count of every
    node as it was. *)
Theorem termination_before_spawn_ack w T info now node server k :
  let msg := PMonitorException (PCoro T) info in
  dict.get (_nodes w) (Location.addr (Coro.location T)) = Some node ->
  dict.get (_Node.servers (node_of w node)) (str_Location (Coro.location T)) = Some server ->
  dict.get (_Server.coros (server_of w server)) (str_Coro T) = None ->
  run_self k = server ->
  exists w1 w2,
    __status_proc msg now w = (Ret tt, w1) /\
    dict.get (_Server.done (server_of w1 server)) (str_Coro T) = Some msg /\
    _Server_run_reply k (PCoro T) w1 = (Ret tt, w2) /\
    trace w2 = (trace w ++ [Deliver (run_client k) msg None])%list /\
    dict.get (_Server.coros (server_of w2 server)) (str_Coro T) = None /\
    (forall n, _Node.ncoros (node_of w2 n) = _Node.ncoros (node_of w n)).
Proof.
  intros msg Hnode Hserver Hcoros Hk.
  eexists _, _. split.
  { unfold __status_proc, msg, get_node, get_server, update_server, dict.pop.
    unfold_monad. rewrite Hnode. fold (node_of w node). rewrite Hserver.
    fold (server_of w server). rewrite Hcoros. reflexivity. }
  split.
  { rewrite server_of_update. simpl. apply dict_get_set_eq. }
  split.
  { unfold _Server_run_reply, get_server, update_server, emit, dict.pop.
    unfold_monad. rewrite Hk. rewrite server_of_update. simpl.
    rewrite dict_get_set_eq. simpl. reflexivity. }
  split; [reflexivity|]. split; [|done].
  rewrite server_of_with_trace, server_of_update. exact Hcoros.
Qed.
End RaceFacts.

Lemma termination_before_spawn_ack_witness :
  exists w1 w2,
    Scheduler.__status_proc (PMonitorException (PCoro Sample.task2) PNone) Sample.t100
                            Sample.fleet = (Ret tt, w1) /\
    dict.get (Scheduler._Server.done (Scheduler.server_of w1 1%nat)) (str_Coro Sample.task2)
      = Some (PMonitorException (PCoro Sample.task2) PNone) /\
    Scheduler._Server_run_reply (Scheduler.mk_pending 1%nat 0%nat Sample.client)
                                (PCoro Sample.task2) w1 = (Ret tt, w2) /\
    Scheduler.trace w2
      = [Deliver Sample.client (PMonitorException (PCoro Sample.task2) PNone) None] /\
    dict.get (Scheduler._Server.coros (Scheduler.server_of w2 1%nat)) (str_Coro Sample.task2)
      = None /\
    (forall n, Scheduler._Node.ncoros (Scheduler.node_of w2 n)
               = Scheduler._Node.ncoros (Scheduler.node_of Sample.fleet n)).
Proof.
  apply (termination_before_spawn_ack Sample.fleet Sample.task2 PNone Sample.t100 0%nat 1%nat
           (Scheduler.mk_pending 1%nat 0%nat Sample.client)); reflexivity.
Defined.

(** ** The timer's audit *)

Section AuditFacts.
Import Scheduler Fleet.

Lemma with_trace_id w : with_trace w (trace w) = w.
Proof. by destruct w. Qed.

(** A loop whose body only emits messages, chosen from the state
    without regard to the trace. *)
Lemma for_each_emits {A} (body : A -> M t unit) (g : t -> A -> list Event) (xs : list A) :
  (forall w tr x, g (with_trace w tr) x = g w x) ->
  (forall w x, body x w = (Ret tt, with_trace w (trace w ++ g w x)%list)) ->
  forall w, for_each xs body w = (Ret tt, with_trace w (trace w ++ flat_map (g w) xs)%list).
Proof.
  intros Hg Hbody. induction xs as [|x xs IH]; intros w; simpl.
  - unfold_monad. by rewrite app_nil_r, with_trace_id.
  - unfold_monad. rewrite Hbody, IH. simpl.
    rewrite <- app_assoc. do 4 f_equal.
    apply flat_map_ext. intros a. apply Hg.
Qed.

Lemma audit_node_emits now w node :
  audit_node now node w = (Ret tt, with_trace w (trace w ++ zombies_of_node now w node)%list).
Proof.
  unfold audit_node, zombies_of_node, node_initialized, get_node. unfold_monad.
  destruct (status_is _ NodeInitialized); simpl.
  - apply (for_each_emits _ (zombies_of_server now)); [done|].
    intros w' server. unfold zombies_of_server, server_initialized, get_server, emit.
    unfold_monad. destruct (status_is _ ServerInitialized); simpl.
    + destruct (is_zombie _ _ _); simpl; [done|]. by rewrite app_nil_r, with_trace_id.
    + by rewrite app_nil_r, with_trace_id.
  - by rewrite app_nil_r, with_trace_id.
Qed.

Lemma audit_emits now server_check w :
  float_gt_int (float_sub now server_check) (5 * __pulse_interval w) = true ->
  audit now server_check w
  = (Ret tt, with_trace w (trace w ++ flat_map (zombies_of_node now w)
                                               (dict.values (_nodes w)))%list).
Proof.
  intros H. unfold audit. unfold_monad. rewrite H.
  apply (for_each_emits _ (zombies_of_node now)); [done|].
  intros w' node. apply audit_node_emits.
Qed.

(** C9, as amended: when the audit runs (the clock is more than
    5 x pulse_interval past [server_check]), a server-close of a server
    is launched if and only if the server is initialized, is listed in
    the servers of an initialized node of [_nodes] and its last pulse is
    more than 5 x pulse_interval old.  So no such server is skipped, an
    initialized server that is listed only under nodes that are not
    initialized is passed over, and nothing but the trace changes. *)
Theorem audit_closes_zombies w now server_check :
  float_gt_int (float_sub now server_check) (5 * __pulse_interval w) = true ->
  exists tr,
    audit now server_check w = (Ret tt, with_trace w (trace w ++ tr)%list) /\
    forall e,
      In e tr <->
      exists node server,
        e = Spawn (T_close_server server) /\
        In node (dict.values (_nodes w)) /\
        node_initialized w node = true /\
        In server (dict.values (_Node.servers (node_of w node))) /\
        server_initialized w server = true /\
        float_gt_int (float_sub now (_Server.last_pulse (server_of w server)))
                     (5 * __pulse_interval w) = true.
Proof.
  intros Hdue. eexists. split; [by apply audit_emits|].
  intros e. rewrite in_flat_map. split.
  - intros (node & Hnode & He). unfold zombies_of_node in He.
    destruct (node_initialized w node) eqn:Hninit; [|by destruct He].
    apply in_flat_map in He as (server & Hserver & He).
    unfold zombies_of_server, is_zombie in He.
    destruct (server_initialized w server) eqn:Hsinit; simpl in He; [|by destruct He].
    destruct (float_gt_int (float_sub now (_Server.last_pulse (server_of w server)))
                           (5 * __pulse_interval w)) eqn:Hold; [|by destruct He].
    destruct He as [<-|[]]. by exists node, server.
  - intros (node & server & -> & Hnode & Hninit & Hserver & Hsinit & Hold).
    exists node. split; [done|].
    unfold zombies_of_node. rewrite Hninit.
    apply in_flat_map. exists server. split; [done|].
    unfold zombies_of_server, is_zombie. rewrite Hsinit, Hold. by left.
Qed.
End AuditFacts.

Lemma audit_closes_zombies_witness :
  exists tr,
    Scheduler.audit Sample.t100 Sample.t0 Sample.fleet
    = (Ret tt, Scheduler.with_trace Sample.fleet (Scheduler.trace Sample.fleet ++ tr)%list) /\
    forall e,
      In e tr <->
      exists node server,
        e = Spawn (T_close_server server) /\
        In node (dict.values (Scheduler._nodes Sample.fleet)) /\
        Fleet.node_initialized Sample.fleet node = true /\
        In server (dict.values (Scheduler._Node.servers (Scheduler.node_of Sample.fleet node))) /\
        Fleet.server_initialized Sample.fleet server = true /\
        float_gt_int (float_sub Sample.t100
                        (Scheduler._Server.last_pulse (Scheduler.server_of Sample.fleet server)))
                     (5 * Scheduler.__pulse_interval Sample.fleet) = true.
Proof.
  apply (audit_closes_zombies Sample.fleet Sample.t100 Sample.t0). reflexivity.
Defined.

(** C9, as stated, fails: in a node that is merely discovered, an
    initialized server whose last pulse is 100 seconds old (the pulse
    interval being 10) is passed over by the audit. *)
Lemma audit_skips_server_of_discovered_node :
  float_gt_int (float_sub Sample.t100 Sample.t0)
               (5 * Scheduler.__pulse_interval Sample.fleet_discovered) = true /\
  In 0%nat (dict.values (Scheduler._nodes Sample.fleet_discovered)) /\
  In 0%nat (dict.values (Scheduler._Node.servers
                           (Scheduler.node_of Sample.fleet_discovered 0%nat))) /\
  Fleet.server_initialized Sample.fleet_discovered 0%nat = true /\
  float_gt_int (float_sub Sample.t100
                  (Scheduler._Server.last_pulse
                     (Scheduler.server_of Sample.fleet_discovered 0%nat)))
               (5 * Scheduler.__pulse_interval Sample.fleet_discovered) = true /\
  exists w', Scheduler.audit Sample.t100 Sample.t0 Sample.fleet_discovered = (Ret tt, w') /\
             ~ In (Spawn (T_close_server 0%nat)) (Scheduler.trace w').
Proof.
  repeat (split; [by vm_compute; auto|]).
  eexists. split; [vm_compute; reflexivity|]. simpl. tauto.
Qed.

(** ** Placement *)

Section FloatOrder.
(** [<] on floats is a strict order (a comparison with a NaN is false). *)
Lemma float_lt_irrefl x : float_lt x x = false.
Proof.
  unfold float_lt, SFltb, SFcompare.
  destruct x as [s|s| |s m e]; try done; [by destruct s|].
  rewrite Z.compare_refl.
  change (PosDef.Pos.compare_cont Eq m m) with (Pos.compare m m).
  rewrite Pos.compare_refl. by destruct s.
Qed.

Lemma float_lt_trans x y z :
  float_lt x y = true -> float_lt y z = true -> float_lt x z = true.
Proof.
  unfold float_lt, SFltb, SFcompare.
  destruct x as [sx|sx| |sx mx ex], y as [sy|sy| |sy my ey], z as [sz|sz| |sz mz ez];
    try done; destruct sx, sy, sz; try done;
    change PosDef.Pos.compare_cont with Pos.compare_cont;
    fold (Pos.compare mx my); fold (Pos.compare my mz); fold (Pos.compare mx mz);
    destruct (Z.compare_spec ex ey), (Z.compare_spec ey ez), (Z.compare_spec ex ez);
    try done; try lia;
    destruct (Pos.compare_spec mx my), (Pos.compare_spec my mz), (Pos.compare_spec mx mz);
    try done; try lia.
Qed.
End FloatOrder.

Section PlacementFacts.
Import Scheduler Fleet.

Lemma In_initialized_nodes w n :
  In n (initialized_nodes w) <-> In n (dict.values (_nodes w)) /\ node_initialized w n = true.
Proof. unfold initialized_nodes. apply filter_In. Qed.

Lemma In_initialized_servers w node s :
  In s (initialized_servers w node)
  <-> In s (dict.values (_Node.servers node)) /\ server_initialized w s = true.
Proof. unfold initialized_servers. apply filter_In. Qed.

(** The loop of [__run]: [host] and [load] move together, and [load]
    only ever decreases. *)
Lemma run_loop_spec w nodes : forall host load,
  (forall n, In n nodes -> node_initialized w n = true ->
             exists f, node_load (node_of w n) = Ret f) ->
  match host, load with
  | None, None => True
  | Some h, Some l => node_initialized w h = true /\ node_load (node_of w h) = Ret l
  | _, _ => False
  end ->
  exists host' load', __run_loop w nodes host load = Ret (host', load') /\
    match host', load' with
    | None, None => host = None /\ forall n, In n nodes -> node_initialized w n = false
    | Some h, Some l =>
        node_initialized w h = true /\ node_load (node_of w h) = Ret l /\
        (host = Some h \/ In h nodes) /\
        (forall n f, In n nodes -> node_initialized w n = true ->
                     node_load (node_of w n) = Ret f -> float_lt f l = false) /\
        (forall l0, load = Some l0 -> l = l0 \/ float_lt l l0 = true)
    | _, _ => False
    end.
Proof.
  induction nodes as [|n nodes IH]; intros host load Hdef Hsync; simpl.
  - exists host, load. split; [done|].
    destruct host as [h|], load as [l|]; try done.
    destruct Hsync as [? ?]. split_and!; auto.
    + by intros n f [].
    + intros ? [= <-]. by left.
  - assert (Hdef' : forall n0, In n0 nodes -> node_initialized w n0 = true ->
                               exists f, node_load (node_of w n0) = Ret f)
      by (intros; apply Hdef; simpl; auto).
    unfold node_initialized in *.
    destruct (status_is (_Node.status (node_of w n)) NodeInitialized) eqn:Hn; simpl.
    + destruct (Hdef n (or_introl eq_refl) Hn) as [f Hf]. rewrite Hf. simpl.
      assert (Hmin : forall l, l = f \/ float_lt l f = true -> float_lt f l = false).
      { intros l [->|Hl]; [apply float_lt_irrefl|].
        destruct (float_lt f l) eqn:E; [|done].
        by rewrite <- (float_lt_irrefl l), (float_lt_trans _ _ _ Hl E). }
      assert (Hnew : (forall l0, load = Some l0 -> float_lt f l0 = true) ->
                exists host' load',
                __run_loop w nodes (Some n) (Some f) = Ret (host', load') /\
                match host', load' with
                | Some h, Some l =>
                    status_is (_Node.status (node_of w h)) NodeInitialized = true /\
                    node_load (node_of w h) = Ret l /\
                    (host = Some h \/ In h (n :: nodes)) /\
                    (forall n0 f0, In n0 (n :: nodes) ->
                       status_is (_Node.status (node_of w n0)) NodeInitialized = true ->
                       node_load (node_of w n0) = Ret f0 -> float_lt f0 l = false) /\
                    (forall l1, load = Some l1 -> l = l1 \/ float_lt l l1 = true)
                | _, _ => False
                end).
      { intros Hl0.
        destruct (IH (Some n) (Some f) Hdef' (conj Hn Hf)) as (h' & l' & Hrun & Hpost).
        exists h', l'. split; [done|].
        destruct h' as [h|], l' as [l|]; try done; [|by destruct Hpost].
        destruct Hpost as (? & ? & Hh & Hrest & Hl). split_and!; auto.
        - right. destruct Hh as [[= ->]|]; simpl; auto.
        - intros n0 f0 [<-|Hin] Hinit Hf0; [|eauto].
          rewrite Hf in Hf0. injection Hf0 as <-. apply Hmin, Hl; done.
        - intros l1 Hl1. right. specialize (Hl0 l1 Hl1).
          destruct (Hl f eq_refl) as [->|Hlf]; [done|].
          by apply (float_lt_trans _ f). }
      destruct load as [l0|].
      * destruct host as [h0|]; [|done]. destruct (float_lt f l0) eqn:Hlt.
        -- destruct Hnew as (h' & l' & Hr & Hp); [by intros ? [= <-]|].
           exists h', l'. split; [done|]. by destruct h', l'.
        -- destruct (IH (Some h0) (Some l0) Hdef' Hsync) as (h' & l' & -> & Hpost).
           exists h', l'. split; [done|].
           destruct h' as [h|], l' as [l|]; try done; [|by destruct Hpost].
           destruct Hpost as (? & ? & Hh & Hrest & Hl). split_and!; auto.
           ++ destruct Hh; [by left | right; simpl; tauto].
           ++ intros n0 f0 [<-|Hin] Hinit Hf0; [|eauto].
              rewrite Hf in Hf0. injection Hf0 as <-.
              destruct (Hl l0 eq_refl) as [->|Hl0]; [done|].
              destruct (float_lt f l) eqn:E; [|done].
              by rewrite <- Hlt, (float_lt_trans _ _ _ E Hl0).
      * destruct host as [h0|]; [done|].
        destruct Hnew as (h' & l' & Hr & Hp); [done|].
        exists h', l'. split; [done|]. by destruct h', l'.
    + destruct (IH host load Hdef' Hsync) as (h' & l' & -> & Hpost).
      exists h', l'. split; [done|].
      destruct h' as [h|], l' as [l|]; try done.
      * destruct Hpost as (? & ? & Hh & Hrest & Hl). split_and!; auto.
        -- destruct Hh; [by left | right; simpl; tauto].
        -- intros n0 f0 [<-|Hin] Hinit Hf0; [congruence | eauto].
      * destruct Hpost as [? Hnone]. split; [done|]. intros n0 [<-|Hin]; auto.
Qed.

(** The loop of [_Node.run]. *)
Lemma Node_run_loop_spec w servers : forall where_ load,
  match where_, load with
  | None, None => True
  | Some s, Some l =>
      server_initialized w s = true /\ l = dict.len (_Server.coros (server_of w s))
  | _, _ => False
  end ->
  match _Node_run_loop w servers where_ load with
  | (None, None) => where_ = None /\ forall s, In s servers -> server_initialized w s = false
  | (Some s, Some l) =>
      server_initialized w s = true /\ l = dict.len (_Server.coros (server_of w s)) /\
      (where_ = Some s \/ In s servers) /\
      (forall s', In s' servers -> server_initialized w s' = true ->
                  (l <= dict.len (_Server.coros (server_of w s')))%nat) /\
      (forall l0, load = Some l0 -> (l <= l0)%nat)
  | _ => False
  end.
Proof.
  unfold server_initialized.
  induction servers as [|s servers IH]; intros where_ load Hsync; simpl.
  - destruct where_ as [s0|], load as [l0|]; try done.
    destruct Hsync. split_and!; auto; [by intros ? [] | by intros ? [= <-]].
  - destruct (status_is (_Server.status (server_of w s)) ServerInitialized) eqn:Hs; simpl.
    + set (len := dict.len (_Server.coros (server_of w s))).
      assert (Hnew : (forall l0, load = Some l0 -> (len < l0)%nat) ->
                match _Node_run_loop w servers (Some s) (Some len) with
                | (Some s1, Some l) =>
                    status_is (_Server.status (server_of w s1)) ServerInitialized = true /\
                    l = dict.len (_Server.coros (server_of w s1)) /\
                    (where_ = Some s1 \/ In s1 (s :: servers)) /\
                    (forall s', In s' (s :: servers) ->
                       status_is (_Server.status (server_of w s')) ServerInitialized = true ->
                       (l <= dict.len (_Server.coros (server_of w s')))%nat) /\
                    (forall l0, load = Some l0 -> (l <= l0)%nat)
                | _ => False
                end).
      { intros Hlt. specialize (IH (Some s) (Some len) (conj Hs eq_refl)).
        destruct (_Node_run_loop w servers (Some s) (Some len)) as [[s1|] [l|]];
          try done; [|by destruct IH].
        destruct IH as (? & ? & Hin & Hrest & Hl). split_and!; auto.
        - right. destruct Hin as [[= ->]|]; simpl; auto.
        - intros s' [<-|Hin'] Hinit; [|eauto]. by apply Hl.
        - intros l0 Hl0. specialize (Hlt l0 Hl0). specialize (Hl len eq_refl). lia. }
      destruct load as [l0|].
      * destruct where_ as [s0|]; [|done]. destruct (Nat.ltb_spec len l0).
        -- destruct (_Node_run_loop w servers (Some s) (Some len)) as [[s1|] [l|]];
             try (by apply Hnew; intros ? [= <-]).
           exfalso. by apply Hnew; intros ? [= <-].
        -- specialize (IH (Some s0) (Some l0) Hsync).
           destruct (_Node_run_loop w servers (Some s0) (Some l0)) as [[s1|] [l|]];
             try done; [|by destruct IH].
           destruct IH as (? & ? & Hin & Hrest & Hl). split_and!; auto.
           ++ destruct Hin; [by left | right; simpl; tauto].
           ++ intros s' [<-|Hin'] Hinit; [|eauto].
              specialize (Hl l0 eq_refl). fold len. lia.
      * destruct where_ as [s0|]; [done|].
        destruct (_Node_run_loop w servers (Some s) (Some len)) as [[s1|] [l|]];
          try (by apply Hnew). exfalso. by apply Hnew.
    + specialize (IH where_ load Hsync).
      destruct (_Node_run_loop w servers where_ load) as [[s1|] [l|]]; try done.
      * destruct IH as (? & ? & Hin & Hrest & Hl). split_and!; auto.
        -- destruct Hin; [by left | right; simpl; tauto].
        -- intros s' [<-|Hin'] Hinit; [congruence | eauto].
      * destruct IH as [? Hnone]. split; [done|]. intros s' [<-|Hin']; auto.
Qed.

Lemma Node_run_selects w host func client coro reply :
  node_initialized w host = true ->
  (initialized_servers w (node_of w host) = [] /\
   _Node_run host func client coro reply w
   = (Ret tt, with_trace w (trace w ++ [Send client PNone])%list)) \/
  (exists server,
     In server (initialized_servers w (node_of w host)) /\
     (forall s, In s (initialized_servers w (node_of w host)) ->
        (dict.len (_Server.coros (server_of w server))
         <= dict.len (_Server.coros (server_of w s)))%nat) /\
     _Node_run host func client coro reply w
     = _Server_run server func client coro reply w).
Proof.
  unfold node_initialized. intros Hinit.
  unfold _Node_run, get_node, emit. unfold_monad. rewrite Hinit. simpl.
  pose proof (Node_run_loop_spec w (dict.values (_Node.servers (node_of w host)))
                None None I) as Hloop.
  destruct (_Node_run_loop w _ None None) as [[s|] [l|]]; try done; simpl.
  - destruct Hloop as (Hs & -> & [?|Hin] & Hmin & _); [done|].
    right. exists s. split_and!; [by apply In_initialized_servers | | done].
    intros s' [? ?]%In_initialized_servers. auto.
  - destruct Hloop as [_ Hnone]. left. split; [|done].
    unfold initialized_servers.
    destruct (List.filter _ _) as [|s rest] eqn:E; [done|].
    assert (In s (s :: rest)) as Hin by (by left). rewrite <- E in Hin.
    apply filter_In in Hin as [Hin Hs]. specialize (Hnone s Hin).
    unfold server_initialized in Hnone. congruence.
Qed.

(** The load of a node is a float, or the division fails. *)
Lemma node_load_outcome n :
  (exists f, node_load n = Ret f) \/
  node_load n = Raise ZeroDivisionError \/ node_load n = Raise OverflowError.
Proof.
  unfold node_load, float_truediv, py_float.
  destruct (binary_normalize prec emax (_Node.ncoros n) 0 false); simpl; eauto;
    destruct (binary_normalize prec emax _ 0 false); simpl; eauto.
Qed.

(** The loop of [__run] stops at the first initialized node whose load
    is not defined. *)
Lemma run_loop_undefined w n e0 nodes : forall host load,
  In n nodes ->
  node_initialized w n = true ->
  node_load (node_of w n) = Raise e0 ->
  exists e, __run_loop w nodes host load = Raise e /\
            (e = ZeroDivisionError \/ e = OverflowError).
Proof.
  unfold node_initialized. intros host load Hin Hinit Hload. revert host load.
  induction nodes as [|m nodes IH]; intros host load; [done|]. simpl.
  destruct (Nat.eq_dec m n) as [->|Hne].
  - rewrite Hinit, Hload. simpl. exists e0. split; [done|].
    destruct (node_load_outcome (node_of w n)) as [[f E]|[E|E]];
      rewrite E in Hload; [done|left|right]; congruence.
  - destruct Hin as [?|Hin]; [done|].
    destruct (status_is (_Node.status (node_of w m)) NodeInitialized); simpl; [|by apply IH].
    destruct (node_load_outcome (node_of w m)) as [[f E]|[E|E]]; rewrite E; simpl;
      [|by eauto..].
    destruct (match load with Some l => float_lt f l | None => true end); by apply IH.
Qed.

(** C6, as amended: an untargeted [run], in every state of the fleet.
    When no node of [_nodes] is initialized, the client is sent null.
    When the load [float(ncoros) / len(servers)] of every initialized
    node is defined (the node has a server and the count converts to a
    float), the request goes to an initialized node whose load no other
    initialized node undercuts, and within it to an initialized server
    whose number of tasks no other initialized server of the node
    undercuts (when the node has no initialized server, the client is
    sent null).  When the load of some initialized node is not defined,
    as for a node that has no servers, the request raises
    [ZeroDivisionError] or [OverflowError]: the state is unchanged and
    the client is sent nothing. *)
Theorem run_least_loaded w func client coro reply :
  (initialized_nodes w = [] ->
     __run func client coro reply w
     = (Ret tt, with_trace w (trace w ++ [Send client PNone])%list)) /\
  ((forall n, In n (initialized_nodes w) -> exists f, node_load (node_of w n) = Ret f) ->
   initialized_nodes w <> [] ->
   exists host load,
     In host (initialized_nodes w) /\
     node_load (node_of w host) = Ret load /\
     (forall n f, In n (initialized_nodes w) -> node_load (node_of w n) = Ret f ->
                  float_lt f load = false) /\
     __run func client coro reply w = _Node_run host func client coro reply w /\
     ((initialized_servers w (node_of w host) = [] /\
       _Node_run host func client coro reply w
       = (Ret tt, with_trace w (trace w ++ [Send client PNone])%list)) \/
      (exists server,
         In server (initialized_servers w (node_of w host)) /\
         (forall s, In s (initialized_servers w (node_of w host)) ->
            (dict.len (_Server.coros (server_of w server))
             <= dict.len (_Server.coros (server_of w s)))%nat) /\
         _Node_run host func client coro reply w
         = _Server_run server func client coro reply w))) /\
  (forall n, In n (initialized_nodes w) ->
     (_Node.servers (node_of w n) = [] \/ forall f, node_load (node_of w n) <> Ret f) ->
     exists e, __run func client coro reply w = (Raise e, w) /\
               (e = ZeroDivisionError \/ e = OverflowError)).
Proof.
  split_and!.
  - intros Hnone. unfold __run, emit. unfold_monad.
    assert (Hloop : __run_loop w (dict.values (_nodes w)) None None = Ret (None, None)).
    { unfold initialized_nodes in Hnone. revert Hnone.
      induction (dict.values (_nodes w)) as [|n nodes IH]; simpl; [done|].
      destruct (status_is _ NodeInitialized); simpl; [done | exact IH]. }
    by rewrite Hloop.
  - intros Hdef Hsome.
    destruct (run_loop_spec w (dict.values (_nodes w)) None None) as (h' & l' & Hrun & Hpost).
    { intros n Hin Hinit. apply Hdef. by apply In_initialized_nodes. }
    { done. }
    destruct h' as [host|], l' as [load|]; try done.
    + destruct Hpost as (Hinit & Hload & [?|Hin] & Hmin & _); [done|].
      exists host, load. split_and!.
      * by apply In_initialized_nodes.
      * done.
      * intros n f [? ?]%In_initialized_nodes. eauto.
      * unfold __run. unfold_monad. by rewrite Hrun.
      * by apply Node_run_selects.
    + destruct Hpost as [_ Hnone]. exfalso. apply Hsome.
      unfold initialized_nodes.
      destruct (List.filter _ _) as [|n rest] eqn:E; [done|].
      assert (In n (n :: rest)) as Hin by (by left). rewrite <- E in Hin.
      apply filter_In in Hin as [Hin Hn]. specialize (Hnone n Hin).
      unfold node_initialized in Hnone. congruence.
  - intros n [Hin Hinit]%In_initialized_nodes Hundef.
    assert (Hload : exists e0, node_load (node_of w n) = Raise e0).
    { destruct (node_load_outcome (node_of w n)) as [[f E]|[E|E]]; eauto.
      destruct Hundef as [Hnone|Hundef]; [|by destruct (Hundef f)].
      exfalso. revert E. unfold node_load, float_truediv. rewrite Hnone. simpl.
      unfold py_float. by destruct (binary_normalize prec emax (_Node.ncoros (node_of w n))
                                      0 false). }
    destruct Hload as [e0 Hload].
    destruct (run_loop_undefined w n e0 (dict.values (_nodes w)) None None Hin Hinit Hload)
      as (e & Hrun & He).
    exists e. split; [|done]. unfold __run. unfold_monad. by rewrite Hrun.
Qed.
End PlacementFacts.

Lemma run_least_loaded_witness :
  exists host load,
    In host (Scheduler.initialized_nodes Sample.fleet_two) /\
    Scheduler.node_load (Scheduler.node_of Sample.fleet_two host) = Ret load /\
    (forall n f, In n (Scheduler.initialized_nodes Sample.fleet_two) ->
                 Scheduler.node_load (Scheduler.node_of Sample.fleet_two n) = Ret f ->
                 float_lt f load = false) /\
    Scheduler.__run (PBytes "compute") Sample.client Sample.worker (PCoro Sample.task4)
                    Sample.fleet_two
    = Scheduler._Node_run host (PBytes "compute") Sample.client Sample.worker
                          (PCoro Sample.task4) Sample.fleet_two /\
    ((Scheduler.initialized_servers Sample.fleet_two
        (Scheduler.node_of Sample.fleet_two host) = [] /\
      Scheduler._Node_run host (PBytes "compute") Sample.client Sample.worker
                          (PCoro Sample.task4) Sample.fleet_two
      = (Ret tt, Scheduler.with_trace Sample.fleet_two
                   (Scheduler.trace Sample.fleet_two ++ [Send Sample.client PNone])%list)) \/
     (exists server,
        In server (Scheduler.initialized_servers Sample.fleet_two
                     (Scheduler.node_of Sample.fleet_two host)) /\
        (forall s, In s (Scheduler.initialized_servers Sample.fleet_two
                           (Scheduler.node_of Sample.fleet_two host)) ->
           (dict.len (Scheduler._Server.coros (Scheduler.server_of Sample.fleet_two server))
            <= dict.len (Scheduler._Server.coros (Scheduler.server_of Sample.fleet_two s)))%nat)
        /\
        Scheduler._Node_run host (PBytes "compute") Sample.client Sample.worker
                            (PCoro Sample.task4) Sample.fleet_two
        = Scheduler._Server_run server (PBytes "compute") Sample.client Sample.worker
                                (PCoro Sample.task4) Sample.fleet_two)).
Proof.
  apply (proj1 (proj2 (run_least_loaded Sample.fleet_two (PBytes "compute") Sample.client
                         Sample.worker (PCoro Sample.task4)))).
  - intros n [<-|[<-|[]]]; eexists; vm_compute; reflexivity.
  - discriminate.
Defined.

(** C6, as stated, fails: in a fleet of two initialized nodes, the first
    with two servers and one task, the second left without servers (its
    only server was taken out when its agent could not be located), an
    untargeted [run] selects no node: the load of the second node divides
    by zero, the request raises and the client is sent nothing, although
    the first node and its idle server are there to take the task. *)
Lemma run_fails_with_vacant_node :
  Scheduler.initialized_nodes Sample.fleet_two_vacant = [0%nat; 3%nat] /\
  Scheduler.initialized_servers Sample.fleet_two_vacant
    (Scheduler.node_of Sample.fleet_two_vacant 0%nat) = [0%nat; 1%nat] /\
  Scheduler._Node.servers (Scheduler.node_of Sample.fleet_two_vacant 3%nat) = [] /\
  Scheduler.__run (PBytes "compute") Sample.client Sample.worker (PCoro Sample.task2)
                  Sample.fleet_two_vacant
  = (Raise ZeroDivisionError, Sample.fleet_two_vacant).
Proof. by vm_compute. Qed.

(** On the fleet of two nodes with all servers in place, the same request
    goes to the idle second node, whose load 0 undercuts the load 0.5 of
    the first. *)
Example run_on_fleet_two :
  exists w, Scheduler.__run (PBytes "compute") Sample.client Sample.worker
                            (PCoro Sample.task4) Sample.fleet_two = (Ret tt, w) /\
    Scheduler.trace w
    = [Send Sample.agent4
            (PDict [("req", PStr "run"); ("auth", PStr "5e7ve7"); ("func", PBytes "compute");
                    ("client", PCoro Sample.worker); ("notify", PCoro Sample.status_coro)]);
       Deliver Sample.client (PCoro Sample.task4) None] /\
    Scheduler._Node.ncoros (Scheduler.node_of w 3%nat) = 1 /\
    Scheduler._Node.ncoros (Scheduler.node_of w 0%nat) = 1.
Proof. eexists. split; [vm_compute; reflexivity|]. by vm_compute. Qed.

(** ** Teardown *)

Section TeardownFacts.
Import Scheduler Fleet.

Lemma closing_refl w : closing w w.
Proof. unfold closing. split_and!; auto. Qed.

Lemma closing_trans w1 w2 w3 : closing w1 w2 -> closing w2 w3 -> closing w1 w3.
Proof.
  intros (? & ? & ? & ? & ? & Hs12 & Hn12 & Hk12) (? & ? & ? & ? & ? & Hs23 & Hn23 & Hk23).
  unfold closing. split_and!; try congruence.
  - intros r. destruct (Hs23 r) as [->|]; auto.
  - intros r. destruct (Hn23 r) as [E|]; auto.
    destruct (Hn12 r) as [<-|Hc]; auto. right. unfold node_closed. by rewrite E.
Qed.

Lemma closing_agents_located w w' : closing w w' -> agents_located w -> agents_located w'.
Proof.
  intros (_ & _ & _ & _ & _ & Hs & _) Hw r. destruct (Hs r) as [E|E]; rewrite E; [apply Hw | done].
Qed.

Lemma closing_node_closed w w' r : closing w w' -> node_closed w r -> node_closed w' r.
Proof.
  intros (_ & _ & _ & _ & _ & _ & Hn & _) Hr. destruct (Hn r) as [E|]; [|done].
  unfold node_closed. by rewrite E.
Qed.

Lemma closing_cleared w0 w w' : closing w0 w -> cleared w w' -> cleared w0 w'.
Proof.
  intros (_ & _ & Ha & Hd & _) (H1 & H2 & H3 & H4). unfold cleared.
  split_and!; try done. rewrite <- Ha, <- Hd. exact H3.
Qed.

Lemma closing_trace w tr : closing w (with_trace w tr).
Proof. unfold closing. split_and!; auto. Qed.

(** [__close_server] is its two halves run back to back. *)
Lemma close_server_split server w :
  __close_server server w
  = (__close_server_request server ≫= fun r =>
       match r with
       | Returned z => mret z
       | Waiting k => __close_server_reply k
       end) w.
Proof.
  unfold __close_server, __close_server_request, __close_server_reply, get_server.
  unfold_monad.
  destruct (_cur_computation w) as [c|]; [|done].
  destruct (negb (status_is _ ServerInitialized)); [done|].
  destruct (negb (Nat.eqb _ 0)); simpl.
  - destruct (truthy (Computation.status_coro c)) eqn:Ht; simpl.
    + destruct (for_each _ _ w) as [[[]|e|] w1]; simpl; try done.
      destruct (deliver _ _ _ w1) as [[[]|e|] w2]; simpl; by rewrite ?Ht.
    + destruct (deliver _ _ _ w) as [[[]|e|] w2]; simpl; by rewrite ?Ht.
  - destruct (deliver _ _ _ w) as [[[]|e|] w2]; simpl; done.
Qed.

Lemma isdir_rmtree path dirs : isdir (rmtree path dirs) path = false.
Proof.
  unfold isdir, rmtree. induction dirs as [|d dirs IH]; simpl; [done|].
  destruct (String.eqb_spec d path) as [->|Hne]; simpl; [done|].
  destruct (String.prefix _ d); simpl; [done|].
  rewrite IH. destruct (String.eqb_spec path d); [congruence | done].
Qed.

(** With the observer removed, the first half of a close sends nothing
    but the close request to the agent, and the second half closes the
    server. *)
Lemma close_server_request_quiet w c server :
  _cur_computation w = Some c -> Computation.status_coro c = PNone ->
  agents_located w ->
  exists p tr,
    __close_server_request server w = (Ret p, with_trace w tr) /\
    match p with
    | Returned _ => True
    | Waiting k => k = mk_closing_server server c
    end.
Proof.
  intros Hc Hquiet Hagents. unfold __close_server_request, get_server, deliver, emit.
  unfold_monad. rewrite Hc.
  destruct (status_is (_Server.status (server_of w server)) ServerInitialized) eqn:Hs; simpl.
  - specialize (Hagents server Hs). rewrite Hquiet. simpl.
    destruct (_Server.coro (server_of w server)) eqn:Hcoro; try done.
    destruct (negb _); simpl; by eexists _, _.
  - exists (Returned (-1)), (trace w). by rewrite with_trace_id.
Qed.

Lemma close_server_reply_quiet w c server :
  Computation.status_coro c = PNone ->
  exists w', __close_server_reply (mk_closing_server server c) w = (Ret 0, w') /\
             closing w w'.
Proof.
  intros Hquiet. unfold __close_server_reply, get_server, update_server, notify.
  unfold_monad. simpl. rewrite Hquiet. simpl. eexists. split; [reflexivity|].
  unfold closing. split_and!; try done; [|by left].
  intros r. unfold server_of. simpl.
  destruct (decide (server = r)) as [->|Hne].
  - right. by rewrite lookup_total_insert_eq.
  - left. by rewrite lookup_total_insert_ne.
Qed.

(** The statements after the loop of [__close_computation]. *)
Lemma close_computation_end_clears w :
  (forall n, In n (dict.values (_nodes w)) -> node_closed w n) ->
  exists w', close_computation_end w = (Ret 0, w') /\ cleared w w'.
Proof.
  intros Hclosed. unfold close_computation_end. unfold_monad.
  assert (Hnodes : forall w2, _nodes w2 = _nodes w -> nodes w2 = nodes w ->
            forall addr node, dict.get (_nodes w2) addr = Some node -> node_closed w2 node).
  { intros w2 E1 E2 addr node Hget. unfold node_closed, node_of. rewrite E2.
    apply Hclosed. apply (dict_get_values _ addr). by rewrite <- E1. }
  unfold cleared.
  destruct (__cur_client_auth w) as [a|] eqn:Ha; simpl.
  - destruct (String.eqb_spec a "") as [->|Hne]; simpl.
    + eexists. split; [reflexivity|]. do 2 (split; [done|]). split.
      * by intros ? [= <-] ?.
      * by apply Hnodes.
    + destruct (isdir (dirs w) (path_join (__dest_path w) a)) eqn:Hdir; simpl.
      * eexists. split; [reflexivity|]. do 2 (split; [done|]). split.
        -- simpl. intros ? [= <-] _. apply isdir_rmtree.
        -- by apply Hnodes.
      * eexists. split; [reflexivity|]. do 2 (split; [done|]). split.
        -- simpl. by intros ? [= <-] _.
        -- by apply Hnodes.
  - eexists. split; [reflexivity|]. do 2 (split; [done|]). split; [done|].
    by apply Hnodes.
Qed.

Section Uninterrupted.
Variable c : Computation.t.
Hypothesis Hquiet : Computation.status_coro c = PNone.

(** The loop of [__close_node] and what follows it, when the rest of the
    loop of [__close_computation] is known to come to its end. *)
Lemma close_node_loop_run lenN todo node lenS servers :
  (forall w, _cur_computation w = Some c -> agents_located w ->
             dict.len (_nodes w) = lenN ->
             (forall n, In n (dict.values (_nodes w)) -> In n todo \/ node_closed w n) ->
             exists fuel w',
               (close_computation_loop lenN todo ≫= uninterrupted fuel) w = (Ret 0, w') /\
               cleared w w') ->
  forall w,
    _cur_computation w = Some c -> agents_located w ->
    dict.len (_nodes w) = lenN ->
    dict.len (_Node.servers (node_of w node)) = lenS ->
    (forall n, In n (dict.values (_nodes w)) -> n = node \/ In n todo \/ node_closed w n) ->
    exists fuel w',
      ((close_node_loop node c lenS servers ≫= fun r =>
          match r with
          | Returned _ => close_computation_loop lenN todo
          | Waiting k => mret (Waiting (mk_closing_computation k todo lenN))
          end) ≫= uninterrupted fuel) w = (Ret 0, w') /\
      cleared w w'.
Proof.
  intros Htodo. induction servers as [|server rest IH]; intros w Hc Hag HlenN HlenS HJ.
  - simpl. unfold get_node, update_node, notify. unfold_monad.
    rewrite HlenS, Nat.eqb_refl. simpl. rewrite Hquiet. simpl.
    set (w1 := with_nodes w _).
    assert (Hcl1 : closing w w1).
    { unfold closing, w1. split_and!; try done; [by left| |].
      - intros r. destruct (decide (node = r)) as [<-|Hne].
        + right. unfold node_closed, node_of. simpl. by rewrite lookup_total_insert_eq.
        + left. unfold node_of. simpl. by rewrite lookup_total_insert_ne.
      - intros r. unfold node_of. simpl. destruct (decide (node = r)) as [<-|Hne].
        + by rewrite lookup_total_insert_eq.
        + by rewrite lookup_total_insert_ne. }
    assert (Hag1 : agents_located w1) by (by apply (closing_agents_located w)).
    assert (HJ1 : forall n, In n (dict.values (_nodes w1)) -> In n todo \/ node_closed w1 n).
    { intros n Hn. destruct (HJ n Hn) as [->|[?|?]]; auto.
      - right. unfold node_closed, w1, node_of. simpl. by rewrite lookup_total_insert_eq.
      - right. by apply (closing_node_closed w). }
    destruct (Htodo w1 Hc Hag1 HlenN HJ1) as (fuel & w' & Hrun & Hcl).
    exists fuel, w'. split; [|by apply (closing_cleared w w1)].
    unfold_monad. exact Hrun.
  - simpl. unfold get_node. unfold_monad. rewrite HlenS, Nat.eqb_refl. simpl.
    destruct (close_server_request_quiet w c server Hc Hquiet Hag) as (p & tr & Hreq & Hp).
    rewrite Hreq. destruct p as [z|k].
    + destruct (IH (with_trace w tr) Hc Hag HlenN HlenS HJ) as (fuel & w' & Hrun & Hcl).
      exists fuel, w'.
      split; [|apply (closing_cleared w (with_trace w tr)); [apply closing_trace|done]].
      unfold_monad. exact Hrun.
    + subst k.
      destruct (close_server_reply_quiet (with_trace w tr) c server Hquiet)
        as (w2 & Hrep & Hcl2).
      assert (Hcl02 : closing w w2).
      { by apply (closing_trans _ (with_trace w tr)); [apply closing_trace|]. }
      assert (Hc2 : _cur_computation w2 = Some c).
      { destruct Hcl02 as (_ & -> & _). done. }
      assert (Hag2 : agents_located w2) by (by apply (closing_agents_located w)).
      assert (HlenN2 : dict.len (_nodes w2) = lenN).
      { destruct Hcl02 as (-> & _). done. }
      assert (HlenS2 : dict.len (_Node.servers (node_of w2 node)) = lenS).
      { destruct Hcl02 as (_ & _ & _ & _ & _ & _ & _ & ->). done. }
      assert (HJ2 : forall n, In n (dict.values (_nodes w2)) ->
                              n = node \/ In n todo \/ node_closed w2 n).
      { intros n Hn. destruct Hcl02 as (E & _). rewrite E in Hn.
        destruct (HJ n Hn) as [->|[?|?]]; auto.
        right. right. by apply (closing_node_closed w). }
      destruct (IH w2 Hc2 Hag2 HlenN2 HlenS2 HJ2) as (fuel & w' & Hrun & Hcl).
      exists (S fuel), w'. split; [|by apply (closing_cleared w w2)].
      simpl. unfold __close_computation_resume, __close_node_resume. unfold_monad.
      simpl. rewrite Hrep. unfold_monad. exact Hrun.
Qed.

(** The loop of [__close_computation] and what follows it. *)
Lemma close_computation_loop_run lenN todo : forall w,
  _cur_computation w = Some c -> agents_located w ->
  dict.len (_nodes w) = lenN ->
  (forall n, In n (dict.values (_nodes w)) -> In n todo \/ node_closed w n) ->
  exists fuel w',
    (close_computation_loop lenN todo ≫= uninterrupted fuel) w = (Ret 0, w') /\
    cleared w w'.
Proof.
  induction todo as [|node todo IH]; intros w Hc Hag HlenN HJ.
  - simpl. unfold_monad. rewrite HlenN, Nat.eqb_refl. simpl.
    destruct (close_computation_end_clears w) as (w' & Hend & Hcl).
    { intros n Hn. by destruct (HJ n Hn) as [[]|?]. }
    exists 0%nat, w'. split; [|done]. unfold_monad. by rewrite Hend.
  - destruct (close_node_loop_run lenN todo node
                (dict.len (_Node.servers (node_of w node)))
                (dict.values (_Node.servers (node_of w node))) IH w Hc Hag HlenN eq_refl)
      as (fuel & w' & Hrun & Hcl).
    { intros n Hn. destruct (HJ n Hn) as [[<-|?]|?]; auto. }
    exists fuel, w'. split; [|done].
    simpl. unfold __close_node, get_node. unfold_monad.
    rewrite HlenN, Nat.eqb_refl. simpl. rewrite Hc. simpl. unfold_monad. exact Hrun.
Qed.
End Uninterrupted.

(** C8, as amended: from a state with an active computation in which
    every initialized server holds the handle of its agent, the run of
    [__close_computation] in which no other coroutine runs while it waits
    for an agent to take a close request comes to its end and leaves no
    current computation and no current client auth; the directory staged
    for the client's auth is gone, and every node of [_nodes] is closed
    with a count of 0. *)
Theorem close_computation_clears w c :
  _cur_computation w = Some c ->
  agents_located w ->
  exists fuel w',
    (__close_computation ≫= uninterrupted fuel) w = (Ret 0, w') /\
    _cur_computation w' = None /\
    __cur_client_auth w' = None /\
    (forall a, __cur_client_auth w = Some a -> a <> "" ->
               isdir (dirs w') (path_join (__dest_path w) a) = false) /\
    (forall addr node, dict.get (_nodes w') addr = Some node ->
       _Node.status (node_of w' node) = Some NodeClosed /\
       _Node.ncoros (node_of w' node) = 0).
Proof.
  intros Hc Hagents.
  set (w0 := with_cur_computation w (Some (Computation.with_status_coro c PNone))).
  destruct (close_computation_loop_run (Computation.with_status_coro c PNone) eq_refl
              (dict.len (_nodes w0)) (dict.values (_nodes w0)) w0)
    as (fuel & w' & Hrun & H1 & H2 & H3 & H4); try done.
  { intros n Hn. by left. }
  exists fuel, w'. split; [|done].
  unfold __close_computation. unfold_monad. rewrite Hc. simpl. unfold_monad. exact Hrun.
Qed.
End TeardownFacts.

Lemma agents_located_fleet_two : Fleet.agents_located Sample.fleet_two.
Proof.
  intros [|[|[|r]]]; [by vm_compute..|].
  unfold Scheduler.server_of. rewrite lookup_total_alt. simpl.
  rewrite !lookup_insert_ne, lookup_singleton_ne by lia. done.
Qed.

Lemma close_computation_clears_witness :
  exists fuel w',
    (Scheduler.__close_computation ≫= Scheduler.uninterrupted fuel) Sample.fleet_two
      = (Ret 0, w') /\
    Scheduler._cur_computation w' = None /\
    Scheduler.__cur_client_auth w' = None /\
    (forall a, Scheduler.__cur_client_auth Sample.fleet_two = Some a -> a <> "" ->
       Scheduler.isdir (Scheduler.dirs w')
         (Scheduler.path_join (Scheduler.__dest_path Sample.fleet_two) a) = false) /\
    (forall addr node, dict.get (Scheduler._nodes w') addr = Some node ->
       Scheduler._Node.status (Scheduler.node_of w' node) = Some Scheduler.NodeClosed /\
       Scheduler._Node.ncoros (Scheduler.node_of w' node) = 0).
Proof.
  apply (close_computation_clears Sample.fleet_two Sample.computation);
    [reflexivity | apply agents_located_fleet_two].
Defined.

(** The uninterrupted run on the fleet of two nodes: three close requests,
    one for each initialized server, and nothing to the observer, which
    was taken off the computation first. *)
Example close_computation_on_fleet_two :
  exists w', (Scheduler.__close_computation ≫= Scheduler.uninterrupted 3) Sample.fleet_two
             = (Ret 0, w') /\
    Scheduler.trace w'
    = [Deliver Sample.agent1 (PDict [("req", PStr "close"); ("auth", PStr "5e7ve7")])
               (Some 10);
       Deliver Sample.agent2 (PDict [("req", PStr "close"); ("auth", PStr "5e7ve7")])
               (Some 10);
       Deliver Sample.agent4 (PDict [("req", PStr "close"); ("auth", PStr "5e7ve7")])
               (Some 10)] /\
    Scheduler.dirs w' = [].
Proof. eexists. split; [vm_compute; reflexivity|]. by vm_compute. Qed.

(** C8, as stated, fails: on the fleet of two nodes, the bootstrap of the
    second server of the first node is under way when the computation is
    closed.  [__close_computation] waits for the agent of the first
    server, closes the first server, passes over the second (it is
    ignored, not initialized), closes the first node and waits for the
    agent of the server of the second node.  There the bootstrap comes to
    its end ([computation] is the object whose observer the close has
    taken off): the second server is initialized and, the node being no
    longer initialized, the first node is set to initialized again.
    [__close_computation] then runs to its end and returns 0: there is no
    current computation and no client auth, and the first node is
    initialized, not closed, with an initialized server. *)
Lemma close_computation_interleaved :
  exists k1 w1 k2 w2 w3 w4,
    Scheduler.__close_computation Sample.fleet_pending = (Ret (Scheduler.Waiting k1), w1) /\
    Scheduler.close_self (Scheduler.node_server (Scheduler.computation_node k1)) = 0%nat /\
    Scheduler.__close_computation_resume k1 w1 = (Ret (Scheduler.Waiting k2), w2) /\
    Scheduler.close_self (Scheduler.node_server (Scheduler.computation_node k2)) = 2%nat /\
    Scheduler._Node.status (Scheduler.node_of w2 0%nat) = Some Scheduler.NodeClosed /\
    Scheduler.__setup_server_finish 1%nat
      (Computation.with_status_coro Sample.computation PNone) Sample.t100 w2
      = (Ret (PInt 0), w3) /\
    Scheduler.__close_computation_resume k2 w3 = (Ret (Scheduler.Returned 0), w4) /\
    Scheduler._cur_computation w4 = None /\
    Scheduler.__cur_client_auth w4 = None /\
    dict.get (Scheduler._nodes w4) "10.0.0.1" = Some 0%nat /\
    Scheduler._Node.status (Scheduler.node_of w4 0%nat) = Some Scheduler.NodeInitialized /\
    Fleet.server_initialized w4 1%nat = true.
Proof.
  do 6 eexists.
  split; [vm_compute; reflexivity|]. split; [reflexivity|].
  split; [vm_compute; reflexivity|]. split; [reflexivity|].
  split; [reflexivity|].
  split; [vm_compute; reflexivity|].
  split; [vm_compute; reflexivity|].
  by vm_compute.
Qed.

(** ** The count of a node under spawn and termination

    The two steps that add and remove a task keep [node.ncoros] equal to
    the number of tasks on the node's initialized servers. *)

Section CountFacts.
Import Scheduler Fleet.

Lemma dict_len_set_new {V} (d : dict.t V) k v :
  dict.get d k = None -> dict.len (dict.set d k v) = S (dict.len d).
Proof.
  unfold dict.len. induction d as [|[k' v'] d IH]; simpl; [done|].
  destruct (String.eqb k' k); [done|]. intros H. simpl. by rewrite IH.
Qed.

Lemma dict_len_remove {V} (d : dict.t V) k v :
  dict.get d k = Some v -> S (dict.len (dict.remove d k)) = dict.len d.
Proof.
  unfold dict.len. induction d as [|[k' v'] d IH]; simpl; [done|].
  destruct (String.eqb k' k); [done|]. intros H. simpl. by rewrite IH.
Qed.

(** A sum over a list in which one summand, occurring once, moves by
    [delta]. *)
Lemma sum_one_changed (f g : ref -> Z) (r : ref) (delta : Z) (l : list ref) :
  (forall s, s <> r -> g s = f s) -> g r = f r + delta ->
  fold_right Z.add 0 (List.map g l)
  = fold_right Z.add 0 (List.map f l) + Z.of_nat (count_occ Nat.eq_dec l r) * delta.
Proof.
  intros Hother Hr. induction l as [|s l IH]; simpl; [lia|].
  rewrite IH. destruct (Nat.eq_dec s r) as [->|Hne].
  - rewrite Hr. lia.
  - rewrite (Hother s Hne). lia.
Qed.

Lemma count_occ_filter (p : ref -> bool) (r : ref) (l : list ref) :
  p r = true -> count_occ Nat.eq_dec (List.filter p l) r = count_occ Nat.eq_dec l r.
Proof.
  intros Hp. induction l as [|s l IH]; simpl; [done|].
  destruct (p s) eqn:Hs; simpl; destruct (Nat.eq_dec s r) as [->|Hne]; try lia.
  congruence.
Qed.

(** The tasks of a node after the [coros] of one of its initialized
    servers, listed once, changed in size by [delta]. *)
Lemma active_coros_one_changed w w' n n' server delta :
  _Node.servers n' = _Node.servers n ->
  (forall s, _Server.status (server_of w' s) = _Server.status (server_of w s)) ->
  (forall s, s <> server -> _Server.coros (server_of w' s) = _Server.coros (server_of w s)) ->
  Z.of_nat (dict.len (_Server.coros (server_of w' server)))
  = Z.of_nat (dict.len (_Server.coros (server_of w server))) + delta ->
  server_initialized w server = true ->
  count_occ Nat.eq_dec (dict.values (_Node.servers n)) server = 1%nat ->
  active_coros w' n' = active_coros w n + delta.
Proof.
  intros Hservers Hstatus Hother Hlen Hinit Honce. unfold active_coros.
  assert (Hsame : initialized_servers w' n' = initialized_servers w n).
  { unfold initialized_servers. rewrite Hservers. apply filter_ext. intros s.
    by rewrite Hstatus. }
  rewrite Hsame.
  rewrite (sum_one_changed
             (fun s => Z.of_nat (dict.len (_Server.coros (server_of w s))))
             (fun s => Z.of_nat (dict.len (_Server.coros (server_of w' s))))
             server delta).
  - unfold initialized_servers. rewrite count_occ_filter by exact Hinit. rewrite Honce. lia.
  - intros s Hne. by rewrite Hother.
  - exact Hlen.
Qed.

(** A spawn acknowledgment for a new task on an initialized server of
    the node keeps the node's count exact. *)
Lemma spawn_ack_keeps_count w k T :
  server_initialized w (run_self k) = true ->
  dict.get (_Server.coros (server_of w (run_self k))) (str_Coro T) = None ->
  dict.get (_Server.done (server_of w (run_self k))) (str_Coro T) = None ->
  count_occ Nat.eq_dec (dict.values (_Node.servers (node_of w (run_node k)))) (run_self k)
    = 1%nat ->
  _Node.ncoros (node_of w (run_node k)) = active_coros w (node_of w (run_node k)) ->
  exists w', _Server_run_reply k (PCoro T) w = (Ret tt, w') /\
    Scheduler.trace w' = (Scheduler.trace w ++ [Deliver (run_client k) (PCoro T) None])%list /\
    _Node.ncoros (node_of w' (run_node k)) = active_coros w' (node_of w' (run_node k)).
Proof.
  intros Hinit Hnew Hdone Honce Hcount.
  unfold _Server_run_reply, get_server, update_server, update_node, emit, dict.pop.
  unfold_monad. rewrite Hdone. simpl. eexists. split; [reflexivity|]. split; [done|].
  set (w' := with_trace _ _).
  assert (Hn : node_of w' (run_node k)
               = _Node.with_ncoros (node_of w (run_node k))
                                   (_Node.ncoros (node_of w (run_node k)) + 1)).
  { unfold w', node_of. simpl. by rewrite lookup_total_insert_eq. }
  assert (Hs : server_of w' (run_self k)
               = _Server.with_coros
                   (_Server.with_done (server_of w (run_self k))
                      (dict.remove (_Server.done (server_of w (run_self k))) (str_Coro T)))
                   (dict.set (_Server.coros (server_of w (run_self k))) (str_Coro T) T)).
  { unfold w', server_of. simpl. rewrite lookup_total_insert_eq. simpl.
    by rewrite lookup_total_insert_eq. }
  assert (Hother : forall s, s <> run_self k -> server_of w' s = server_of w s).
  { intros s Hne. unfold w', server_of. simpl. by rewrite !lookup_total_insert_ne. }
  rewrite Hn. simpl. rewrite Hcount. symmetry.
  apply (active_coros_one_changed w w' _ _ (run_self k) 1); try done.
  - intros s. destruct (decide (s = run_self k)) as [->|Hne].
    + by rewrite Hs.
    + by rewrite Hother.
  - intros s Hne. by rewrite Hother.
  - rewrite Hs. simpl. rewrite dict_len_set_new by exact Hnew. lia.
Qed.

(** The termination of a recorded task on an initialized server of the
    node keeps the node's count exact; the observer, when there is one,
    is a task handle. *)
Lemma termination_keeps_count w T info now node server :
  dict.get (_nodes w) (Location.addr (Coro.location T)) = Some node ->
  dict.get (_Node.servers (node_of w node)) (str_Location (Coro.location T)) = Some server ->
  server_initialized w server = true ->
  is_Some (dict.get (_Server.coros (server_of w server)) (str_Coro T)) ->
  count_occ Nat.eq_dec (dict.values (_Node.servers (node_of w node))) server = 1%nat ->
  (forall c, _cur_computation w = Some c ->
     Computation.status_coro c = PNone \/ isinstance_Coro (Computation.status_coro c) = true) ->
  _Node.ncoros (node_of w node) = active_coros w (node_of w node) ->
  exists w', __status_proc (PMonitorException (PCoro T) info) now w = (Ret tt, w') /\
    _Node.ncoros (node_of w' node) = active_coros w' (node_of w' node).
Proof.
  intros Hnode Hserver Hinit [c Hc] Honce Hobs Hcount.
  set (s' := _Server.with_coros (server_of w server)
               (dict.remove (_Server.coros (server_of w server)) (str_Coro T))).
  set (n' := _Node.with_ncoros (node_of w node) (_Node.ncoros (node_of w node) - 1)).
  assert (Hrun : exists tr,
            __status_proc (PMonitorException (PCoro T) info) now w
            = (Ret tt, with_nodes (with_trace (with_servers w (<[server := s']> (servers w))) tr)
                                  (<[node := n']> (nodes w)))).
  { unfold __status_proc, get_node, get_server, update_server, update_node, notify, send,
      emit, dict.pop.
    unfold_monad. rewrite Hnode. fold (node_of w node). rewrite Hserver.
    fold (server_of w server). rewrite Hc. simpl.
    destruct (_cur_computation w) as [comp|] eqn:Hcomp; simpl.
    - destruct (Hobs comp eq_refl) as [E|E].
      + rewrite E. simpl. by exists (trace w).
      + destruct (Computation.status_coro comp); try done. simpl. eexists. reflexivity.
    - by exists (trace w). }
  destruct Hrun as [tr Hrun]. eexists. split; [exact Hrun|].
  set (w' := with_nodes _ _).
  assert (Hn : node_of w' node = n').
  { unfold w', node_of. simpl. by rewrite lookup_total_insert_eq. }
  assert (Hs : server_of w' server = s').
  { unfold w', server_of. simpl. by rewrite lookup_total_insert_eq. }
  assert (Hother : forall s, s <> server -> server_of w' s = server_of w s).
  { intros s Hne. unfold w', server_of. simpl. by rewrite lookup_total_insert_ne. }
  rewrite Hn. unfold n' at 1. simpl. rewrite Hcount.
  replace (active_coros w (node_of w node) - 1)
    with (active_coros w (node_of w node) + -1) by lia.
  symmetry. apply (active_coros_one_changed w w' _ _ server (-1)); try done.
  - intros s. destruct (decide (s = server)) as [->|Hne].
    + by rewrite Hs.
    + by rewrite Hother.
  - intros s Hne. by rewrite Hother.
  - rewrite Hs. simpl. pose proof (dict_len_remove _ _ _ Hc). lia.
Qed.
End CountFacts.

(** * Further properties of the scheduler *)

Section StatusFacts.
Import Scheduler Fleet.

Lemma notify_spec w msg :
  observer_ok w = true ->
  notify (_cur_computation w) msg w = (Ret tt, with_trace w (trace w ++ notification w msg)%list).
Proof.
  unfold observer_ok, notify, notification, send, emit. unfold_monad.
  destruct (_cur_computation w) as [c|]; [|by rewrite app_nil_r, with_trace_id].
  destruct (Computation.status_coro c); try done; simpl; intros _;
    by rewrite app_nil_r, with_trace_id.
Qed.

Lemma termination_keeps_registry_run w T info now r w' :
  __status_proc (PMonitorException (PCoro T) info) now w = (r, w') ->
  _nodes w' = _nodes w /\
  _cur_computation w' = _cur_computation w /\
  __cur_client_auth w' = __cur_client_auth w /\
  (forall n, _Node.servers (node_of w' n) = _Node.servers (node_of w n) /\
             _Node.status (node_of w' n) = _Node.status (node_of w n)) /\
  (forall s, _Server.status (server_of w' s) = _Server.status (server_of w s) /\
             _Server.location (server_of w' s) = _Server.location (server_of w s)).
Proof.
  unfold __status_proc, get_node, get_server, update_server, update_node, notify, send, emit,
    dict.pop.
  unfold_monad.
  destruct (dict.get (_nodes w) _) as [node|]; [|by intros [= <- <-]].
  fold (node_of w node).
  destruct (dict.get (_Node.servers (node_of w node)) _) as [server|]; [|by intros [= <- <-]].
  fold (server_of w server).
  assert (Hs : forall w0 s' s, _Server.status s' = _Server.status (server_of w0 server) ->
            _Server.location s' = _Server.location (server_of w0 server) ->
            _Server.status (server_of (with_servers w0 (<[server := s']> (servers w0))) s)
            = _Server.status (server_of w0 s) /\
            _Server.location (server_of (with_servers w0 (<[server := s']> (servers w0))) s)
            = _Server.location (server_of w0 s)).
  { intros w0 s' s E1 E2. unfold server_of. simpl.
    destruct (decide (server = s)) as [<-|Hne].
    - by rewrite lookup_total_insert_eq.
    - by rewrite lookup_total_insert_ne. }
  assert (Hn : forall w0 n' n, _Node.servers n' = _Node.servers (node_of w0 node) ->
            _Node.status n' = _Node.status (node_of w0 node) ->
            _Node.servers (node_of (with_nodes w0 (<[node := n']> (nodes w0))) n)
            = _Node.servers (node_of w0 n) /\
            _Node.status (node_of (with_nodes w0 (<[node := n']> (nodes w0))) n)
            = _Node.status (node_of w0 n)).
  { intros w0 n' n E1 E2. unfold node_of. simpl.
    destruct (decide (node = n)) as [<-|Hne].
    - by rewrite lookup_total_insert_eq.
    - by rewrite lookup_total_insert_ne. }
  destruct (dict.get (_Server.coros (server_of w server)) (str_Coro T)) as [c|]; simpl.
  - destruct (_cur_computation w) as [comp|] eqn:Hcomp; simpl.
    + destruct (truthy (Computation.status_coro comp)); simpl.
      * destruct (Computation.status_coro comp); simpl; intros [= <- <-]; simpl;
          split_and!; try done;
          try (intros ?; apply (Hn (with_trace (with_servers w _) _)); done);
          try (intros ?; apply (Hs w); done).
      * intros [= <- <-]. simpl. split_and!; try done.
        -- intros n. by apply (Hn (with_servers w _)).
        -- intros s. by apply (Hs w).
    + intros [= <- <-]. simpl. split_and!; try done.
      * intros n. by apply (Hn (with_servers w _)).
      * intros s. by apply (Hs w).
  - intros [= <- <-]. simpl. split_and!; try done. intros s. by apply (Hs w).
Qed.

(** X1: a termination event never touches the registry: whatever it does,
    [_nodes], the servers of every node, the status of every node and of
    every server, the current computation and the client auth stay as
    they are. *)
Theorem termination_keeps_registry w T info now :
  let w' := snd (__status_proc (PMonitorException (PCoro T) info) now w) in
  _nodes w' = _nodes w /\
  _cur_computation w' = _cur_computation w /\
  __cur_client_auth w' = __cur_client_auth w /\
  (forall n, _Node.servers (node_of w' n) = _Node.servers (node_of w n) /\
             _Node.status (node_of w' n) = _Node.status (node_of w n)) /\
  (forall s, _Server.status (server_of w' s) = _Server.status (server_of w s) /\
             _Server.location (server_of w' s) = _Server.location (server_of w s)).
Proof.
  intros w'. subst w'.
  destruct (__status_proc (PMonitorException (PCoro T) info) now w) as [r w'] eqn:E.
  by apply (termination_keeps_registry_run w T info now r).
Qed.

Lemma dict_get_set_ne {V} (d : dict.t V) k k' v :
  k <> k' -> dict.get (dict.set d k v) k' = dict.get d k'.
Proof.
  intros Hne. induction d as [|[k0 v0] d IH]; simpl.
  - by destruct (String.eqb_spec k k').
  - destruct (String.eqb_spec k0 k) as [->|Hk]; simpl.
    + by destruct (String.eqb_spec k k').
    + by rewrite IH.
Qed.

Lemma dict_remove_set_new {V} (d : dict.t V) k v :
  dict.get d k = None -> dict.remove (dict.set d k v) k = d.
Proof.
  induction d as [|[k0 v0] d IH]; simpl.
  - by rewrite String.eqb_refl.
  - destruct (String.eqb k0 k) eqn:E; [done|]. intros H. simpl. rewrite E. by rewrite IH.
Qed.

Lemma node_of_insert w r n m : nodes w = <[r := n]> m -> node_of w r = n.
Proof. intros E. unfold node_of. rewrite E. apply lookup_total_insert_eq. Qed.

Lemma server_of_insert w r s m : servers w = <[r := s]> m -> server_of w r = s.
Proof. intros E. unfold server_of. rewrite E. apply lookup_total_insert_eq. Qed.

Lemma node_of_trace w tr r : node_of (with_trace w tr) r = node_of w r.
Proof. reflexivity. Qed.

Lemma server_of_trace w tr r : server_of (with_trace w tr) r = server_of w r.
Proof. reflexivity. Qed.

(** X2: a peer that comes online is registered: the lookup by its
    location finds a new server object (no tasks, no status, created at
    [now]) under the node of its host, which is created when it is not
    known; the nodes of other hosts stay as they were. *)
Theorem peer_online_registers w name loc now :
  exists w' node,
    __status_proc (PPeerStatus name loc true) now w = (Ret tt, w') /\
    find_server w' (PLocation loc) = Some (node, next_ref w) /\
    server_of w' (next_ref w) = _Server.new name loc now /\
    (forall addr, addr <> Location.addr loc ->
       dict.get (_nodes w') addr = dict.get (_nodes w) addr).
Proof.
  unfold __status_proc, new_server, new_node, get_node, update_node, emit, find_server.
  unfold_monad. simpl.
  destruct (dict.get (_nodes w) (Location.addr loc)) as [node|] eqn:Hnode; simpl.
  - set (w1 := with_nodes _ _).
    assert (Hfind : dict.get (_nodes w1) (Location.addr loc) = Some node) by done.
    assert (Hsrv : dict.get (_Node.servers (node_of w1 node)) (str_Location loc)
                   = Some (next_ref w)).
    { unfold w1, node_of. simpl. rewrite lookup_total_insert_eq. simpl.
      apply dict_get_set_eq. }
    assert (Hobj : server_of w1 (next_ref w) = _Server.new name loc now).
    { unfold w1, server_of. simpl. by rewrite lookup_total_insert_eq. }
    destruct (negb _); simpl; eexists _, node; (split; [reflexivity|]);
      simpl; rewrite Hnode, ?node_of_trace, ?server_of_trace, Hsrv; done.
  - set (w1 := with_nodes _ _).
    assert (Hsrv : dict.get (_Node.servers (node_of w1 (S (next_ref w)))) (str_Location loc)
                   = Some (next_ref w)).
    { unfold w1, node_of. simpl. rewrite lookup_total_insert_eq. simpl.
      rewrite lookup_total_insert_eq. simpl. by rewrite String.eqb_refl. }
    assert (Hobj : server_of w1 (next_ref w) = _Server.new name loc now).
    { unfold w1, server_of. simpl. by rewrite lookup_total_insert_eq. }
    destruct (negb _); simpl; eexists _, (S (next_ref w)); (split; [reflexivity|]);
      simpl; rewrite dict_get_set_eq, ?node_of_trace, ?server_of_trace, Hsrv;
      split_and!; try done; intros addr Hne; by apply dict_get_set_ne.
Qed.

(** X3: on a host the scheduler does not know, a peer that comes online
    and goes offline again leaves [_nodes] as it was: the node created
    for it is taken out when its last server leaves; a bootstrap of the
    server and then a close of the node are launched, and the observer is
    told that server and node are disconnected. *)
Theorem peer_online_offline w name loc now now' :
  dict.get (_nodes w) (Location.addr loc) = None ->
  observer_ok w = true ->
  exists w1 w2 node server,
    __status_proc (PPeerStatus name loc true) now w = (Ret tt, w1) /\
    __status_proc (PPeerStatus name loc false) now' w1 = (Ret tt, w2) /\
    _nodes w2 = _nodes w /\
    _Node.servers (node_of w2 node) = [] /\
    trace w2 = (trace w ++ [Spawn (T_setup_server server)]
                ++ notification w (PDiscoroStatus ServerDisconnected (PLocation loc))
                ++ notification w (PDiscoroStatus NodeDisconnected (PStr (Location.addr loc)))
                ++ [Spawn (T_close_node node)])%list.
Proof.
  intros Hnew Hobs.
  eexists _, _, (S (next_ref w)), (next_ref w). split.
  { unfold __status_proc, new_server, new_node, get_node, update_node, emit.
    unfold_monad. simpl. rewrite Hnew. simpl. unfold node_of. simpl.
    rewrite lookup_total_insert_eq. simpl. rewrite lookup_total_insert_eq. simpl.
    reflexivity. }
  set (w1 := with_trace _ _).
  assert (Hn : node_of w1 (S (next_ref w))
               = _Node.with_servers (_Node.new (Location.addr loc))
                                    [(str_Location loc, next_ref w)]).
  { by eapply node_of_insert. }
  assert (Hs : server_of w1 (next_ref w) = _Server.new name loc now).
  { by eapply server_of_insert. }
  assert (Hcomp : _cur_computation w1 = _cur_computation w) by done.
  unfold __status_proc, get_node, get_server, update_node, emit, dict.pop.
  unfold_monad.
  replace (dict.get (_nodes w1) (Location.addr loc)) with (Some (S (next_ref w)))
    by (unfold w1; simpl; by rewrite dict_get_set_eq).
  fold (node_of w1 (S (next_ref w))). rewrite Hn. simpl. rewrite String.eqb_refl. simpl.
  set (w1' := with_nodes w1 _).
  change (server_of w1' (next_ref w)) with (server_of w1 (next_ref w)). rewrite Hs. simpl.
  change (_cur_computation w) with (_cur_computation w1') at 1.
  rewrite notify_spec by exact Hobs.
  simpl. set (w1'' := with_nodes_dict _ _).
  change (_cur_computation w) with (_cur_computation w1'') at 1.
  rewrite notify_spec by exact Hobs.
  simpl. split; [reflexivity|]. simpl. split_and!.
  - by apply dict_remove_set_new.
  - match goal with
    | |- _Node.servers (node_of ?W ?R) = _ => by rewrite (node_of_insert W R _ _ eq_refl)
    end.
  - unfold notification. simpl. rewrite <- !app_assoc. reflexivity.
Qed.
End StatusFacts.

Lemma peer_online_offline_witness :
  exists w1 w2 node server,
    Scheduler.__status_proc (PPeerStatus "s3" Sample.loc3 true) Sample.t0 Sample.fleet
      = (Ret tt, w1) /\
    Scheduler.__status_proc (PPeerStatus "s3" Sample.loc3 false) Sample.t100 w1
      = (Ret tt, w2) /\
    Scheduler._nodes w2 = Scheduler._nodes Sample.fleet /\
    Scheduler._Node.servers (Scheduler.node_of w2 node) = [] /\
    Scheduler.trace w2
    = (Scheduler.trace Sample.fleet ++ [Spawn (T_setup_server server)]
       ++ Fleet.notification Sample.fleet
            (PDiscoroStatus Scheduler.ServerDisconnected (PLocation Sample.loc3))
       ++ Fleet.notification Sample.fleet
            (PDiscoroStatus Scheduler.NodeDisconnected (PStr (Location.addr Sample.loc3)))
       ++ [Spawn (T_close_node node)])%list.
Proof.
  apply (peer_online_offline Sample.fleet "s3" Sample.loc3 Sample.t0 Sample.t100);
    reflexivity.
Defined.

Section OfflineFacts.
Import Scheduler Fleet.

Lemma notify_run comp w msg :
  comp = _cur_computation w -> observer_ok w = true ->
  notify comp msg w = (Ret tt, with_trace w (trace w ++ notification w msg)%list).
Proof. intros ->. apply notify_spec. Qed.

Lemma observer_ok_same w w' :
  _cur_computation w' = _cur_computation w -> observer_ok w = true -> observer_ok w' = true.
Proof. unfold observer_ok. by intros ->. Qed.

(** X4: when the peer that runs the client's pulse coroutine goes offline
    and its host is not one of the scheduler's nodes, the only effect is
    that the close of the computation is launched; when the host is a
    node, the event is handled as the loss of a server and the close of
    the computation is not launched. *)
Theorem client_offline_closes_computation w c p name loc now :
  _cur_computation w = Some c ->
  Computation._pulse_coro c = PCoro p ->
  Location.eqb loc (Coro.location p) = true ->
  observer_ok w = true ->
  (dict.get (_nodes w) (Location.addr loc) = None ->
   __status_proc (PPeerStatus name loc false) now w
   = (Ret tt, with_trace w (trace w ++ [Spawn T_close_computation])%list)) /\
  (is_Some (dict.get (_nodes w) (Location.addr loc)) ->
   exists tr,
     trace (snd (__status_proc (PPeerStatus name loc false) now w)) = (trace w ++ tr)%list /\
     ~ In (Spawn T_close_computation) tr).
Proof.
  intros Hc Hp Hloc Hobs. split.
  - intros Hnode. unfold __status_proc, emit. unfold_monad. rewrite Hc, Hnode, Hp, Hloc.
    reflexivity.
  - intros [node Hnode].
    unfold __status_proc, get_node, get_server, update_node, emit, dict.pop. unfold_monad.
    rewrite Hnode. simpl.
    destruct (dict.get (_Node.servers (node_of w node)) (str_Location loc)) as [server|];
      [|exists []; simpl; rewrite app_nil_r; tauto].
    rewrite (notify_run (_cur_computation w)) by (try done; by apply (observer_ok_same w)).
    simpl. destruct (negb _); simpl.
    + eexists. split; [by rewrite <- app_assoc|].
      unfold notification. simpl. rewrite Hc.
      destruct (Computation.status_coro c); simpl; intros H; intuition congruence.
    + rewrite (notify_run (_cur_computation w)) by (try done; by apply (observer_ok_same w)).
      simpl. eexists. split; [by rewrite <- !app_assoc|].
      unfold notification. simpl. rewrite Hc.
      destruct (Computation.status_coro c); simpl; intros H; intuition congruence.
Qed.
End OfflineFacts.

Lemma client_offline_closes_computation_witness :
  Scheduler.__status_proc
    (PPeerStatus "client" (Coro.location Sample.pulse) false) Sample.t0 Sample.fleet
  = (Ret tt, Scheduler.with_trace Sample.fleet [Spawn T_close_computation]).
Proof.
  apply (proj1 (client_offline_closes_computation Sample.fleet Sample.computation
                  Sample.pulse "client" (Coro.location Sample.pulse) Sample.t0
                  eq_refl eq_refl eq_refl eq_refl)).
  reflexivity.
Defined.

(** Lookups of an object that was just written to the store. *)
Ltac store_lookup :=
  rewrite ?server_of_trace, ?node_of_trace;
  repeat match goal with
  | |- context [Scheduler.server_of
                  (Scheduler.with_servers ?W (<[?R := ?S]> ?M)) ?R] =>
      replace (Scheduler.server_of (Scheduler.with_servers W (<[R := S]> M)) R) with S
        by (symmetry; by eapply server_of_insert)
  | |- context [Scheduler.node_of (Scheduler.with_nodes ?W (<[?R := ?N]> ?M)) ?R] =>
      replace (Scheduler.node_of (Scheduler.with_nodes W (<[R := N]> M)) R) with N
        by (symmetry; by eapply node_of_insert)
  end.

Section CloseFacts.
Import Scheduler Fleet.

Lemma flat_map_const_nil {A B} (l : list A) : flat_map (fun _ => @nil B) l = [].
Proof. by induction l. Qed.

(** The server object a close leaves behind. *)
Lemma close_server_run w c a server :
  _cur_computation w = Some c ->
  server_initialized w server = true ->
  _Server.coro (server_of w server) = PCoro a ->
  observer_ok w = true ->
  __close_server server w
  = (Ret 0,
     with_trace
       (with_servers w
          (<[server := _Server.with_done
                         (_Server.with_coros
                            (_Server.with_xfer_files
                               (_Server.with_status (server_of w server) (Some ServerClosed))
                               [])
                            dict.empty)
                         dict.empty]> (servers w)))
       (trace w
        ++ flat_map (fun rcoro =>
                       notification w (PMonitorException (PStr rcoro)
                                         (PTuple [PInt ServerClosed; PNone])))
                    (dict.keys (_Server.coros (server_of w server)))
        ++ [Deliver a (PDict [("req", PStr "close"); ("auth", Computation._auth c)])
                    (Some (Computation.timeout c))]
        ++ notification w (PDiscoroStatus ServerClosed
                             (PLocation (_Server.location (server_of w server)))))%list).
Proof.
  unfold server_initialized. intros Hc Hinit Ha Hobs.
  unfold __close_server, get_server, deliver, emit, update_server, notify, notification.
  unfold_monad. rewrite Hc, Hinit. simpl.
  unfold observer_ok in Hobs. rewrite Hc in Hobs.
  assert (Hkeys : (dict.len (_Server.coros (server_of w server)) =? 0)%nat = true ->
                  dict.keys (_Server.coros (server_of w server)) = []).
  { unfold dict.len. by destruct (_Server.coros (server_of w server)). }
  destruct (Computation.status_coro c) as [| | | | |obs| | | | | |] eqn:Hsc; try done; simpl.
  - rewrite flat_map_const_nil.
    destruct (negb _); simpl; rewrite Ha; reflexivity.
  - destruct (dict.len _ =? 0)%nat eqn:Hlen; simpl.
    + rewrite (Hkeys eq_refl). simpl. rewrite Ha. simpl.
      store_lookup. simpl. rewrite <- ?app_assoc. reflexivity.
    + rewrite (for_each_emits _ (fun _ rcoro =>
                 [Send obs (PMonitorException (PStr rcoro)
                              (PTuple [PInt ServerClosed; PNone]))])) by done.
      simpl. rewrite Ha. simpl.
      store_lookup. simpl. rewrite <- ?app_assoc. reflexivity.
Qed.

(** X5: closing an initialized server leaves a closed server object with
    no tasks, no buffered terminations and no files, and a second close of
    the same server does nothing: it returns -1 and sends no message. *)
Theorem close_server_twice w c a server :
  _cur_computation w = Some c ->
  server_initialized w server = true ->
  _Server.coro (server_of w server) = PCoro a ->
  observer_ok w = true ->
  exists w',
    __close_server server w = (Ret 0, w') /\
    _Server.status (server_of w' server) = Some ServerClosed /\
    _Server.coros (server_of w' server) = [] /\
    _Server.done (server_of w' server) = [] /\
    _Server.xfer_files (server_of w' server) = [] /\
    __close_server server w' = (Ret (-1), w').
Proof.
  intros Hc Hinit Ha Hobs. eexists. split; [by apply (close_server_run w c a)|].
  rewrite server_of_trace. erewrite server_of_insert by reflexivity. simpl.
  split_and!; try done.
  unfold __close_server, get_server. unfold_monad. simpl. rewrite Hc.
  rewrite server_of_trace. erewrite server_of_insert by reflexivity. done.
Qed.

(** X6: closing an initialized server tells the observer, for every task
    the server still ran and in the order the tasks were recorded, that
    the task ended with [ServerClosed]; then the agent is asked to close
    and the observer is told that the server is closed.  Nothing else is
    sent. *)
Theorem close_server_reports_tasks w c a obs server :
  _cur_computation w = Some c ->
  Computation.status_coro c = PCoro obs ->
  server_initialized w server = true ->
  _Server.coro (server_of w server) = PCoro a ->
  exists w',
    __close_server server w = (Ret 0, w') /\
    trace w'
    = (trace w
       ++ List.map (fun rcoro => Send obs (PMonitorException (PStr rcoro)
                                             (PTuple [PInt ServerClosed; PNone])))
                   (dict.keys (_Server.coros (server_of w server)))
       ++ [Deliver a (PDict [("req", PStr "close"); ("auth", Computation._auth c)])
                   (Some (Computation.timeout c));
           Send obs (PDiscoroStatus ServerClosed
                       (PLocation (_Server.location (server_of w server))))])%list.
Proof.
  intros Hc Hobs Hinit Ha. eexists. split.
  - apply (close_server_run w c a); try done. unfold observer_ok. by rewrite Hc, Hobs.
  - simpl. unfold notification. by rewrite Hc, Hobs.
Qed.
End CloseFacts.

Lemma close_server_twice_witness :
  exists w',
    Scheduler.__close_server 0%nat Sample.fleet = (Ret 0, w') /\
    Scheduler._Server.status (Scheduler.server_of w' 0%nat) = Some Scheduler.ServerClosed /\
    Scheduler._Server.coros (Scheduler.server_of w' 0%nat) = [] /\
    Scheduler._Server.done (Scheduler.server_of w' 0%nat) = [] /\
    Scheduler._Server.xfer_files (Scheduler.server_of w' 0%nat) = [] /\
    Scheduler.__close_server 0%nat w' = (Ret (-1), w').
Proof.
  apply (close_server_twice Sample.fleet Sample.computation Sample.agent1 0%nat);
    reflexivity.
Defined.

Lemma close_server_reports_tasks_witness :
  exists w',
    Scheduler.__close_server 0%nat Sample.fleet = (Ret 0, w') /\
    Scheduler.trace w'
    = [Send Sample.observer
         (PMonitorException (PStr "compute/12@10.0.0.1:5001")
            (PTuple [PInt Scheduler.ServerClosed; PNone]));
       Deliver Sample.agent1 (PDict [("req", PStr "close"); ("auth", PStr "5e7ve7")])
               (Some 10);
       Send Sample.observer
         (PDiscoroStatus Scheduler.ServerClosed (PLocation Sample.loc1))].
Proof.
  apply (close_server_reports_tasks Sample.fleet Sample.computation Sample.agent1
           Sample.observer 0%nat); reflexivity.
Defined.

Section RequestFacts.
Import Scheduler Fleet.

Lemma emit_run e w : emit e w = (Ret tt, with_trace w (trace w ++ [e])%list).
Proof. reflexivity. Qed.

Lemma for_each_spawns {A} (task : A -> Task) (xs : list A) w :
  for_each xs (fun x => emit (Spawn (task x))) w
  = (Ret tt, with_trace w (trace w ++ List.map (fun x => Spawn (task x)) xs)%list).
Proof.
  rewrite (for_each_emits _ (fun _ x => [Spawn (task x)])) by done.
  reflexivity.
Qed.

(** X7: a request whose auth is not the one of the current computation
    places nothing and reveals nothing: a run request is answered with
    [None], a run_each request and the requests for the lists of nodes
    and servers with the empty list; no task is launched. *)
Theorem unauthorized_requests w kvs client delivered :
  eq_opt_str (__cur_client_auth w) (pydict_get kvs "auth" PNone) = false ->
  client_run kvs client w
    = (Ret tt, with_trace w (trace w ++ [Send client PNone])%list) /\
  client_run_each kvs client delivered w
    = (Ret tt, with_trace w (trace w ++ [Send client (PList [])])%list) /\
  client_nodes_list kvs client w
    = (Ret tt, with_trace w (trace w ++ [Send client (PList [])])%list) /\
  client_servers_list kvs client w
    = (Ret tt, with_trace w (trace w ++ [Send client (PList [])])%list).
Proof.
  intros Hauth.
  unfold client_run, client_run_each, client_nodes_list, client_servers_list, emit.
  unfold_monad. rewrite Hauth, orb_true_r. done.
Qed.

(** X8: the requests for the list of servers and for a run on every
    server name the same servers: the list holds the locations of the
    initialized servers of the initialized nodes, the count announced to
    the client is their number, and when the count is delivered one task
    per such server is launched, in the order of the list; when it is
    not delivered, none. *)
Theorem servers_list_matches_run_each w c kvs client delivered :
  _cur_computation w = Some c ->
  truthy (pydict_get kvs "func" PNone) = true ->
  eq_opt_str (__cur_client_auth w) (pydict_get kvs "auth" PNone) = true ->
  pydict_get kvs "where" PNone = PStr "server" ->
  client_servers_list kvs client w
    = (Ret tt,
       with_trace w
         (trace w
          ++ [Send client
                (PList (List.map (fun s => PLocation (_Server.location (server_of w s)))
                                 (serving w)))])%list) /\
  client_run_each kvs client delivered w
    = (Ret tt,
       with_trace w
         (trace w
          ++ Deliver client (PInt (Z.of_nat (List.length (serving w))))
                     (Some (Computation.timeout c))
             :: (if delivered =? 1
                 then List.map (fun s => Spawn (T_Server_run s (pydict_get kvs "func" PNone)
                                                             client))
                               (serving w)
                 else []))%list) /\
  Forall (fun s => server_initialized w s = true) (serving w).
Proof.
  intros Hc Hfunc Hauth Hwhere. split_and!.
  - unfold client_servers_list, emit. unfold_monad. by rewrite Hauth.
  - unfold client_run_each, cur_timeout. unfold_monad.
    rewrite Hfunc, Hauth, Hwhere. simpl. rewrite Hc.
    destruct (delivered =? 1); simpl.
    + rewrite for_each_spawns. simpl. by rewrite <- app_assoc.
    + done.
  - apply List.Forall_forall. intros s Hs. unfold serving in Hs.
    apply in_flat_map in Hs as (n & _ & Hs).
    unfold initialized_servers in Hs. by apply filter_In in Hs as [_ Hs].
Qed.

(** X9: the requests for the list of nodes and for a run on every node
    name the same nodes: the list holds the addresses of the initialized
    nodes, the count announced to the client is their number, and when
    the count is delivered one task per such node is launched, in the
    order of the list; when it is not delivered, none. *)
Theorem nodes_list_matches_run_each w c kvs client delivered :
  _cur_computation w = Some c ->
  truthy (pydict_get kvs "func" PNone) = true ->
  eq_opt_str (__cur_client_auth w) (pydict_get kvs "auth" PNone) = true ->
  pydict_get kvs "where" PNone = PStr "node" ->
  client_nodes_list kvs client w
    = (Ret tt,
       with_trace w
         (trace w
          ++ [Send client
                (PList (List.map (fun n => PStr (_Node.addr (node_of w n)))
                                 (initialized_nodes w)))])%list) /\
  client_run_each kvs client delivered w
    = (Ret tt,
       with_trace w
         (trace w
          ++ Deliver client (PInt (Z.of_nat (List.length (initialized_nodes w))))
                     (Some (Computation.timeout c))
             :: (if delivered =? 1
                 then List.map (fun n => Spawn (T_Node_run n (pydict_get kvs "func" PNone)
                                                           client))
                               (initialized_nodes w)
                 else []))%list) /\
  Forall (fun n => node_initialized w n = true) (initialized_nodes w).
Proof.
  intros Hc Hfunc Hauth Hwhere. split_and!.
  - unfold client_nodes_list, emit. unfold_monad. by rewrite Hauth.
  - unfold client_run_each, cur_timeout. unfold_monad.
    rewrite Hfunc, Hauth, Hwhere. simpl. rewrite Hc.
    destruct (delivered =? 1); simpl.
    + rewrite for_each_spawns. simpl. by rewrite <- app_assoc.
    + done.
  - apply List.Forall_forall. intros n Hn. unfold initialized_nodes in Hn.
    by apply filter_In in Hn as [_ Hn].
Qed.

(** X10: a run_each request for the nodes or the servers that passes the
    auth check while there is no current computation is not answered:
    reading the timeout of the computation raises [AttributeError], and
    nothing is sent to the client. *)
Theorem run_each_without_computation w kvs client delivered :
  _cur_computation w = None ->
  truthy (pydict_get kvs "func" PNone) = true ->
  eq_opt_str (__cur_client_auth w) (pydict_get kvs "auth" PNone) = true ->
  In (pydict_get kvs "where" PNone) [PStr "node"; PStr "server"; PStr "node_servers"] ->
  client_run_each kvs client delivered w = (Raise AttributeError, w).
Proof.
  intros Hc Hfunc Hauth Hwhere.
  unfold client_run_each, cur_timeout. unfold_monad. rewrite Hfunc, Hauth. simpl.
  destruct Hwhere as [E|[E|[E|[]]]]; rewrite <- E; simpl; by rewrite Hc.
Qed.
End RequestFacts.

Lemma unauthorized_requests_witness :
  Scheduler.client_run (Sample.request "run" "10.0.0.1" "0ddba11") Sample.client Sample.fleet
    = (Ret tt, Scheduler.with_trace Sample.fleet [Send Sample.client PNone]) /\
  Scheduler.client_run_each (Sample.request "run_each" "server" "0ddba11") Sample.client 1
      Sample.fleet
    = (Ret tt, Scheduler.with_trace Sample.fleet [Send Sample.client (PList [])]).
Proof.
  split.
  - apply (unauthorized_requests Sample.fleet (Sample.request "run" "10.0.0.1" "0ddba11")
             Sample.client 1). reflexivity.
  - apply (unauthorized_requests Sample.fleet (Sample.request "run_each" "server" "0ddba11")
             Sample.client 1). reflexivity.
Defined.

Lemma servers_list_matches_run_each_witness :
  Scheduler.client_servers_list (Sample.request "servers_list" "server" "c11e47")
      Sample.client Sample.fleet
    = (Ret tt,
       Scheduler.with_trace Sample.fleet
         [Send Sample.client (PList [PLocation Sample.loc1; PLocation Sample.loc2])]) /\
  Scheduler.client_run_each (Sample.request "run_each" "server" "c11e47") Sample.client 1
      Sample.fleet
    = (Ret tt,
       Scheduler.with_trace Sample.fleet
         [Deliver Sample.client (PInt 2) (Some 10);
          Spawn (T_Server_run 0%nat (PBytes "compute") Sample.client);
          Spawn (T_Server_run 1%nat (PBytes "compute") Sample.client)]).
Proof.
  split.
  - apply (servers_list_matches_run_each Sample.fleet Sample.computation
             (Sample.request "servers_list" "server" "c11e47") Sample.client 1);
      reflexivity.
  - apply (servers_list_matches_run_each Sample.fleet Sample.computation
             (Sample.request "run_each" "server" "c11e47") Sample.client 1);
      reflexivity.
Defined.

Lemma nodes_list_matches_run_each_witness :
  Scheduler.client_nodes_list (Sample.request "nodes_list" "node" "c11e47")
      Sample.client Sample.fleet
    = (Ret tt,
       Scheduler.with_trace Sample.fleet [Send Sample.client (PList [PStr "10.0.0.1"])]) /\
  Scheduler.client_run_each (Sample.request "run_each" "node" "c11e47") Sample.client 0
      Sample.fleet
    = (Ret tt,
       Scheduler.with_trace Sample.fleet [Deliver Sample.client (PInt 1) (Some 10)]).
Proof.
  split.
  - apply (nodes_list_matches_run_each Sample.fleet Sample.computation
             (Sample.request "nodes_list" "node" "c11e47") Sample.client 0);
      reflexivity.
  - apply (nodes_list_matches_run_each Sample.fleet Sample.computation
             (Sample.request "run_each" "node" "c11e47") Sample.client 0);
      reflexivity.
Defined.

Lemma run_each_without_computation_witness :
  Scheduler.client_run_each (Sample.request "run_each" "node" "c11e47") Sample.client 1
      Sample.fleet_unscheduled
  = (Raise AttributeError, Sample.fleet_unscheduled).
Proof.
  apply run_each_without_computation; [reflexivity..|]. simpl. tauto.
Defined.

Section HeartbeatFacts.
Import Scheduler Fleet.

Lemma float_sub_same_le x n : 0 <= n -> float_gt_int (float_sub x x) n = false.
Proof.
  intros Hn. unfold float_sub, SFsub.
  destruct x as [s|s| |s m e]; simpl.
  - destruct s; simpl; lia.
  - by destruct s.
  - done.
  - rewrite Z.min_id. unfold shl_align. rewrite Z.sub_diag. simpl.
    replace (cond_Zopp s (Z.pos m) + cond_Zopp (negb s) (Z.pos m)) with 0
      by (destruct s; simpl; lia).
    simpl. lia.
Qed.

Lemma audit_run now server_check w :
  audit now server_check w
  = (Ret tt,
     with_trace w
       (trace w
        ++ (if float_gt_int (float_sub now server_check) (5 * __pulse_interval w)
            then flat_map (zombies_of_node now w) (dict.values (_nodes w))
            else []))%list).
Proof.
  destruct (float_gt_int _ _) eqn:E.
  - by apply audit_emits.
  - unfold audit. unfold_monad. rewrite E. by rewrite app_nil_r, with_trace_id.
Qed.

Lemma fresh_server_not_audited now w server tr :
  0 <= __pulse_interval w ->
  _Server.last_pulse (server_of w server) = now ->
  ~ In (Spawn (T_close_server server))
       (if float_gt_int (float_sub now tr) (5 * __pulse_interval w)
        then flat_map (zombies_of_node now w) (dict.values (_nodes w))
        else []).
Proof.
  intros Hp Hnow. destruct (float_gt_int _ _); [|by intros []].
  intros (node & _ & H)%in_flat_map. unfold zombies_of_node in H.
  destruct (node_initialized w node); [|by destruct H].
  apply in_flat_map in H as (s & _ & H). unfold zombies_of_server, is_zombie in H.
  destruct (server_initialized w s); simpl in H; [|by destruct H].
  destruct (float_gt_int _ _) eqn:E; [|by destruct H].
  destruct H as [[= ->]|[]]. rewrite Hnow, float_sub_same_le in E by lia. done.
Qed.

(** X11: a heartbeat of a registered server (a message with a count of at
    least 0 and the server's location) stamps the server with the clock of
    that turn, and the same turn of the timer never launches the close of
    that server, whatever the audit finds for the others. *)
Theorem heartbeat_spares_server w kvs ncoros node server now pulse_sent server_check
    client_pulse coro :
  pydict_get kvs "ncoros" (PInt (-1)) = PInt ncoros ->
  0 <= ncoros ->
  find_server w (pydict_get kvs "location" PNone) = Some (node, server) ->
  0 <= __pulse_interval w ->
  let w' := snd (__timer_proc (PDict kvs) now pulse_sent server_check client_pulse coro w) in
  _Server.last_pulse (server_of w' server) = now /\
  exists tr, trace w' = (trace w ++ tr)%list /\ ~ In (Spawn (T_close_server server)) tr.
Proof.
  intros Hn Hpos Hfind Hp w'. subst w'.
  unfold __timer_proc, timer_message, update_server, send, emit. unfold_monad.
  rewrite Hn. apply Z.leb_le in Hpos. rewrite Hpos, Hfind.
  set (w1 := with_servers w _).
  assert (Hs : _Server.last_pulse (server_of w1 server) = now).
  { unfold w1. store_lookup. done. }
  assert (Hi : __pulse_interval w1 = __pulse_interval w) by done.
  assert (Hfresh : forall w2 tr, __pulse_interval w2 = __pulse_interval w ->
            server_of w2 server = server_of w1 server ->
            ~ In (Spawn (T_close_server server))
                 (if float_gt_int (float_sub now tr) (5 * __pulse_interval w2)
                  then flat_map (zombies_of_node now w2) (dict.values (_nodes w2))
                  else [])).
  { intros w2 tr E1 E2. apply fresh_server_not_audited; [lia|]. by rewrite E2. }
  match goal with
  | |- context [let (r, s') := ?X w1 in _] =>
      assert (Hpulse : exists r tr1,
                X w1 = (r, with_trace w1 (trace w1 ++ tr1)%list) /\
                ~ In (Spawn (T_close_server server)) tr1)
  end.
  { destruct (_cur_computation w1) as [c|];
      [destruct (float_gt_int _ (__pulse_interval w1));
       [destruct (Computation._pulse_coro c); simpl;
        try (destruct (pulse_sent =? 0); [|destruct (float_gt_int _ _)])|]|];
      first [ by (eexists _, []; split;
                  [rewrite app_nil_r; f_equal; symmetry; exact (with_trace_id w1)
                  |intros []])
            | (eexists _, _; split;
               [simpl; rewrite <- ?app_assoc; reflexivity|simpl; intuition congruence]) ]. }
  destruct Hpulse as (r & tr1 & -> & Hno).
  destruct r as [cp|e|]; simpl.
  - rewrite audit_run. simpl. split; [exact Hs|].
    eexists. split; [by rewrite <- app_assoc|].
    intros [H|H]%in_app_or; [done|].
    by apply (Hfresh (with_trace w1 (trace w1 ++ tr1)%list) server_check).
  - split; [exact Hs|]. by exists tr1.
  - split; [exact Hs|]. by exists tr1.
Qed.
End HeartbeatFacts.

Lemma heartbeat_spares_server_witness :
  let w' := snd (Scheduler.__timer_proc
                   (PDict [("ncoros", PInt 1); ("location", PLocation Sample.loc1)])
                   Sample.t100 0 Sample.t0 Sample.t0 Sample.timer_coro Sample.fleet) in
  Scheduler._Server.last_pulse (Scheduler.server_of w' 0%nat) = Sample.t100 /\
  exists tr, Scheduler.trace w' = (Scheduler.trace Sample.fleet ++ tr)%list /\
             ~ In (Spawn (T_close_server 0%nat)) tr.
Proof.
  apply (heartbeat_spares_server Sample.fleet
           [("ncoros", PInt 1); ("location", PLocation Sample.loc1)] 1 0%nat 0%nat);
    [reflexivity|lia|reflexivity|simpl; lia].
Defined.

Section RunFacts.
Import Scheduler Fleet.

Lemma node_load_no_server n :
  _Node.servers n = [] ->
  node_load n = Raise ZeroDivisionError \/ node_load n = Raise OverflowError.
Proof.
  intros E. unfold node_load, float_truediv. rewrite E. simpl.
  destruct (py_float (_Node.ncoros n)) as [x|e|] eqn:Ex; simpl; auto.
  - unfold py_float in Ex. destruct (binary_normalize _ _ _ _ _); try done; auto.
  - unfold py_float in Ex. by destruct (binary_normalize _ _ _ _ _).
Qed.

Lemma node_load_raises n :
  match node_load n with
  | Ret _ => True
  | Raise e => e = ZeroDivisionError \/ e = OverflowError
  | Suspended => False
  end.
Proof.
  unfold node_load, float_truediv, py_float.
  destruct (binary_normalize prec emax (_Node.ncoros n) 0 false); simpl; auto;
    destruct (binary_normalize prec emax _ 0 false); simpl; auto.
Qed.

Lemma run_loop_raises w node nodes : forall host load,
  In node nodes ->
  node_initialized w node = true ->
  _Node.servers (node_of w node) = [] ->
  exists e, __run_loop w nodes host load = Raise e /\
            (e = ZeroDivisionError \/ e = OverflowError).
Proof.
  unfold node_initialized. intros host load Hin Hinit Hnone. revert host load.
  induction nodes as [|n nodes IH]; intros host load; [done|]. simpl.
  destruct (Nat.eq_dec n node) as [->|Hne].
  - rewrite Hinit. simpl.
    destruct (node_load_no_server _ Hnone) as [E|E]; rewrite E; simpl; eauto.
  - destruct Hin as [?|Hin]; [done|].
    destruct (status_is (_Node.status (node_of w n)) NodeInitialized); simpl; [|by apply IH].
    pose proof (node_load_raises (node_of w n)) as Hl.
    destruct (node_load (node_of w n)) as [f|e|]; simpl; [|by eauto|done].
    destruct (match load with Some l => float_lt f l | None => true end); by apply IH.
Qed.

(** X12: an untargeted run raises as soon as one initialized node of
    [_nodes] has no servers: the load of that node divides by zero (or an
    earlier count does not convert to a float).  The state is unchanged
    and nothing is sent: the client gets no answer, not even [None]. *)
Theorem run_raises_on_empty_node w node func client coro reply :
  In node (dict.values (_nodes w)) ->
  node_initialized w node = true ->
  _Node.servers (node_of w node) = [] ->
  exists e, __run func client coro reply w = (Raise e, w) /\
            (e = ZeroDivisionError \/ e = OverflowError).
Proof.
  intros Hin Hinit Hnone.
  destruct (run_loop_raises w node (dict.values (_nodes w)) None None Hin Hinit Hnone)
    as (e & Hrun & He).
  exists e. split; [|done]. unfold __run. unfold_monad. by rewrite Hrun.
Qed.
End RunFacts.

Lemma run_raises_on_empty_node_witness :
  exists e,
    Scheduler.__run (PBytes "compute") Sample.client Sample.worker PNone Sample.fleet_vacant
    = (Raise e, Sample.fleet_vacant) /\
    (e = ZeroDivisionError \/ e = OverflowError).
Proof.
  apply (run_raises_on_empty_node Sample.fleet_vacant 0%nat); [by left|reflexivity..].
Defined.

Section RoundTripFacts.
Import Scheduler Fleet.

Lemma dict_remove_absent {V} (d : dict.t V) k : dict.get d k = None -> dict.remove d k = d.
Proof.
  induction d as [|[k0 v0] d IH]; simpl; [done|].
  destruct (String.eqb k0 k); [done|]. intros H. by rewrite IH.
Qed.

Lemma server_of_insert_ne w r r' s : r <> r' ->
  server_of (with_servers w (<[r := s]> (servers w))) r' = server_of w r'.
Proof. intros Hne. unfold server_of. simpl. by rewrite lookup_total_insert_ne. Qed.

Lemma node_of_insert_ne w r r' n : r <> r' ->
  node_of (with_nodes w (<[r := n]> (nodes w))) r' = node_of w r'.
Proof. intros Hne. unfold node_of. simpl. by rewrite lookup_total_insert_ne. Qed.

Lemma server_of_insert_same w r r' s : s = server_of w r ->
  server_of (with_servers w (<[r := s]> (servers w))) r' = server_of w r'.
Proof.
  intros ->. destruct (decide (r = r')) as [->|Hne].
  - by eapply server_of_insert.
  - by apply server_of_insert_ne.
Qed.

Lemma node_of_insert_same w r r' n : n = node_of w r ->
  node_of (with_nodes w (<[r := n]> (nodes w))) r' = node_of w r'.
Proof.
  intros ->. destruct (decide (r = r')) as [->|Hne].
  - by eapply node_of_insert.
  - by apply node_of_insert_ne.
Qed.

(** The termination of a recorded task, step by step. *)
Lemma termination_run w T info now node server :
  dict.get (_nodes w) (Location.addr (Coro.location T)) = Some node ->
  dict.get (_Node.servers (node_of w node)) (str_Location (Coro.location T)) = Some server ->
  is_Some (dict.get (_Server.coros (server_of w server)) (str_Coro T)) ->
  observer_ok w = true ->
  __status_proc (PMonitorException (PCoro T) info) now w
  = (Ret tt,
     with_nodes
       (with_trace
          (with_servers w
             (<[server := _Server.with_coros (server_of w server)
                            (dict.remove (_Server.coros (server_of w server)) (str_Coro T))]>
                (servers w)))
          (trace w ++ notification w (PMonitorException (PCoro T) info))%list)
       (<[node := _Node.with_ncoros (node_of w node) (_Node.ncoros (node_of w node) - 1)]>
          (nodes w))).
Proof.
  intros Hnode Hserver [c0 Hc0] Hobs.
  unfold __status_proc, get_node, get_server, update_server, update_node, dict.pop.
  unfold_monad. rewrite Hnode. fold (node_of w node). rewrite Hserver.
  fold (server_of w server). rewrite Hc0.
  rewrite (notify_run (_cur_computation w)) by (try done; by apply (observer_ok_same w)).
  reflexivity.
Qed.

(** X13: a task that is started on a server and then terminates leaves
    every server object and every node object as it was before the
    start: the acknowledgment records the handle and adds one to the
    node's count, the termination takes the handle out and subtracts
    one.  The agent got the request, the client the handle, and the
    observer the termination. *)
Theorem start_then_terminate w c a rc node server func client coro info now :
  _cur_computation w = Some c ->
  observer_ok w = true ->
  server_initialized w server = true ->
  _Server.coro (server_of w server) = PCoro a ->
  _Server.location (server_of w server) = Coro.location rc ->
  find_server w (PLocation (Coro.location rc)) = Some (node, server) ->
  dict.get (_Server.coros (server_of w server)) (str_Coro rc) = None ->
  dict.get (_Server.done (server_of w server)) (str_Coro rc) = None ->
  exists w1 w2,
    _Server_run server func client coro (PCoro rc) w = (Ret tt, w1) /\
    dict.get (_Server.coros (server_of w1 server)) (str_Coro rc) = Some rc /\
    _Node.ncoros (node_of w1 node) = _Node.ncoros (node_of w node) + 1 /\
    __status_proc (PMonitorException (PCoro rc) info) now w1 = (Ret tt, w2) /\
    (forall r, server_of w2 r = server_of w r) /\
    (forall r, node_of w2 r = node_of w r) /\
    trace w2
    = (trace w
       ++ [Send a (PDict [("req", PStr "run"); ("auth", Computation._auth c);
                          ("func", func); ("client", PCoro coro);
                          ("notify", PCoro (_status_coro w))]);
           Deliver client (PCoro rc) None]
       ++ notification w (PMonitorException (PCoro rc) info))%list.
Proof.
  unfold server_initialized, find_server.
  intros Hc Hobs Hinit Ha Hloc Hfind Hnew Hdone.
  destruct (dict.get (_nodes w) (Location.addr (Coro.location rc))) as [node'|] eqn:Hnode;
    [|done].
  destruct (dict.get (_Node.servers (node_of w node')) (str_Location (Coro.location rc)))
    as [server'|] eqn:Hserver; [|done].
  injection Hfind as -> ->.
  assert (Hrun : exists w1,
            _Server_run server func client coro (PCoro rc) w = (Ret tt, w1) /\
            server_of w1 server
            = _Server.with_coros
                (_Server.with_done (server_of w server)
                   (dict.remove (_Server.done (server_of w server)) (str_Coro rc)))
                (dict.set (_Server.coros (server_of w server)) (str_Coro rc) rc) /\
            node_of w1 node
            = _Node.with_ncoros (node_of w node) (_Node.ncoros (node_of w node) + 1) /\
            (forall r, r <> server -> server_of w1 r = server_of w r) /\
            (forall r, r <> node -> node_of w1 r = node_of w r) /\
            _nodes w1 = _nodes w /\
            _cur_computation w1 = _cur_computation w /\
            trace w1
            = (trace w
               ++ [Send a (PDict [("req", PStr "run"); ("auth", Computation._auth c);
                                  ("func", func); ("client", PCoro coro);
                                  ("notify", PCoro (_status_coro w))]);
                   Deliver client (PCoro rc) None])%list).
  { eexists. split.
    { unfold _Server_run, _Server_run_request, _Server_run_reply, get_server, update_server,
        update_node, send, emit, dict.pop.
      unfold_monad. rewrite Hinit. simpl. rewrite Hloc, Hnode, Hc, Ha. simpl.
      store_lookup. simpl. rewrite Hdone. simpl. reflexivity. }
    split_and!; try done.
    - unfold server_of. simpl. rewrite lookup_total_insert_eq. simpl.
      by rewrite lookup_total_insert_eq.
    - unfold node_of. simpl. by rewrite lookup_total_insert_eq.
    - intros r Hne. unfold server_of. simpl. by rewrite !lookup_total_insert_ne.
    - intros r Hne. unfold node_of. simpl. by rewrite !lookup_total_insert_ne.
    - simpl. by rewrite <- app_assoc. }
  destruct Hrun as (w1 & Hrun & Hs1 & Hn1 & Hso & Hno & Hnodes1 & Hc1 & Htr1).
  exists w1. eexists. split; [exact Hrun|].
  split; [rewrite Hs1; apply dict_get_set_eq|].
  split; [by rewrite Hn1|].
  split.
  { apply termination_run.
    - by rewrite Hnodes1.
    - rewrite Hn1. exact Hserver.
    - rewrite Hs1. simpl. rewrite dict_get_set_eq. by eexists.
    - by apply (observer_ok_same w). }
  rewrite Hs1, Hn1. split_and!.
  - intros r. destruct (decide (server = r)) as [<-|Hne].
    + erewrite server_of_insert by reflexivity. simpl.
      rewrite dict_remove_set_new by exact Hnew.
      rewrite dict_remove_absent by exact Hdone.
      by destruct (server_of w server).
    + unfold server_of at 1. simpl. rewrite lookup_total_insert_ne by done.
      by apply Hso.
  - intros r. destruct (decide (node = r)) as [<-|Hne].
    + erewrite node_of_insert by reflexivity. simpl.
      replace (_Node.ncoros (node_of w node) + 1 - 1) with (_Node.ncoros (node_of w node))
        by lia.
      by destruct (node_of w node).
    + unfold node_of at 1. simpl. rewrite lookup_total_insert_ne by done.
      by apply Hno.
  - simpl. unfold notification. rewrite Hc1, Htr1. by rewrite <- !app_assoc.
Qed.
End RoundTripFacts.

Lemma start_then_terminate_witness :
  exists w1 w2,
    Scheduler._Server_run 1%nat (PBytes "compute") Sample.client Sample.worker
                          (PCoro Sample.task2) Sample.fleet = (Ret tt, w1) /\
    dict.get (Scheduler._Server.coros (Scheduler.server_of w1 1%nat)) (str_Coro Sample.task2)
      = Some Sample.task2 /\
    Scheduler._Node.ncoros (Scheduler.node_of w1 0%nat)
      = Scheduler._Node.ncoros (Scheduler.node_of Sample.fleet 0%nat) + 1 /\
    Scheduler.__status_proc (PMonitorException (PCoro Sample.task2) PNone) Sample.t100 w1
      = (Ret tt, w2) /\
    (forall r, Scheduler.server_of w2 r = Scheduler.server_of Sample.fleet r) /\
    (forall r, Scheduler.node_of w2 r = Scheduler.node_of Sample.fleet r) /\
    Scheduler.trace w2
    = (Scheduler.trace Sample.fleet
       ++ [Send Sample.agent2
             (PDict [("req", PStr "run");
                     ("auth", Computation._auth Sample.computation);
                     ("func", PBytes "compute"); ("client", PCoro Sample.worker);
                     ("notify", PCoro (Scheduler._status_coro Sample.fleet))]);
           Deliver Sample.client (PCoro Sample.task2) None]
       ++ Fleet.notification Sample.fleet (PMonitorException (PCoro Sample.task2) PNone))%list.
Proof.
  apply (start_then_terminate Sample.fleet Sample.computation Sample.agent2 Sample.task2
           0%nat 1%nat); reflexivity.
Defined.

